(** * teuthology.provision.fog: reimaging a bare-metal node through FOG

    A shallow embedding of [teuthology/provision/fog.py] and the properties
    of its reimaging sequence.  The module drives three outside systems: the
    FOG server (HTTP), the node's console (power) and the node itself (SSH).
    They are interfaces here ([Http], [Console], [Remote], [Clock]); the code
    of [fog.py] is written once over any implementation of them, in a monad
    that threads the state of the outside world and records every call that
    crosses the boundary. *)

From Stdlib Require Import ZArith List String Ascii Bool Lia.
From stdpp Require Import base gmap strings.
Import ListNotations.

Local Open Scope string_scope.
Local Open Scope list_scope.
Local Open Scope Z_scope.

(** ** Python values *)

#[local] Set Warnings "-register-all".

(** What [resp.json()] returns.  Numbers are integers: the fields the module
    reads ([count], [id]) are counts and identifiers. *)
Inductive json : Type :=
| JNull
| JBool (b : bool)
| JInt (n : Z)
| JStr (s : string)
| JList (l : list json)
| JDict (kv : list (string * json)).

(** Exceptions, by class.  [KeyboardInterrupt] and [SystemExit] derive from
    [BaseException] only; every other class derives from [Exception].  A
    [RuntimeError] of the module carries its message: the format and the
    values formatted into it. *)
Inductive exc : Type :=
| RuntimeError (msg : string) (args : list json)
| HTTPError (status : Z)
| JSONDecodeError
| KeyError (key : string)
| IndexError
| TypeError
| ValueError
| AttributeError
| MaxWhileTries
| OSError
| ConnectionError
| NoValidConnectionsError
| SSHException
| EOFError
| CommandFailedError
| KeyboardInterrupt
| SystemExit.

Definition is_Exception (e : exc) : bool :=
  match e with
  | KeyboardInterrupt | SystemExit => false
  | _ => true
  end.

Inductive result (A : Type) : Type :=
| Ok (a : A)
| Raise (e : exc).
Arguments Ok {A} a.
Arguments Raise {A} e.

(** [bool(x)] *)
Definition truthy (v : json) : bool :=
  match v with
  | JNull => false
  | JBool b => b
  | JInt n => negb (n =? 0)
  | JStr s => negb (String.eqb s "")
  | JList l => match l with [] => false | _ => true end
  | JDict kv => match kv with [] => false | _ => true end
  end.

Fixpoint assoc {A} (k : string) (kv : list (string * A)) : option A :=
  match kv with
  | [] => None
  | (k', v) :: rest => if String.eqb k k' then Some v else assoc k rest
  end.

(** [a == b] on values that came out of JSON.  [True == 1] and [False == 0]
    as in Python; dictionaries compare regardless of the order of keys. *)
Fixpoint py_eq (a b : json) {struct a} : bool :=
  match a, b with
  | JNull, JNull => true
  | JBool x, JBool y => Bool.eqb x y
  | JBool x, JInt n => Z.b2z x =? n
  | JInt n, JBool x => n =? Z.b2z x
  | JInt n, JInt m => n =? m
  | JStr s, JStr t => String.eqb s t
  | JList l, JList l' =>
      (fix go (l l' : list json) : bool :=
         match l, l' with
         | [], [] => true
         | x :: t, y :: t' => py_eq x y && go t t'
         | _, _ => false
         end) l l'
  | JDict d, JDict d' =>
      (length d =? length d')%nat &&
      (fix go (d : list (string * json)) : bool :=
         match d with
         | [] => true
         | (k, v) :: t =>
             match assoc k d' with
             | Some v' => py_eq v v'
             | None => false
             end && go t
         end) d
  | _, _ => false
  end.

(** [o[key]] for a string key *)
Definition getitem (o : json) (key : string) : result json :=
  match o with
  | JDict kv => match assoc key kv with
                | Some v => Ok v
                | None => Raise (KeyError key)
                end
  | _ => Raise TypeError
  end.

(** [o[0]] *)
Definition getitem0 (o : json) : result json :=
  match o with
  | JList (x :: _) => Ok x
  | JList [] => Raise IndexError
  | JStr (String c _) => Ok (JStr (String c ""))
  | JStr EmptyString => Raise IndexError
  | JDict _ => Raise (KeyError "0")
  | _ => Raise TypeError
  end.

(** [for x in o]: the items a [for] loop or a comprehension visits. *)
Fixpoint chars (s : string) : list json :=
  match s with
  | EmptyString => []
  | String c t => JStr (String c "") :: chars t
  end.

Definition iterate (o : json) : result (list json) :=
  match o with
  | JList l => Ok l
  | JStr s => Ok (chars s)
  | JDict kv => Ok (map (fun p => JStr (fst p)) kv)
  | _ => Raise TypeError
  end.

(** ** Strings *)

Definition is_upper (c : ascii) : bool :=
  let n := nat_of_ascii c in ((65 <=? n) && (n <=? 90))%nat.

Definition lower_ascii (c : ascii) : ascii :=
  if is_upper c then ascii_of_nat (nat_of_ascii c + 32) else c.

(** [s.lower()], on the ASCII letters *)
Fixpoint lower (s : string) : string :=
  match s with
  | EmptyString => EmptyString
  | String c t => String (lower_ascii c) (lower t)
  end.

(** [s.startswith(p)] *)
Fixpoint startswith (s p : string) : bool :=
  match p, s with
  | EmptyString, _ => true
  | String a p', String b s' => Ascii.eqb a b && startswith s' p'
  | String _ _, EmptyString => false
  end.

(** [s.endswith(suffix)] *)
Definition endswith (s suffix : string) : bool :=
  let n := String.length s in
  let m := String.length suffix in
  (m <=? n)%nat && String.eqb (substring (n - m) m s) suffix.

(** [str.isspace] on one character of the ASCII range *)
Definition is_space (c : ascii) : bool :=
  let n := nat_of_ascii c in
  (((9 <=? n) && (n <=? 13)) || ((28 <=? n) && (n <=? 32)))%nat.

Fixpoint lstrip (s : string) : string :=
  match s with
  | EmptyString => EmptyString
  | String c t => if is_space c then lstrip t else s
  end.

Fixpoint rstrip (s : string) : string :=
  match s with
  | EmptyString => EmptyString
  | String c t =>
      match rstrip t with
      | EmptyString => if is_space c then EmptyString else String c EmptyString
      | t' => String c t'
      end
  end.

(** [s.strip()] *)
Definition strip (s : string) : string := rstrip (lstrip s).

(** [s.split(sep)] for a one-character separator: always at least one field *)
Fixpoint split_on (sep : ascii) (s : string) : list string :=
  match s with
  | EmptyString => [EmptyString]
  | String c t =>
      if Ascii.eqb c sep then EmptyString :: split_on sep t
      else match split_on sep t with
           | [] => [String c EmptyString]
           | f :: fs => String c f :: fs
           end
  end.

(** [re.split(r'\s+', s)[0]]: the text before the first run of white space *)
Fixpoint first_field (s : string) : string :=
  match s with
  | EmptyString => EmptyString
  | String c t => if is_space c then EmptyString else String c (first_field t)
  end.

(** [old in s] *)
Fixpoint contains (s old : string) : bool :=
  startswith s old ||
  match s with
  | EmptyString => false
  | String _ t => contains t old
  end.

(** Replacement of every occurrence of [old], found from left to right, by
    [new]; [skip] counts the characters of a match still to pass over. *)
Fixpoint replace_from (old new : string) (skip : nat) (s : string) : string :=
  match s with
  | EmptyString => EmptyString
  | String c t =>
      match skip with
      | S k => replace_from old new k t
      | O =>
          if startswith s old
          then (new ++ replace_from old new (String.length old - 1) t)%string
          else String c (replace_from old new 0 t)
      end
  end.

Definition replace_all (old new s : string) : string :=
  match old with
  | EmptyString => s
  | _ => replace_from old new 0 s
  end.

(** The non-empty suffixes of a string, longest first. *)
Fixpoint suffixes (s : string) : list string :=
  match s with
  | EmptyString => []
  | String _ t => s :: suffixes t
  end.

(** A non-empty end of [a] is a beginning of [b]. *)
Definition overlap (a b : string) : bool :=
  existsb (fun y => startswith b y) (suffixes a).

(** [new] lies in [old] with text of [old] on both sides. *)
Definition within (old new : string) : bool :=
  match old with
  | EmptyString => false
  | String _ t =>
      existsb (fun w => startswith w new && (String.length new <? String.length w)%nat)
              (suffixes t)
  end.

(** Writing [new] into a text cannot complete an occurrence of [old]:
    [old] is not in [new], no end of one is a beginning of the other, and
    [new] is not in the middle of [old]. *)
Definition separate (old new : string) : bool :=
  negb (contains new old) && negb (overlap new old) &&
  negb (overlap old new) && negb (within old new).

(** A reading of decimal numerals with an optional sign and surrounding
    white space. *)
Definition digit_of (c : ascii) : option Z :=
  let n := nat_of_ascii c in
  if ((48 <=? n) && (n <=? 57))%nat then Some (Z.of_nat n - 48) else None.

Fixpoint digits_from (acc : Z) (s : string) : option Z :=
  match s with
  | EmptyString => Some acc
  | String c t =>
      match digit_of c with
      | Some d => digits_from (10 * acc + d) t
      | None => None
      end
  end.

Definition int_of_str (s : string) : option Z :=
  match strip s with
  | EmptyString => None
  | String "-" (String c t) => option_map Z.opp (digits_from 0 (String c t))
  | String "+" (String c t) => digits_from 0 (String c t)
  | t => digits_from 0 t
  end.

(** The conversions of the Python runtime.  [int(s)] of a string [s] is the
    runtime's own: [str_to_int s] is the integer that [int] reads in [s], or
    [None] where [int] raises [ValueError]. *)
Class Runtime : Type := {
  str_to_int : string -> option Z
}.

(** [int(v)] *)
Definition py_int `{!Runtime} (v : json) : result Z :=
  match v with
  | JInt n => Ok n
  | JBool b => Ok (Z.b2z b)
  | JStr s => match str_to_int s with
              | Some n => Ok n
              | None => Raise ValueError
              end
  | _ => Raise TypeError
  end.

(** ** Configuration *)

(** A value of the YAML configuration. *)
Inductive cval : Type :=
| CStr (s : string)
| CInt (n : Z)
| CList (l : list string).

Definition cval_truthy (v : cval) : bool :=
  match v with
  | CStr s => negb (String.eqb s "")
  | CInt n => negb (n =? 0)
  | CList l => match l with [] => false | _ => true end
  end.

(** [teuthology.config.config], as far as the module reads it.
    [fog_section] is [config.fog]: [None] when the configuration has no
    [fog] section. *)
Record config_t : Type := {
  fog_section : option (gmap string cval);
  fog_reimage_timeout : Z;
  fog_wait_for_ssh_timeout : Z
}.

(** [config.get('fog', dict())]: empty when the section is missing. *)
Definition fog (conf : config_t) : gmap string cval :=
  match fog_section conf with
  | Some section => section
  | None => ∅
  end.

(** [not fog_conf.get(param)] *)
Definition unset_param (fog_conf : gmap string cval) (param : string) : bool :=
  match fog_conf !! param with
  | Some v => negb (cval_truthy v)
  | None => true
  end.

Definition params : list string :=
  ["endpoint"; "api_token"; "user_token"; "machine_types"].

(** ** The calls that leave the process *)

(** One constructor for each place where [do_request] is called; the path,
    the method and the body are the ones written there. *)
Inductive request : Type :=
| ReqHost (name : string)                 (* GET /host {"name": name} *)
| ReqImage (name : string)                (* GET /image {"name": name} *)
| ReqImageSearch (machine_type : string)  (* GET /image/search/<type> *)
| ReqSetImage (host_id image_id : Z)      (* PUT /host/<id> {"imageID": id} *)
| ReqTaskType                             (* GET /tasktype {"name": "deploy"} *)
| ReqSchedule (host_id deploy_id : Z)     (* POST /host/<id>/task {"taskTypeID": id} *)
| ReqActiveTasks                          (* GET /task/active *)
| ReqCancel (task_id : json).             (* DELETE /task/cancel {"id": id} *)

Inductive http_method : Type := GET | PUT | POST | DELETE.

Definition method_of (r : request) : http_method :=
  match r with
  | ReqSetImage _ _ => PUT
  | ReqSchedule _ _ => POST
  | ReqCancel _ => DELETE
  | _ => GET
  end.

(** A [requests.models.Response]: the status and the body, [None] when the
    body is not JSON. *)
Record response : Type := {
  status_code : Z;
  body : option json
}.

(** [resp.ok]: no [HTTPError] from [raise_for_status], that is a status
    outside 400..599. *)
Definition ok (resp : response) : bool :=
  negb ((400 <=? status_code resp) && (status_code resp <? 600)).

Inductive etc_file : Type := EtcHosts | EtcHostname.

(** The shell commands the module runs on the node. *)
Inductive remote_cmd : Type :=
| CmdHostname                                   (* hostname *)
| CmdGrepHosts (pattern : string)               (* grep <pattern> /etc/hosts *)
| CmdSetHostname (name : string)                (* sudo hostname <name> *)
| CmdSed (old new : string) (file : etc_file)   (* sudo sed -i -e 's/<old>/<new>/g' <file> *)
| CmdWaitSentinel (path : cval).                (* while [ ! -e '<path>' ]; do sleep 5; done *)

Inductive level : Type := Debug | Info | Warning | Error.

Inductive event : Type :=
| EvRequest (r : request)
| EvPowerOff
| EvPowerOn
| EvConnect
| EvRun (c : remote_cmd) (check_status : bool)
| EvSh (c : remote_cmd) (check_status : bool)
| EvSleep (seconds : Z)
| EvNow (instant : Z)
| EvLog (lvl : level) (msg : string).

(** Modelled from the spec: [OS] of [teuthology.orchestra.opsys] is not among
    the sources.  An OS identity is a name and a version, and two identities
    are the same when both agree. *)
Record os_t : Type := { os_name : string; os_version_of : string }.

Definition os_eqb (a b : os_t) : bool :=
  String.eqb (os_name a) (os_name b) &&
  String.eqb (os_version_of a) (os_version_of b).

(** ** The outside world *)

(** The FOG server: [requests.Session().send] of a prepared request, with the
    two token headers and the endpoint taken from the configuration. *)
Class Http (W : Type) : Type := {
  http_send : cval -> cval -> cval -> request -> W -> result response * W
}.

(** [remote.console] *)
Class Console (W : Type) : Type := {
  power_off : W -> result unit * W;
  power_on : W -> result unit * W
}.

(** [teuthology.orchestra.remote.Remote] *)
Class Remote (W : Type) : Type := {
  connect : W -> result unit * W;
  run : remote_cmd -> bool -> option Z -> W -> result unit * W;
  sh : remote_cmd -> bool -> W -> result string * W;
  ip_address : W -> string;
  remote_os : W -> result os_t * W
}.

(** [datetime] and [time]: instants are microseconds since the epoch, UTC.
    [strptime] parses a time stamp in ['%Y-%m-%d %H:%M:%S']. *)
Class Clock (W : Type) : Type := {
  utcnow : W -> Z * W;
  sleep : Z -> W -> W;
  strptime : string -> option Z
}.

(** ** The monad of the module

    A computation starts in a state of the world and ends with a value or an
    exception, a new state of the world, and the boundary calls it made, in
    order. *)
Definition M (W A : Type) : Type := W -> result A * W * list event.

Definition ret {W A} (a : A) : M W A := fun w => (Ok a, w, []).

Definition raise {W A} (e : exc) : M W A := fun w => (Raise e, w, []).

Definition bind {W A B} (c : M W A) (k : A -> M W B) : M W B :=
  fun w =>
    match c w with
    | (Ok a, w1, evs1) =>
        match k a w1 with
        | (r, w2, evs2) => (r, w2, evs1 ++ evs2)
        end
    | (Raise e, w1, evs1) => (Raise e, w1, evs1)
    end.

Declare Scope fog_scope.
Delimit Scope fog_scope with fog.
Notation "x <- c ;; k" := (bind c (fun x => k))
  (at level 100, c at next level, k at level 200, right associativity) : fog_scope.
Notation "c ;; k" := (bind c (fun _ => k))
  (at level 100, k at level 200, right associativity) : fog_scope.
Local Open Scope fog_scope.

(** A value or an exception computed without touching the world. *)
Definition lift {W A} (r : result A) : M W A := fun w => (r, w, []).

(** A boundary call: recorded whether or not it raises. *)
Definition call {W A} (ev : event) (f : W -> result A * W) : M W A :=
  fun w => match f w with (r, w') => (r, w', [ev]) end.

Definition log {W} (lvl : level) (msg : string) : M W unit :=
  fun w => (Ok tt, w, [EvLog lvl msg]).

(** [try: c / except <classes>: handler], the classes given by [catches]. *)
Definition try_except {W A} (catches : exc -> bool)
    (c : M W A) (handler : exc -> M W A) : M W A :=
  fun w =>
    match c w with
    | (Ok a, w1, evs1) => (Ok a, w1, evs1)
    | (Raise e, w1, evs1) =>
        if catches e then
          match handler e w1 with
          | (r, w2, evs2) => (r, w2, evs1 ++ evs2)
          end
        else (Raise e, w1, evs1)
    end.

(** The pure fragment: [result] alone. *)
Definition rbind {A B} (r : result A) (k : A -> result B) : result B :=
  match r with
  | Ok a => k a
  | Raise e => Raise e
  end.

Fixpoint rfilter {A} (p : A -> result bool) (l : list A) : result (list A) :=
  match l with
  | [] => Ok []
  | x :: t =>
      rbind (p x) (fun keep =>
      rbind (rfilter p t) (fun t' =>
      Ok (if keep then x :: t' else t')))
  end.

Fixpoint rmap {A B} (f : A -> result B) (l : list A) : result (list B) :=
  match l with
  | [] => Ok []
  | x :: t =>
      rbind (f x) (fun y =>
      rbind (rmap f t) (fun t' =>
      Ok (y :: t')))
  end.

(** [resp.json()] *)
Definition resp_json (resp : response) : result json :=
  match body resp with
  | Some v => Ok v
  | None => Raise JSONDecodeError
  end.

(** [resp.raise_for_status()] *)
Definition raise_for_status (resp : response) : result unit :=
  if ok resp then Ok tt else Raise (HTTPError (status_code resp)).

(** ** Bounded polling *)

(** Modelled from the spec: [safe_while] of [teuthology.contextutil], which
    is not among the sources.  A wait makes an attempt, and between two
    attempts it sleeps; it is bounded by an attempt count and/or an overall
    timeout, whichever triggers first, and on exhaustion it fails (here with
    [MaxWhileTries], the class [fog.py] imports next to it).  The time
    counted against the timeout is the time slept.  The interval between
    attempts starts at [sw_sleep] and grows by [sw_increment]. *)
Record safe_while : Type := {
  sw_sleep : positive;
  sw_increment : N;
  sw_tries : option Z;
  sw_timeout : Z
}.

(** The sleeps of a wait none of whose attempts succeeds: at most [n], and
    none once [total] seconds of sleep have reached the timeout. *)
Fixpoint sleeps (n : nat) (timeout increment total current : Z) : list Z :=
  match n with
  | O => []
  | S n' =>
      if timeout <=? total then []
      else current :: sleeps n' timeout increment (total + current) (current + increment)
  end.

(** With an attempt count [t] there are at most [t - 1] sleeps.  Without one
    the timeout alone ends the wait: as every sleep lasts a second or more,
    there are at most [timeout] of them. *)
Definition sw_sleeps (sw : safe_while) : list Z :=
  sleeps
    (match sw_tries sw with
     | Some t => Z.to_nat (t - 1)
     | None => Z.to_nat (sw_timeout sw)
     end)
    (sw_timeout sw) (Z.of_N (sw_increment sw)) 0 (Z.pos (sw_sleep sw)).

(** ** The module *)

Definition unset (conf : config_t) : list string :=
  List.filter (unset_param (fog conf)) params.

(** [self] of [FOG]: [shortname] and [machine_type] come from the [Remote]
    built in [__init__]. *)
Record FOG : Type := {
  shortname : string;
  os_type : string;
  os_version : string;
  machine_type : string
}.

Section Module.

Context {W : Type} `{!Runtime, !Http W, !Console W, !Remote W, !Clock W}.

(** The process-wide configuration object. *)
Variable config : config_t.

(** The interval of a [safe_while] that is given none. *)
Variable default_sleep : positive.

Definition enabled (warn : bool) : M W bool :=
  let unset := unset config in
  (match unset with
   | _ :: _ =>
       if warn
       then log Warning "FOG disabled; set the following config options to enable: %s"
       else ret tt
   | [] => ret tt
   end) ;;
  ret (match unset with [] => true | _ => false end).

Definition get_types : M W (list string) :=
  on <- enabled false ;;
  if negb on then ret []
  else
    types <- lift (match fog config !! "machine_types" with
                   | Some (CList l) => Ok l
                   | Some (CStr s) => Ok (split_on "," s)
                   | None => Ok (split_on "," "")
                   | Some (CInt _) => Raise AttributeError
                   end) ;;
    ret (List.filter (fun t => negb (String.eqb t "")) types).

Variable self : FOG.

(** [config.fog[key]]; without a [fog] section [config.fog] is [None], which
    cannot be subscripted. *)
Definition fog_item (key : string) : M W cval :=
  match fog_section config with
  | Some section =>
      match section !! key with
      | Some v => ret v
      | None => raise (KeyError key)
      end
  | None => raise TypeError
  end.

(** [config.fog.get(key, None)]; [None] has no [get]. *)
Definition fog_get (key : string) : M W (option cval) :=
  match fog_section config with
  | Some section => ret (section !! key)
  | None => raise AttributeError
  end.

Definition do_request (req : request) (verify : bool) : M W response :=
  api_token <- fog_item "api_token" ;;
  user_token <- fog_item "user_token" ;;
  endpoint <- fog_item "endpoint" ;;
  resp <- call (EvRequest req) (http_send api_token user_token endpoint req) ;;
  (if negb (ok resp) then log Error "Got status {resp.status_code} from {url_suffix}: '{resp.text}'"
   else ret tt) ;;
  (if verify then lift (raise_for_status resp) else ret tt) ;;
  ret resp.

Definition get_host_data : M W json :=
  resp <- do_request (ReqHost (shortname self)) true ;;
  obj <- lift (resp_json resp) ;;
  count <- lift (getitem obj "count") ;;
  if py_eq count (JInt 0) then raise (RuntimeError "Host %s not found!" [JStr (shortname self)])
  else
    many <- lift (match count with
                  | JInt n => Ok (1 <? n)
                  | JBool b => Ok (1 <? Z.b2z b)
                  | _ => Raise TypeError
                  end) ;;
    if (many : bool) then raise (RuntimeError "More than one host found for %s" [JStr (shortname self)])
    else
      hosts <- lift (getitem obj "hosts") ;;
      lift (getitem0 hosts).

Definition suggest_image_names : M W (list json) :=
  resp <- do_request (ReqImageSearch (machine_type self)) true ;;
  obj <- lift (resp_json resp) ;;
  images <- lift (getitem obj "images") ;;
  items <- lift (iterate images) ;;
  lift (rmap (fun image => getitem image "name") items).

(** The inner [do_get] of [get_image_data]: the image, or [None]. *)
Definition do_get (name : string) : M W json :=
  resp <- do_request (ReqImage name) true ;;
  obj <- lift (resp_json resp) ;;
  count <- lift (getitem obj "count") ;;
  if truthy count then
    images <- lift (getitem obj "images") ;;
    lift (getitem0 images)
  else ret JNull.

Definition image_name : string :=
  (machine_type self ++ "_" ++ lower (os_type self) ++ "_" ++ os_version self)%string.

Definition stream_applies : bool :=
  String.eqb (lower (os_type self)) "centos" &&
  negb (endswith (os_version self) ".stream").

Definition get_image_data : M W json :=
  let name := image_name in
  image <- do_get name ;;
  if truthy image then ret image
  else
    image <- (if stream_applies then do_get (name ++ ".stream")%string
              else ret image) ;;
    if truthy image then ret image
    else
      names <- suggest_image_names ;;
      raise (RuntimeError "Fog has no %s image. Available %s images: %s"
               [JStr name; JStr (machine_type self); JList names]).

Definition set_image (host_id : Z) : M W unit :=
  image_data <- get_image_data ;;
  id <- lift (getitem image_data "id") ;;
  image_id <- lift (py_int id) ;;
  log Debug "Requesting image {image_name} (ID {image_id})" ;;
  do_request (ReqSetImage host_id image_id) true ;;
  ret tt.

Definition get_deploy_tasks : M W (list json) :=
  resp <- do_request ReqActiveTasks true ;;
  match rbind (resp_json resp) (fun obj => getitem obj "tasks") with
  | Raise e =>
      if is_Exception e then
        log Error "Failed to get deploy tasks!" ;;
        ret []
      else raise e
  | Ok tasks =>
      items <- lift (iterate tasks) ;;
      lift (rfilter
              (fun obj =>
                 rbind (getitem obj "host") (fun host =>
                 rbind (getitem host "name") (fun name =>
                 Ok (py_eq name (JStr (shortname self))))))
              items)
  end.

Definition cancel_deploy_task (task_id : json) : M W unit :=
  log Debug "Canceling deploy task with ID {task_id}" ;;
  resp <- do_request (ReqCancel task_id) true ;;
  lift (raise_for_status resp).

(** [for task in tasks: self.cancel_deploy_task(task['id'])] *)
Fixpoint cancel_all (tasks : list json) : M W unit :=
  match tasks with
  | [] => ret tt
  | task :: rest =>
      id <- lift (getitem task "id") ;;
      cancel_deploy_task id ;;
      cancel_all rest
  end.

(** [datetime.strptime(timestamp, self.timestamp_format)] *)
Definition parse_timestamp (timestamp : json) : result Z :=
  match timestamp with
  | JStr s => match strptime s with
              | Some t => Ok t
              | None => Raise ValueError
              end
  | _ => Raise TypeError
  end.

Definition five_seconds : Z := 5 * 1000000.

(** [datetime.datetime.now(datetime.timezone.utc)] *)
Definition read_clock : M W Z :=
  fun w => match utcnow w with (t, w') => (Ok t, w', [EvNow t]) end.

(** The last loop of [schedule_deploy_task]; [None] when it falls through. *)
Fixpoint select_recent (host_tasks : list json) : M W json :=
  match host_tasks with
  | [] => ret JNull
  | task :: rest =>
      timestamp <- lift (getitem task "createdTime") ;;
      now <- read_clock ;;
      created <- lift (parse_timestamp timestamp) ;;
      let time_delta := now - created in
      if time_delta <? five_seconds then lift (getitem task "id")
      else select_recent rest
  end.

Definition schedule_deploy_task (host_id : Z) : M W json :=
  log Info "Scheduling deploy of %s %s" ;;
  tasks <- get_deploy_tasks ;;
  cancel_all tasks ;;
  resp <- do_request ReqTaskType true ;;
  obj <- lift (resp_json resp) ;;
  all_types <- lift (getitem obj "tasktypes") ;;
  items <- lift (iterate all_types) ;;
  tasktypes <- lift (rfilter
                       (fun obj =>
                          rbind (getitem obj "name") (fun name =>
                          match name with
                          | JStr s => Ok (String.eqb (lower s) "deploy")
                          | _ => Raise AttributeError
                          end))
                       items) ;;
  first <- lift (getitem0 (JList tasktypes)) ;;
  id <- lift (getitem first "id") ;;
  deploy_id <- lift (py_int id) ;;
  do_request (ReqSchedule host_id deploy_id) true ;;
  host_tasks <- get_deploy_tasks ;;
  select_recent host_tasks.

Definition deploy_task_active (task_id : json) : M W bool :=
  host_tasks <- get_deploy_tasks ;;
  matches <- lift (rmap (fun task =>
                           rbind (getitem task "id") (fun id =>
                           Ok (py_eq id task_id)))
                        host_tasks) ;;
  ret (existsb (fun b => b) matches).

(** [with safe_while(...) as proceed: while proceed(): ...], the body
    returning whether it reached its [break]. *)
Fixpoint poll (pauses : list Z) (attempt : M W bool) : M W unit :=
  done <- attempt ;;
  if (done : bool) then ret tt
  else
    match pauses with
    | [] => raise MaxWhileTries
    | pause :: rest =>
        call (EvSleep pause) (fun w => (Ok tt, sleep pause w)) ;;
        poll rest attempt
    end.

Definition deploy_wait : safe_while :=
  {| sw_sleep := 15; sw_increment := 0; sw_tries := Some 120;
     sw_timeout := fog_reimage_timeout config |}.

Definition wait_for_deploy_task (task_id : json) : M W unit :=
  log Info "Waiting for deploy to finish" ;;
  poll (sw_sleeps deploy_wait)
    (active <- deploy_task_active task_id ;;
     ret (negb active)).

(** [socket.error] is [OSError]; [requests]' errors derive from it. *)
Definition is_OSError (e : exc) : bool :=
  match e with
  | OSError | ConnectionError | NoValidConnectionsError | HTTPError _ => true
  | _ => false
  end.

Definition ssh_retried (e : exc) : bool :=
  is_OSError e ||
  match e with
  | SSHException | MaxWhileTries | EOFError => true
  | _ => false
  end.

Definition sentinel_retried (e : exc) : bool :=
  match e with
  | ConnectionError | EOFError => true
  | _ => false
  end.

Definition ssh_wait : safe_while :=
  {| sw_sleep := 6; sw_increment := 0; sw_tries := None;
     sw_timeout := fog_wait_for_ssh_timeout config |}.

Definition sentinel_wait : safe_while :=
  {| sw_sleep := default_sleep; sw_increment := 3; sw_tries := None;
     sw_timeout := 1800 |}.

(** The sentinel file the configuration names, when it names one. *)
Definition sentinel_file : option cval :=
  match fog config !! "sentinel_file" with
  | Some v => if cval_truthy v then Some v else None
  | None => None
  end.

(** The body of the second loop of [_wait_for_ready]: whether it reached
    its [break]. *)
Definition sentinel_attempt (path : cval) : M W bool :=
  try_except sentinel_retried
    (call (EvRun (CmdWaitSentinel path) true)
          (run (CmdWaitSentinel path) true (Some 600)) ;;
     ret true)
    (fun e => log Error "{e} on {self.shortname}" ;; ret false).

Definition wait_for_sentinel (path : cval) : M W unit :=
  poll (sw_sleeps sentinel_wait) (sentinel_attempt path).

(** The body of the first loop of [_wait_for_ready]. *)
Definition connect_attempt : M W bool :=
  try_except ssh_retried
    (call EvConnect connect ;; ret true)
    (fun e => log Warning "%s" ;; ret false).

Definition _wait_for_ready : M W unit :=
  poll (sw_sleeps ssh_wait) connect_attempt ;;
  found <- fog_get "sentinel_file" ;;
  (match found with
   | Some path => if cval_truthy path then wait_for_sentinel path else ret tt
   | None => ret tt
   end) ;;
  log Info "Node is ready".

Definition first_line (s : string) : string :=
  match split_on "010" s with
  | l :: _ => l
  | [] => EmptyString
  end.

Definition _fix_hostname : M W unit :=
  out <- call (EvSh CmdHostname true) (sh CmdHostname true) ;;
  let wrong_hostname := strip out in
  out <- call (EvSh (CmdGrepHosts wrong_hostname) false)
              (sh (CmdGrepHosts wrong_hostname) false) ;;
  let etc_hosts := strip out in
  (if negb (String.eqb etc_hosts "") then
     let wrong_ip := first_field (strip (first_line etc_hosts)) in
     call (EvRun (CmdSetHostname (shortname self)) true)
          (run (CmdSetHostname (shortname self)) true None) ;;
     call (EvRun (CmdSed wrong_hostname (shortname self) EtcHosts) true)
          (run (CmdSed wrong_hostname (shortname self) EtcHosts) true None) ;;
     new_ip <- (fun w => (Ok (ip_address w), w, [])) ;;
     call (EvRun (CmdSed wrong_ip new_ip EtcHosts) true)
          (run (CmdSed wrong_ip new_ip EtcHosts) true None)
   else ret tt) ;;
  call (EvRun (CmdSed wrong_hostname (shortname self) EtcHostname) false)
       (run (CmdSed wrong_hostname (shortname self) EtcHostname) false None) ;;
  call (EvRun (CmdSetHostname (shortname self)) false)
       (run (CmdSetHostname (shortname self)) false None).

Definition _verify_installed_os : M W unit :=
  let wanted_os := {| os_name := os_type self; os_version_of := os_version self |} in
  found <- (fun w => match remote_os w with (r, w') => (r, w', []) end) ;;
  if negb (os_eqb found wanted_os)
  then raise (RuntimeError "Expected {shortname}'s OS to be {wanted_os} but found {os}"
                [JStr (shortname self)])
  else ret tt.

Definition create : M W unit :=
  on <- enabled false ;;
  if negb on then raise (RuntimeError "FOG is not configured!" [])
  else
    host_data <- get_host_data ;;
    id <- lift (getitem host_data "id") ;;
    host_id <- lift (py_int id) ;;
    set_image host_id ;;
    task_id <- schedule_deploy_task host_id ;;
    try_except is_Exception
      (call EvPowerOff power_off ;;
       call EvPowerOn power_on ;;
       wait_for_deploy_task task_id)
      (fun e => cancel_deploy_task task_id ;; raise e) ;;
    _wait_for_ready ;;
    _fix_hostname ;;
    _verify_installed_os ;;
    log Info "Deploy complete!".

Definition destroy : M W unit := ret tt.

End Module.

(** ** A scripted world

    The answers of the outside world are read off lists, one entry per
    call; a list that has run out answers with a default.  This is the
    world of the concrete runs below. *)
Module Scripted.

Record world : Type := {
  responses : list (result response);
  powers : list (result unit);
  connects : list (result unit);
  runs : list (result unit);
  outputs : list (result string);
  clock : list Z;
  address : string;
  system : os_t;
  slept : Z
}.

Definition next {A} (default : A) (l : list A) : A * list A :=
  match l with
  | [] => (default, [])
  | x :: t => (x, t)
  end.

Definition empty_200 : response := {| status_code := 200; body := None |}.

#[export] Instance scripted_http : Http world := {
  http_send _ _ _ _ w :=
    let '(r, rest) := next (Ok empty_200) (responses w) in
    (r, {| responses := rest; powers := powers w; connects := connects w;
           runs := runs w; outputs := outputs w; clock := clock w;
           address := address w; system := system w; slept := slept w |})
}.

Definition power (w : world) : result unit * world :=
  let '(r, rest) := next (Ok tt) (powers w) in
  (r, {| responses := responses w; powers := rest; connects := connects w;
         runs := runs w; outputs := outputs w; clock := clock w;
         address := address w; system := system w; slept := slept w |}).

#[export] Instance scripted_console : Console world := {
  power_off := power;
  power_on := power
}.

#[export] Instance scripted_remote : Remote world := {
  connect w :=
    let '(r, rest) := next (Ok tt) (connects w) in
    (r, {| responses := responses w; powers := powers w; connects := rest;
           runs := runs w; outputs := outputs w; clock := clock w;
           address := address w; system := system w; slept := slept w |});
  run _ _ _ w :=
    let '(r, rest) := next (Ok tt) (runs w) in
    (r, {| responses := responses w; powers := powers w; connects := connects w;
           runs := rest; outputs := outputs w; clock := clock w;
           address := address w; system := system w; slept := slept w |});
  sh _ _ w :=
    let '(r, rest) := next (Ok EmptyString) (outputs w) in
    (r, {| responses := responses w; powers := powers w; connects := connects w;
           runs := runs w; outputs := rest; clock := clock w;
           address := address w; system := system w; slept := slept w |});
  ip_address w := address w;
  remote_os w := (Ok (system w), w)
}.

(** Days from 1970-01-01 to a date of the Gregorian calendar. *)
Definition days_from_civil (year month day : Z) : Z :=
  let y := if month <=? 2 then year - 1 else year in
  let era := y / 400 in
  let yoe := y - era * 400 in
  let doy := (153 * (if 2 <? month then month - 3 else month + 9) + 2) / 5 + day - 1 in
  let doe := yoe * 365 + yoe / 4 - yoe / 100 + doy in
  era * 146097 + doe - 719468.

Definition days_in_month (year month : Z) : Z :=
  if month =? 2 then
    if ((year mod 4 =? 0) && negb (year mod 100 =? 0)) || (year mod 400 =? 0)
    then 29 else 28
  else if (month =? 4) || (month =? 6) || (month =? 9) || (month =? 11) then 30
  else 31.

Definition field (s : string) (start len : nat) : option Z :=
  digits_from 0 (substring start len s).

Definition separator (s : string) (at_ : nat) (c : ascii) : bool :=
  match get at_ s with
  | Some c' => Ascii.eqb c c'
  | None => false
  end.

(** A time stamp [YYYY-MM-DD HH:MM:SS] with all its digits, read as UTC:
    microseconds since the epoch. *)
Definition strptime_utc (s : string) : option Z :=
  if negb ((String.length s =? 19)%nat && separator s 4 "-" && separator s 7 "-" &&
           separator s 10 " " && separator s 13 ":" && separator s 16 ":")
  then None
  else
    match field s 0 4, field s 5 2, field s 8 2, field s 11 2, field s 14 2, field s 17 2 with
    | Some year, Some month, Some day, Some hour, Some minute, Some second =>
        if (1 <=? year) && (1 <=? month) && (month <=? 12) &&
           (1 <=? day) && (day <=? days_in_month year month) &&
           (hour <? 24) && (minute <? 60) && (second <? 60)
        then Some ((((days_from_civil year month day * 24 + hour) * 60 + minute) * 60
                    + second) * 1000000)
        else None
    | _, _, _, _, _, _ => None
    end.

#[export] Instance scripted_clock : Clock world := {
  utcnow w :=
    let '(t, rest) := next 0 (clock w) in
    (t, {| responses := responses w; powers := powers w; connects := connects w;
           runs := runs w; outputs := outputs w; clock := rest;
           address := address w; system := system w; slept := slept w |});
  sleep s w :=
    {| responses := responses w; powers := powers w; connects := connects w;
       runs := runs w; outputs := outputs w; clock := clock w;
       address := address w; system := system w; slept := slept w + s |};
  strptime := strptime_utc
}.

(** The ids of the scripted server are plain decimal numerals, on which
    [int] is the decimal reading. *)
#[export] Instance scripted_runtime : Runtime := {
  str_to_int := int_of_str
}.

Definition json_200 (v : json) : result response :=
  Ok {| status_code := 200; body := Some v |}.

Definition status (code : Z) : result response :=
  Ok {| status_code := code; body := None |}.

(** A configuration with every required setting. *)
Definition configured : config_t :=
  {| fog_section := Some (list_to_map
              [("endpoint", CStr "http://fog.example/fog");
               ("api_token", CStr "api");
               ("user_token", CStr "user");
               ("machine_types", CStr "smithi")]);
     fog_reimage_timeout := 1800;
     fog_wait_for_ssh_timeout := 600 |}.


Definition node7 : FOG :=
  {| shortname := "node7"; os_type := "CentOS"; os_version := "8.stream";
     machine_type := "smithi" |}.

(** The node of the failure scenario: CentOS 8, for which the server has
    no image under either name. *)
Definition node7_centos8 : FOG :=
  {| shortname := "node7"; os_type := "CentOS"; os_version := "8";
     machine_type := "smithi" |}.

Definition no_image : result response :=
  json_200 (JDict [("count", JInt 0); ("images", JList [])]).

Definition answering (l : list (result response)) : world :=
  {| responses := l; powers := []; connects := []; runs := []; outputs := [];
     clock := []; address := "10.0.0.7";
     system := {| os_name := "CentOS"; os_version_of := "8.stream" |};
     slept := 0 |}.

Definition task (id : Z) (host created : string) : json :=
  JDict [("id", JInt id);
         ("host", JDict [("name", JStr host)]);
         ("createdTime", JStr created)].

Definition tasks (l : list json) : result response :=
  json_200 (JDict [("tasks", JList l)]).

(** The answers of the server up to and including the second listing of
    [schedule_deploy_task], for a run that schedules task 7. *)
Definition until_scheduled : list (result response) :=
  [ json_200 (JDict [("count", JInt 1); ("hosts", JList [JDict [("id", JStr "12")]])]);
    json_200 (JDict [("count", JInt 1);
                     ("images", JList [JDict [("id", JStr "42");
                                              ("name", JStr "smithi_centos_8.stream")]])]);
    status 200;
    tasks [];
    json_200 (JDict [("tasktypes", JList [JDict [("id", JStr "3"); ("name", JStr "Deploy")]])]);
    status 200;
    tasks [task 7 "node7" "2024-05-01 12:00:00"] ].


(** A world in which task 5 is still active on the node when the deploy is
    scheduled. *)
Definition rescheduling : world :=
  {| responses :=
       [ tasks [task 5 "node7" "2024-05-01 11:58:20"; task 6 "node8" "2024-05-01 11:59:10"];
         status 200;
         json_200 (JDict [("tasktypes",
                           JList [JDict [("id", JStr "3"); ("name", JStr "Deploy")]])]);
         status 200;
         tasks [task 7 "node7" "2024-05-01 12:00:00"; task 6 "node8" "2024-05-01 11:59:10"] ];
     powers := []; connects := []; runs := []; outputs := [];
     clock := [1714564803000000]; address := "10.0.0.7";
     system := {| os_name := "CentOS"; os_version_of := "8.stream" |};
     slept := 0 |}.

(** The run that schedules task 7, with the answers of the console in
    [console] and the answers of the server after the scheduling in
    [later]. *)
Definition deploying (console : list (result unit))
    (later : list (result response)) : world :=
  {| responses := until_scheduled ++ later; powers := console; connects := [];
     runs := []; outputs := []; clock := [1714564803000000]; address := "10.0.0.7";
     system := {| os_name := "CentOS"; os_version_of := "8.stream" |};
     slept := 0 |}.

(** A run in which the task listed after the scheduling was created long
    before the clock is read, and is still active while [create] waits. *)
Definition stale_listing : world :=
  {| responses := until_scheduled ++ [tasks [task 7 "node7" "2024-05-01 12:00:00"]];
     powers := []; connects := []; runs := [];
     outputs := [Ok "node7"; Ok ""]; clock := [1714565800000000]; address := "10.0.0.7";
     system := {| os_name := "CentOS"; os_version_of := "8.stream" |};
     slept := 0 |}.

(** Every timeout of the configuration is one second, and the node is to
    signal its readiness with a file. *)
Definition hasty : config_t :=
  {| fog_section := Some (list_to_map
              [("endpoint", CStr "http://fog.example/fog");
               ("api_token", CStr "api");
               ("user_token", CStr "user");
               ("machine_types", CStr "smithi");
               ("sentinel_file", CStr "/ceph-qa-ready")]);
     fog_reimage_timeout := 1;
     fog_wait_for_ssh_timeout := 1 |}.

(** The node accepts the connection, and then every command is cut off. *)
Definition dropping : world :=
  {| responses := []; powers := []; connects := [];
     runs := repeat (Raise ConnectionError) 40; outputs := []; clock := [];
     address := "10.0.0.7";
     system := {| os_name := "CentOS"; os_version_of := "8.stream" |};
     slept := 0 |}.

(** A configuration without a [fog] section. *)
Definition unconfigured : config_t :=
  {| fog_section := None; fog_reimage_timeout := 1800;
     fog_wait_for_ssh_timeout := 600 |}.

(** A configuration whose [fog] section does not name the server. *)
Definition tokens_only : config_t :=
  {| fog_section := Some (list_to_map [("api_token", CStr "api");
                                       ("user_token", CStr "user")]);
     fog_reimage_timeout := 1800;
     fog_wait_for_ssh_timeout := 600 |}.

(** [node7] with its OS type in capitals. *)
Definition node7_capitals : FOG :=
  {| shortname := "node7"; os_type := "CENTOS"; os_version := "8.stream";
     machine_type := "smithi" |}.

(** A configuration whose machine types are a list with gaps. *)
Definition typed : config_t :=
  {| fog_section := Some (list_to_map
              [("endpoint", CStr "http://fog.example/fog");
               ("api_token", CStr "api");
               ("user_token", CStr "user");
               ("machine_types", CStr "smithi,,mira,")]);
     fog_reimage_timeout := 1800;
     fog_wait_for_ssh_timeout := 600 |}.

(** The server has no image under the primary name and one under the name
    with [.stream] appended. *)
Definition stream_image : list (result response) :=
  [ no_image;
    json_200 (JDict [("count", JInt 1);
                     ("images", JList [JDict [("id", JStr "42");
                                              ("name", JStr "smithi_centos_8.stream")]])]) ].

(** The server knows the task type [capture] only. *)
Definition capture_only : list (result response) :=
  [ tasks [];
    json_200 (JDict [("tasktypes",
                      JList [JDict [("id", JStr "2"); ("name", JStr "capture")]])]) ].

(** Tasks 5 and 6 are active on [node7], and the server refuses to cancel. *)
Definition refusing_cancel : list (result response) :=
  [ tasks [task 5 "node7" "2024-05-01 11:58:20"; task 6 "node7" "2024-05-01 11:59:10"];
    status 500 ].

(** The node refuses the first connection and drops the second. *)
Definition flaky_ssh : world :=
  {| responses := []; powers := [];
     connects := [Raise NoValidConnectionsError; Raise EOFError];
     runs := []; outputs := []; clock := []; address := "10.0.0.7";
     system := {| os_name := "CentOS"; os_version_of := "8.stream" |};
     slept := 0 |}.

(** A node imaged from the machine [fog]. *)
Definition imaged : world :=
  {| responses := []; powers := []; connects := []; runs := [];
     outputs := [Ok "fog"; Ok "10.0.0.1 fog.lab fog"]; clock := [];
     address := "10.0.0.7";
     system := {| os_name := "CentOS"; os_version_of := "8.stream" |};
     slept := 0 |}.

Definition quiet_world : world :=
  {| responses := []; powers := []; connects := []; runs := []; outputs := [];
     clock := []; address := "10.0.0.7";
     system := {| os_name := "CentOS"; os_version_of := "8.stream" |};
     slept := 0 |}.

End Scripted.

(** ** The node behind the [Remote]

    Modelled from the spec: the shell of the imaged node ([hostname], [grep],
    [sed]) is outside the repository.  A substitution is the literal
    replacement of every occurrence in the file; [grep] prints the lines in
    which the pattern occurs; the commands succeed. *)
Module Machine.

Record machine : Type := {
  live_hostname : string;
  etc_hosts : string;
  etc_hostname : string;
  peer_address : string;
  installed : os_t
}.

Definition newline : string := String "010" EmptyString.

(** The lines of a file; the text after the last newline is a line when it
    is not empty. *)
Definition lines (file : string) : list string :=
  List.filter (fun l => negb (String.eqb l "")) (split_on "010" file).

Definition grep (pattern file : string) : string :=
  String.concat ""
    (map (fun l => (l ++ newline)%string)
         (List.filter (fun l => contains l pattern) (lines file))).

Definition set_file (f : etc_file) (text : string) (m : machine) : machine :=
  match f with
  | EtcHosts =>
      {| live_hostname := live_hostname m; etc_hosts := text;
         etc_hostname := etc_hostname m; peer_address := peer_address m;
         installed := installed m |}
  | EtcHostname =>
      {| live_hostname := live_hostname m; etc_hosts := etc_hosts m;
         etc_hostname := text; peer_address := peer_address m;
         installed := installed m |}
  end.

Definition file (f : etc_file) (m : machine) : string :=
  match f with
  | EtcHosts => etc_hosts m
  | EtcHostname => etc_hostname m
  end.

(** What a command prints and what it leaves behind. *)
Definition exec (c : remote_cmd) (m : machine) : string * machine :=
  match c with
  | CmdHostname => ((live_hostname m ++ newline)%string, m)
  | CmdGrepHosts pattern => (grep pattern (etc_hosts m), m)
  | CmdSetHostname name =>
      (EmptyString,
       {| live_hostname := name; etc_hosts := etc_hosts m;
          etc_hostname := etc_hostname m; peer_address := peer_address m;
          installed := installed m |})
  | CmdSed old new f => (EmptyString, set_file f (replace_all old new (file f m)) m)
  | CmdWaitSentinel _ => (EmptyString, m)
  end.

#[export] Instance machine_remote : Remote machine := {
  connect m := (Ok tt, m);
  run c _ _ m := (Ok tt, snd (exec c m));
  sh c _ m := (Ok (fst (exec c m)), snd (exec c m));
  ip_address m := peer_address m;
  remote_os m := (Ok (installed m), m)
}.

(** A node imaged from a machine called [fog] at 10.0.0.1. *)
Definition imaged_from_fog : machine :=
  {| live_hostname := "fog";
     etc_hosts := ("127.0.0.1 localhost" ++ newline ++
                   "10.0.0.1 fog.lab fog" ++ newline)%string;
     etc_hostname := ("fog" ++ newline)%string;
     peer_address := "10.0.0.12";
     installed := {| os_name := "CentOS"; os_version_of := "8.stream" |} |}.

Definition fog01 : FOG :=
  {| shortname := "fog01"; os_type := "CentOS"; os_version := "8.stream";
     machine_type := "smithi" |}.

(** A node imaged from a machine called [fog-image] at 172.21.0.7. *)
Definition imaged_from_fog_image : machine :=
  {| live_hostname := "fog-image";
     etc_hosts := ("127.0.0.1 localhost" ++ newline ++
                   "172.21.0.7 fog-image.lab fog-image" ++ newline)%string;
     etc_hostname := ("fog-image" ++ newline)%string;
     peer_address := "172.21.15.33";
     installed := {| os_name := "CentOS"; os_version_of := "8.stream" |} |}.

Definition smithi042 : FOG :=
  {| shortname := "smithi042"; os_type := "CentOS"; os_version := "8.stream";
     machine_type := "smithi" |}.

End Machine.

(** ** Observations on runs *)

(** [P] holds of every call a computation makes, in whatever world it
    starts. *)
Definition emits {W} (P : event -> bool) {A} (c : M W A) : Prop :=
  forall w, forallb P (snd (c w)) = true.

(** How [do_request] ends, given the answer to the request it sent. *)
Definition answered {W} (verify : bool) (req : request)
    (answer : result response * W) : result response * W * list event :=
  match answer with
  | (Ok resp, w') =>
      (if verify && negb (ok resp) then Raise (HTTPError (status_code resp))
       else Ok resp,
       w',
       EvRequest req ::
         (if ok resp then []
          else [EvLog Error "Got status {resp.status_code} from {url_suffix}: '{resp.text}'"]))
  | (Raise e, w') => (Raise e, w', [EvRequest req])
  end.

Definition is_cancel (ev : event) : bool :=
  match ev with
  | EvRequest (ReqCancel _) => true
  | _ => false
  end.

(** The cancel calls among the calls made, in order. *)
Definition cancels (evs : list event) : list event := List.filter is_cancel evs.

(** [obj['host']['name']] *)
Definition host_name (obj : json) : result json :=
  rbind (getitem obj "host") (fun host => getitem host "name").

(** The task is listed as running on the node of [self]. *)
Definition on_host (self : FOG) (obj : json) : bool :=
  match host_name obj with
  | Ok name => py_eq name (JStr (shortname self))
  | Raise _ => false
  end.

(** [resp.json()['tasks']] *)
Definition listed_tasks (resp : response) : result json :=
  rbind (resp_json resp) (fun obj => getitem obj "tasks").

(** Not the image lookup under the name [name]. *)
Definition not_lookup_of (name : string) (ev : event) : bool :=
  match ev with
  | EvRequest (ReqImage n) => negb (String.eqb n name)
  | _ => true
  end.

Section Freshness.

Context {W : Type} `{!Clock W}.

(** The task was created less than five seconds before a reading of the
    clock among [evs]: its [createdTime] is a string, the instant that
    [strptime] reads in it is [created], and a reading [now] is less than
    five million microseconds later. *)
Definition fresh_at (evs : list event) (task : json) : Prop :=
  exists stamp created now,
    getitem task "createdTime" = Ok (JStr stamp) /\
    strptime (W := W) stamp = Some created /\
    In (EvNow now) evs /\
    now - created < 5000000.



End Freshness.

Definition is_schedule (ev : event) : bool :=
  match ev with
  | EvRequest (ReqSchedule _ _) => true
  | _ => false
  end.

(** Neither the scheduling of a task nor the canceling of one. *)
Definition background (ev : event) : bool :=
  negb (is_schedule ev) && negb (is_cancel ev).

(** [[task['id'] for task in tasks]] *)
Definition task_ids (tasks : list json) : result (list json) :=
  rmap (fun task => getitem task "id") tasks.

Definition not_schedule (ev : event) : bool := negb (is_schedule ev).

Definition is_log (ev : event) : bool :=
  match ev with
  | EvLog _ _ => true
  | _ => false
  end.

(** The three stretches of [create]: up to the scheduling of the deploy
    task, whose id is the value; the body of its [try]; and what follows the
    [try]. *)
Section Phases.

Context {W : Type} `{!Runtime, !Http W, !Console W, !Remote W, !Clock W}.
Variable config : config_t.
Variable default_sleep : positive.
Variable self : FOG.

Definition create_until_scheduled : M W json :=
  on <- enabled config false ;;
  if negb on then raise (RuntimeError "FOG is not configured!" [])
  else
    host_data <- get_host_data config self ;;
    id <- lift (getitem host_data "id") ;;
    host_id <- lift (py_int id) ;;
    set_image config self host_id ;;
    schedule_deploy_task config self host_id.


Definition power_cycle_and_wait (task_id : json) : M W unit :=
  call EvPowerOff power_off ;;
  call EvPowerOn power_on ;;
  wait_for_deploy_task config self task_id.

Definition after_deploy : M W unit :=
  _wait_for_ready config default_sleep ;;
  _fix_hostname self ;;
  _verify_installed_os self ;;
  log Info "Deploy complete!".

End Phases.

(** The seconds slept, in order. *)
Definition slept_in (evs : list event) : list Z :=
  flat_map (fun ev => match ev with EvSleep s => [s] | _ => [] end) evs.

Definition not_sleep (ev : event) : bool :=
  match ev with
  | EvSleep _ => false
  | _ => true
  end.

Definition not_sentinel (ev : event) : bool :=
  match ev with
  | EvRun (CmdWaitSentinel _) _ => false
  | _ => true
  end.

Definition total (l : list Z) : Z := fold_right Z.add 0 l.

(** Every pause of [pauses] begins before [timeout] seconds have been
    slept. *)
Definition begun_before (timeout : Z) (pauses : list Z) : Prop :=
  forall k, (k < length pauses)%nat -> total (firstn k pauses) < timeout.

(** [old] occurs in [s]. *)
Definition occurs (old s : string) : Prop :=
  exists pre post, s = (pre ++ old ++ post)%string.

(** [s[n:]] *)
Fixpoint sdrop (n : nat) (s : string) : string :=
  match n, s with
  | O, _ => s
  | S k, String _ t => sdrop k t
  | S _, EmptyString => EmptyString
  end.

(** Writing [new] between two texts completes no occurrence of [old]:
    [old] is not in [new], no end of [new] begins [old], no beginning of
    [new] ends [old], and [new] is not in the middle of [old]. *)
Definition apart (old new : string) : Prop :=
  ~ occurs old new /\
  (forall x y z, y <> EmptyString -> new = (x ++ y)%string -> old = (y ++ z)%string -> False) /\
  (forall x y z, y <> EmptyString -> new = (y ++ z)%string -> old = (x ++ y)%string -> False) /\
  (forall x z, x <> EmptyString -> z <> EmptyString ->
               old = (x ++ new ++ z)%string -> False).

Definition not_set_image (ev : event) : bool :=
  match ev with
  | EvRequest (ReqSetImage _ _) => false
  | _ => true
  end.

(** The same node but for the spelling of [os_type]. *)
Definition same_but_case (self self' : FOG) : Prop :=
  machine_type self = machine_type self' /\
  os_version self = os_version self' /\
  lower (os_type self) = lower (os_type self').

Definition not_search (ev : event) : bool :=
  match ev with
  | EvRequest (ReqImageSearch _) => false
  | _ => true
  end.

(** [[obj for obj in resp.json()['tasktypes'] if obj['name'].lower() == 'deploy']] *)
Definition deploy_types (resp : response) : result (list json) :=
  rbind (resp_json resp) (fun obj =>
  rbind (getitem obj "tasktypes") (fun all_types =>
  rbind (iterate all_types) (fun items =>
  rfilter
    (fun obj =>
       rbind (getitem obj "name") (fun name =>
       match name with
       | JStr s => Ok (String.eqb (lower s) "deploy")
       | _ => Raise AttributeError
       end))
    items))).

(** A call that reaches the node or its console. *)
Definition touches_node (ev : event) : bool :=
  match ev with
  | EvPowerOff | EvPowerOn | EvConnect | EvRun _ _ | EvSh _ _ => true
  | _ => false
  end.

Definition off_node (ev : event) : bool := negb (touches_node ev).

(** [int(v)] is [n]: [v] is the integer [n], a boolean that counts as [n],
    or a string in which the runtime reads [n]. *)
Definition int_of `{!Runtime} (v : json) (n : Z) : Prop :=
  match v with
  | JInt k => k = n
  | JBool b => Z.b2z b = n
  | JStr s => str_to_int s = Some n
  | _ => False
  end.

(** The classes the first loop of [_wait_for_ready] catches: [socket.error],
    which is [OSError], with the classes derived from it; [SSHException];
    [NoValidConnectionsError]; [MaxWhileTries]; and [EOFError]. *)
Definition ssh_caught (e : exc) : Prop :=
  e = OSError \/ e = ConnectionError \/ e = NoValidConnectionsError \/
  (exists status, e = HTTPError status) \/
  e = SSHException \/ e = MaxWhileTries \/ e = EOFError.

(** The classes its second loop catches. *)
Definition sentinel_caught (e : exc) : Prop :=
  e = ConnectionError \/ e = EOFError.

(** The host whose image a call sets, or for which it schedules a task. *)
Definition host_of (ev : event) : option Z :=
  match ev with
  | EvRequest (ReqSetImage h _) | EvRequest (ReqSchedule h _) => Some h
  | _ => None
  end.

Definition for_host (host_id : Z) (ev : event) : bool :=
  match host_of ev with
  | Some h => h =? host_id
  | None => true
  end.

Definition for_no_host (ev : event) : bool :=
  match host_of ev with
  | Some _ => false
  | None => true
  end.

(** Not the message that the node is ready. *)
Definition not_ready (ev : event) : bool :=
  match ev with
  | EvLog Info _ => false
  | _ => true
  end.

Definition not_power (ev : event) : bool :=
  match ev with
  | EvPowerOff | EvPowerOn => false
  | _ => true
  end.

(** * Properties *)

Import Scripted.
Import Machine.

(** ** Running the monad *)

Section Running.

Context {W : Type}.

Lemma bind_ok {A B} (c : M W A) (k : A -> M W B) w a w1 evs1 :
  c w = (Ok a, w1, evs1) ->
  bind c k w = (let '(r, w2, evs2) := k a w1 in (r, w2, evs1 ++ evs2)).
Proof. intros Hc. unfold bind. rewrite Hc. reflexivity. Qed.

Lemma bind_raise {A B} (c : M W A) (k : A -> M W B) w e w1 evs1 :
  c w = (Raise e, w1, evs1) ->
  bind c k w = (Raise e, w1, evs1).
Proof. intros Hc. unfold bind. rewrite Hc. reflexivity. Qed.

(** A run of [c ;; k] is a run of [c] that raised, or a run of [c] followed
    by a run of [k]. *)
Lemma bind_inv {A B} (c : M W A) (k : A -> M W B) w r w' evs :
  bind c k w = (r, w', evs) ->
  (exists e, c w = (Raise e, w', evs) /\ r = Raise e) \/
  (exists a w1 evs1 evs2,
      c w = (Ok a, w1, evs1) /\ k a w1 = (r, w', evs2) /\ evs = evs1 ++ evs2).
Proof.
  unfold bind. destruct (c w) as [[[a | e] w1] evs1].
  - destruct (k a w1) as [[r2 w2] evs2] eqn:Hk. intros [= <- <- <-].
    right. exists a, w1, evs1, evs2. auto.
  - intros [= <- <- <-]. left. exists e. auto.
Qed.

Lemma bind_first_event {A B} (c : M W A) (k : A -> M W B) w r w' ev evs :
  c w = (r, w', ev :: evs) ->
  exists r2 w2 evs2, bind c k w = (r2, w2, ev :: evs2).
Proof.
  intros Hc. unfold bind. rewrite Hc. destruct r as [a | e].
  - destruct (k a w') as [[r2 w2] evs2]. eauto.
  - eauto.
Qed.

Lemma bind_ret {A B} (a : A) (k : A -> M W B) w : bind (ret a) k w = k a w.
Proof. unfold bind, ret. destruct (k a w) as [[r w2] evs2]. reflexivity. Qed.

Lemma emits_ret P {A} (a : A) : emits P (ret a : M W A).
Proof. intros w. reflexivity. Qed.

Lemma emits_raise P {A} e : emits P (@raise W A e).
Proof. intros w. reflexivity. Qed.

Lemma emits_lift P {A} (r : result A) : emits P (lift r : M W A).
Proof. intros w. reflexivity. Qed.

Lemma emits_log P lvl msg :
  P (EvLog lvl msg) = true -> emits P (log lvl msg : M W unit).
Proof. intros HP w. simpl. rewrite HP. reflexivity. Qed.

Lemma emits_call P {A} ev (f : W -> result A * W) :
  P ev = true -> emits P (call ev f).
Proof.
  intros HP w. unfold call. destruct (f w). simpl. rewrite HP. reflexivity.
Qed.

Lemma emits_bind P {A B} (c : M W A) (k : A -> M W B) :
  emits P c -> (forall a, emits P (k a)) -> emits P (bind c k).
Proof.
  intros Hc Hk w. unfold bind. specialize (Hc w).
  destruct (c w) as [[[a | e] w1] evs1]; simpl in *; [| exact Hc].
  specialize (Hk a w1). destruct (k a w1) as [[r2 w2] evs2]. simpl in *.
  rewrite forallb_app, Hc, Hk. reflexivity.
Qed.

Lemma emits_try_except P {A} catches (c : M W A) handler :
  emits P c -> (forall e, emits P (handler e)) ->
  emits P (try_except catches c handler).
Proof.
  intros Hc Hh w. unfold try_except. specialize (Hc w).
  destruct (c w) as [[[a | e] w1] evs1]; simpl in *; [exact Hc |].
  destruct (catches e); [| exact Hc].
  specialize (Hh e w1). destruct (handler e w1) as [[r2 w2] evs2]. simpl in *.
  rewrite forallb_app, Hc, Hh. reflexivity.
Qed.

Lemma emits_if P {A} (b : bool) (c1 c2 : M W A) :
  emits P c1 -> emits P c2 -> emits P (if b then c1 else c2).
Proof. destruct b; auto. Qed.

Lemma emits_run P {A} (c : M W A) w r w' evs :
  emits P c -> c w = (r, w', evs) -> forallb P evs = true.
Proof. intros Hc Hrun. specialize (Hc w). rewrite Hrun in Hc. exact Hc. Qed.

End Running.

Create HintDb emits.
#[local] Hint Resolve emits_ret emits_raise emits_lift emits_log emits_call
  emits_bind emits_try_except emits_if : emits.

(** ** The configuration check *)

Lemma unset_nil_iff (conf : config_t) :
  unset conf = [] <->
  forall p, In p params -> exists v, fog conf !! p = Some v /\ cval_truthy v = true.
Proof.
  unfold unset. split.
  - intros Hnil p Hp.
    assert (Hfalse : unset_param (fog conf) p = false).
    { destruct (unset_param (fog conf) p) eqn:Hu; [| reflexivity].
      assert (Hin : In p (List.filter (unset_param (fog conf)) params))
        by (apply filter_In; auto).
      rewrite Hnil in Hin. destruct Hin. }
    unfold unset_param in Hfalse. destruct (fog conf !! p) as [v |]; [| discriminate].
    exists v. split; [reflexivity |]. destruct (cval_truthy v); [reflexivity | discriminate].
  - intros Hall.
    destruct (List.filter (unset_param (fog conf)) params) as [| p rest] eqn:Hf;
      [reflexivity |].
    assert (Hin : In p (List.filter (unset_param (fog conf)) params))
      by (rewrite Hf; left; reflexivity).
    apply filter_In in Hin. destruct Hin as [Hp Hu].
    destruct (Hall p Hp) as (v & Hv & Ht).
    unfold unset_param in Hu. rewrite Hv, Ht in Hu. discriminate.
Qed.

Section Checks.

Context {W : Type} `{!Runtime, !Http W, !Console W, !Remote W, !Clock W}.
Variable config : config_t.
Variable default_sleep : positive.
Variable self : FOG.


Lemma enabled_quiet (w : W) :
  enabled config false w =
    (Ok (match unset config with [] => true | _ => false end), w, []).
Proof. unfold enabled, bind, ret. destruct (unset config); reflexivity. Qed.

Lemma do_request_with_keys req verify (w : W) api_token user_token endpoint :
  fog config !! "api_token" = Some api_token ->
  fog config !! "user_token" = Some user_token ->
  fog config !! "endpoint" = Some endpoint ->
  do_request config req verify w =
    answered verify req (http_send api_token user_token endpoint req w).
Proof.
  intros Ha Hu He. unfold fog in Ha, Hu, He.
  unfold do_request, fog_item, answered, bind, call, ret, log, lift, raise_for_status.
  destruct (fog_section config) as [section |];
    [| rewrite lookup_empty in Ha; discriminate].
  rewrite Ha, Hu, He.
  destruct (http_send api_token user_token endpoint req w) as [[resp | ex] w'];
    [| reflexivity].
  destruct (ok resp), verify; reflexivity.
Qed.

(** A request that was answered found the three settings it reads. *)
Lemma do_request_keys req verify (w w' : W) resp evs :
  do_request config req verify w = (Ok resp, w', evs) ->
  exists api_token user_token endpoint,
    fog config !! "api_token" = Some api_token /\
    fog config !! "user_token" = Some user_token /\
    fog config !! "endpoint" = Some endpoint.
Proof.
  unfold do_request, fog_item, fog, bind, raise.
  destruct (fog_section config) as [section |]; [| discriminate].
  destruct (section !! "api_token") as [a |]; [| discriminate].
  destruct (section !! "user_token") as [u |]; [| discriminate].
  destruct (section !! "endpoint") as [e |]; [| discriminate].
  intros _. exists a, u, e. auto.
Qed.

Lemma answered_first_event req verify (answer : result response * W) :
  exists r w' evs, answered verify req answer = (r, w', EvRequest req :: evs).
Proof. destruct answer as [[resp | ex] w']; simpl; eauto. Qed.

Lemma do_request_sends req verify (w : W) :
  unset config = [] ->
  exists api_token user_token endpoint,
    fog config !! "api_token" = Some api_token /\
    fog config !! "user_token" = Some user_token /\
    fog config !! "endpoint" = Some endpoint /\
    do_request config req verify w =
      answered verify req (http_send api_token user_token endpoint req w).
Proof.
  intros Hset. pose proof (proj1 (unset_nil_iff config) Hset) as Hall.
  destruct (Hall "api_token") as (a & Ha & _); [simpl; auto |].
  destruct (Hall "user_token") as (u & Hu & _); [simpl; auto |].
  destruct (Hall "endpoint") as (e & He & _); [simpl; auto |].
  exists a, u, e. repeat split; try assumption.
  apply do_request_with_keys; assumption.
Qed.




End Checks.


(** ** Resolving the host *)

Section HostResolution.

Context {W : Type} `{!Runtime, !Http W}.
Variable config : config_t.
Variable self : FOG.

(** C3: let the host search be answered with a body whose [count] is
    [count].  If [count == 1], [get_host_data] returns the host record of
    the answer, [hosts[0]]; if [count == 0] it raises and returns nothing
    (host not found); if [count > 1] it raises and returns nothing
    (more than one host). *)
Theorem get_host_data_by_count (w w1 : W) resp evs obj count :
  do_request config (ReqHost (shortname self)) true w = (Ok resp, w1, evs) ->
  resp_json resp = Ok obj ->
  getitem obj "count" = Ok count ->
  (py_eq count (JInt 1) = true ->
   forall host,
     rbind (getitem obj "hosts") getitem0 = Ok host ->
     get_host_data config self w = (Ok host, w1, evs)) /\
  (py_eq count (JInt 0) = true ->
   get_host_data config self w =
     (Raise (RuntimeError "Host %s not found!" [JStr (shortname self)]), w1, evs)) /\
  (forall n, count = JInt n -> 1 < n ->
   get_host_data config self w =
     (Raise (RuntimeError "More than one host found for %s" [JStr (shortname self)]),
      w1, evs)).
Proof.
  intros Hreq Hjson Hcount.
  unfold get_host_data, bind, lift, raise. rewrite Hreq, Hjson, Hcount.
  split; [| split].
  - intros Hone host Hhost.
    assert (Hzero : py_eq count (JInt 0) = false).
    { destruct count as [| [] | n | | |]; simpl in *; try discriminate; try reflexivity.
      apply Z.eqb_eq in Hone. subst n. reflexivity. }
    rewrite Hzero.
    assert (Hmany : match count with
                    | JInt n => Ok (1 <? n)
                    | JBool b => Ok (1 <? Z.b2z b)
                    | _ => Raise TypeError
                    end = Ok false).
    { destruct count as [| [] | n | | |]; simpl in *; try discriminate; try reflexivity.
      apply Z.eqb_eq in Hone. subst n. reflexivity. }
    rewrite Hmany.
    unfold rbind in Hhost. destruct (getitem obj "hosts") as [hosts |]; [| discriminate].
    rewrite Hhost. rewrite !app_nil_r. reflexivity.
  - intros Hzero. rewrite Hzero. rewrite !app_nil_r. reflexivity.
  - intros n -> Hn.
    replace (py_eq (JInt n) (JInt 0)) with false
      by (simpl; symmetry; apply Z.eqb_neq; lia).
    destruct (Z.ltb_spec 1 n) as [_ | Hle]; [| lia].
    rewrite !app_nil_r. reflexivity.
Qed.

End HostResolution.

(** A run of C3: the server answers the search for [node7] with one host. *)
Lemma get_host_data_by_count_witness :
  let host := JDict [("id", JStr "12")] in
  let obj := JDict [("count", JInt 1); ("hosts", JList [host])] in
  let w := {| responses := [json_200 obj]; powers := []; connects := []; runs := [];
              outputs := []; clock := []; address := "10.0.0.7";
              system := {| os_name := "CentOS"; os_version_of := "8.stream" |};
              slept := 0 |} in
  get_host_data configured node7 w = (Ok host, quiet_world, [EvRequest (ReqHost "node7")]).
Proof.
  intros host obj w.
  refine (proj1 (get_host_data_by_count configured node7 w quiet_world
                   {| status_code := 200; body := Some obj |}
                   [EvRequest (ReqHost "node7")] obj (JInt 1) _ _ _) _ host _);
    vm_compute; reflexivity.
Defined.

(** ** Listing the active tasks *)

Lemma listed_tasks_raises_Exception resp e :
  listed_tasks resp = Raise e -> is_Exception e = true.
Proof.
  unfold listed_tasks, resp_json, rbind, getitem.
  destruct (body resp) as [obj |]; [| intros [= <-]; reflexivity].
  destruct obj as [| | | | | kv]; try (intros [= <-]; reflexivity).
  destruct (assoc "tasks" kv); [discriminate | intros [= <-]; reflexivity].
Qed.

Lemma rfilter_on_host self items :
  rfilter (fun obj =>
             rbind (getitem obj "host") (fun host =>
             rbind (getitem host "name") (fun name =>
             Ok (py_eq name (JStr (shortname self)))))) items =
  rbind (rmap host_name items) (fun _ => Ok (List.filter (on_host self) items)).
Proof.
  induction items as [| obj rest IH]; [reflexivity |].
  simpl. unfold on_host, host_name at 1 3.
  destruct (getitem obj "host") as [host |]; simpl; [| reflexivity].
  destruct (getitem host "name") as [name |]; simpl; [| reflexivity].
  rewrite IH. destruct (rmap host_name rest); simpl; [| reflexivity].
  destruct (py_eq name (JStr (shortname self))); reflexivity.
Qed.

Section Listing.

Context {W : Type} `{!Runtime, !Http W}.
Variable config : config_t.
Variable self : FOG.

(** C5, as amended: when the request for the active tasks fails (in
    transport, or with a status the request layer refuses) the listing
    raises that error.  When the request is answered and the body is not
    JSON or has no [tasks], the listing logs the failure and returns the
    empty list.  When [tasks] is a list whose entries all name their host,
    the listing returns exactly the entries whose host name equals the
    short name of the target, in the order of the answer; an entry that
    does not name its host makes the listing raise. *)
Theorem get_deploy_tasks_by_answer (w : W) :
  (forall e w' evs,
      do_request config ReqActiveTasks true w = (Raise e, w', evs) ->
      get_deploy_tasks config self w = (Raise e, w', evs)) /\
  (forall resp w' evs,
      do_request config ReqActiveTasks true w = (Ok resp, w', evs) ->
      (forall e,
          listed_tasks resp = Raise e ->
          get_deploy_tasks config self w =
            (Ok [], w', evs ++ [EvLog Error "Failed to get deploy tasks!"])) /\
      (forall items names,
          listed_tasks resp = Ok (JList items) ->
          rmap host_name items = Ok names ->
          get_deploy_tasks config self w =
            (Ok (List.filter (on_host self) items), w', evs)) /\
      (forall items e,
          listed_tasks resp = Ok (JList items) ->
          rmap host_name items = Raise e ->
          get_deploy_tasks config self w = (Raise e, w', evs))).
Proof.
  split.
  - intros e w' evs Hreq. unfold get_deploy_tasks. apply bind_raise. exact Hreq.
  - intros resp w' evs Hreq. unfold get_deploy_tasks.
    rewrite (bind_ok _ _ _ _ _ _ Hreq). fold (listed_tasks resp).
    split; [| split].
    + intros e Hparse. rewrite Hparse.
      rewrite (listed_tasks_raises_Exception _ _ Hparse). reflexivity.
    + intros items names Hparse Hnames. rewrite Hparse.
      unfold bind, lift. simpl iterate. cbv iota beta.
      rewrite rfilter_on_host, Hnames. simpl. rewrite app_nil_r. reflexivity.
    + intros items e Hparse Hnames. rewrite Hparse.
      unfold bind, lift. simpl iterate. cbv iota beta.
      rewrite rfilter_on_host, Hnames. simpl. rewrite app_nil_r. reflexivity.
Qed.

End Listing.

(** C5, as stated, fails.  An answer with status 500 cannot be read as a task
    list, and the listing raises instead of returning the empty list; an
    answer whose one task does not name its host makes the listing raise
    although the body was read. *)
Lemma get_deploy_tasks_raises :
  let failing := {| responses := [status 500]; powers := []; connects := [];
                    runs := []; outputs := []; clock := []; address := "10.0.0.7";
                    system := {| os_name := "CentOS"; os_version_of := "8.stream" |};
                    slept := 0 |} in
  let hostless := {| responses := [tasks [JDict [("id", JInt 1)]]]; powers := [];
                     connects := []; runs := []; outputs := []; clock := [];
                     address := "10.0.0.7";
                     system := {| os_name := "CentOS"; os_version_of := "8.stream" |};
                     slept := 0 |} in
  fst (fst (get_deploy_tasks configured node7 failing)) = Raise (HTTPError 500) /\
  fst (fst (get_deploy_tasks configured node7 hostless)) = Raise (KeyError "host").
Proof. vm_compute. split; reflexivity. Qed.

(** A run of C5: two tasks are active, one of them on [node7]. *)
Lemma get_deploy_tasks_by_answer_witness :
  let items := [task 7 "node7" "2024-05-01 12:00:00"; task 8 "node8" "2024-05-01 12:00:01"] in
  let w := {| responses := [tasks items]; powers := []; connects := [];
              runs := []; outputs := []; clock := []; address := "10.0.0.7";
              system := {| os_name := "CentOS"; os_version_of := "8.stream" |};
              slept := 0 |} in
  get_deploy_tasks configured node7 w =
    (Ok [task 7 "node7" "2024-05-01 12:00:00"], quiet_world, [EvRequest ReqActiveTasks]).
Proof.
  intros items w.
  refine (proj1 (proj2 (proj2 (get_deploy_tasks_by_answer configured node7 w)
                          {| status_code := 200;
                             body := Some (JDict [("tasks", JList items)]) |}
                          quiet_world [EvRequest ReqActiveTasks] _))
                items [JStr "node7"; JStr "node8"] _ _);
    vm_compute; reflexivity.
Defined.

(** ** Resolving the image *)

Lemma append_length (a b : string) :
  String.length (a ++ b) = (String.length a + String.length b)%nat.
Proof. induction a as [| c a IH]; simpl; [reflexivity | rewrite IH; reflexivity]. Qed.

Lemma stream_name_differs (name : string) : (name ++ ".stream")%string <> name.
Proof.
  intros Heq. apply (f_equal String.length) in Heq.
  rewrite append_length in Heq. simpl in Heq. lia.
Qed.

Lemma not_lookup_of_In name evs :
  forallb (not_lookup_of name) evs = true -> ~ In (EvRequest (ReqImage name)) evs.
Proof.
  intros Hall Hin. rewrite forallb_forall in Hall. specialize (Hall _ Hin).
  simpl in Hall. rewrite String.eqb_refl in Hall. discriminate.
Qed.

Section ImageResolution.

Context {W : Type} `{!Runtime, !Http W}.
Variable config : config_t.
Variable self : FOG.

Lemma fog_item_emits P key : emits P (fog_item config key : M W cval).
Proof.
  unfold fog_item. destruct (fog_section config) as [section |]; [| auto with emits].
  destruct (section !! key); auto with emits.
Qed.

Lemma do_request_emits P req verify :
  P (EvRequest req) = true ->
  (forall msg, P (EvLog Error msg) = true) ->
  emits P (do_request config req verify).
Proof.
  intros Hreq Hlog. unfold do_request.
  apply emits_bind; [apply fog_item_emits | intros api_token].
  apply emits_bind; [apply fog_item_emits | intros user_token].
  apply emits_bind; [apply fog_item_emits | intros endpoint].
  apply emits_bind; [apply emits_call; exact Hreq | intros resp].
  apply emits_bind; [apply emits_if; auto with emits | intros _].
  apply emits_bind; [apply emits_if; auto with emits | intros _].
  apply emits_ret.
Qed.

Lemma do_get_emits P name :
  P (EvRequest (ReqImage name)) = true ->
  (forall msg, P (EvLog Error msg) = true) ->
  emits P (do_get config name).
Proof.
  intros Hreq Hlog. unfold do_get.
  apply emits_bind; [apply do_request_emits; assumption | intros resp].
  apply emits_bind; [apply emits_lift | intros obj].
  apply emits_bind; [apply emits_lift | intros count].
  apply emits_if; [| apply emits_ret].
  apply emits_bind; [apply emits_lift | intros images]. apply emits_lift.
Qed.

Lemma suggest_image_names_emits P :
  P (EvRequest (ReqImageSearch (machine_type self))) = true ->
  (forall msg, P (EvLog Error msg) = true) ->
  emits P (suggest_image_names config self).
Proof.
  intros Hreq Hlog. unfold suggest_image_names.
  apply emits_bind; [apply do_request_emits; assumption | intros resp].
  apply emits_bind; [apply emits_lift | intros obj].
  apply emits_bind; [apply emits_lift | intros images].
  apply emits_bind; [apply emits_lift | intros items]. apply emits_lift.
Qed.

(** A lookup that returned found the three settings of a request, so the
    next lookup sends its request too. *)
Lemma do_get_sends name name' (w w1 : W) image evs1 :
  do_get config name w = (Ok image, w1, evs1) ->
  exists r w2 evs2,
    do_get config name' w1 = (r, w2, EvRequest (ReqImage name') :: evs2).
Proof.
  intros Hget. unfold do_get in Hget. apply bind_inv in Hget.
  destruct Hget as [(e & _ & ?) | (resp & w0 & evs0 & evs2 & Hreq & _)];
    [discriminate |].
  destruct (do_request_keys _ _ _ _ _ _ _ Hreq) as (a & u & e & Ha & Hu & He).
  unfold do_get.
  destruct (answered_first_event (ReqImage name') true
              (http_send a u e (ReqImage name') w1)) as (r & w2 & evs3 & Hans).
  eapply bind_first_event.
  rewrite (do_request_with_keys _ _ _ _ _ _ _ Ha Hu He). exact Hans.
Qed.

(** C4, as amended.  The lookup under the name with [.stream] appended is
    attempted if and only if the lookup under the primary name returned no
    image, [os_type] in lower case is [centos], and [os_version] does not
    end in [.stream].  When the primary lookup returned no image and the
    second one either did not apply or returned no image, resolution
    fails: with the error that carries the name, the machine type and the
    names [suggest_image_names] returned, or, when the query for these
    names itself fails, with the error of that query. *)
Theorem get_image_data_fallback (w : W) :
  let name := image_name self in
  (forall r w' evs,
      get_image_data config self w = (r, w', evs) ->
      (In (EvRequest (ReqImage (name ++ ".stream"))) evs <->
       (exists image w1 evs1,
           do_get config name w = (Ok image, w1, evs1) /\ truthy image = false) /\
       String.eqb (lower (os_type self)) "centos" = true /\
       endswith (os_version self) ".stream" = false)) /\
  (forall image w1 evs1 w2 evs2,
      do_get config name w = (Ok image, w1, evs1) ->
      truthy image = false ->
      (stream_applies self = false /\ w2 = w1 /\ evs2 = []) \/
      (stream_applies self = true /\
       exists image2,
         do_get config (name ++ ".stream") w1 = (Ok image2, w2, evs2) /\
         truthy image2 = false) ->
      exists suggested w3 evs3,
        suggest_image_names config self w2 = (suggested, w3, evs3) /\
        get_image_data config self w =
          (match suggested with
           | Ok names =>
               Raise (RuntimeError "Fog has no %s image. Available %s images: %s"
                        [JStr name; JStr (machine_type self); JList names])
           | Raise e => Raise e
           end, w3, evs1 ++ evs2 ++ evs3)).
Proof.
  intros name.
  assert (Hprimary : emits (not_lookup_of (name ++ ".stream")) (do_get config name)).
  { apply do_get_emits; [| reflexivity]. simpl.
    destruct (String.eqb_spec name (name ++ ".stream")) as [Heq | _]; [| reflexivity].
    symmetry in Heq. destruct (stream_name_differs _ Heq). }
  assert (Hsuggest : emits (not_lookup_of (name ++ ".stream"))
                           (suggest_image_names config self))
    by (apply suggest_image_names_emits; reflexivity).
  split.
  - intros r w' evs Hrun. unfold get_image_data in Hrun. fold name in Hrun.
    apply bind_inv in Hrun.
    destruct Hrun as [(e & Hget & _) | (image & w1 & evs1 & evs2 & Hget & Hrest & ->)].
    { split.
      - intros Hin. destruct (not_lookup_of_In _ _ (emits_run _ _ _ _ _ _ Hprimary Hget) Hin).
      - intros ((image & w1 & evs1 & Hget' & _) & _). congruence. }
    pose proof (emits_run _ _ _ _ _ _ Hprimary Hget) as Hevs1.
    destruct (truthy image) eqn:Htruthy.
    { injection Hrest as <- <- <-. rewrite app_nil_r. split.
      - intros Hin. destruct (not_lookup_of_In _ _ Hevs1 Hin).
      - intros ((image' & w1' & evs1' & Hget' & Hfalse) & _). congruence. }
    unfold stream_applies in Hrest.
    destruct (String.eqb (lower (os_type self)) "centos") eqn:Hcentos;
      [destruct (endswith (os_version self) ".stream") eqn:Hends |]; simpl in Hrest.
    + split; [| intros (_ & _ & ?); discriminate].
      intros Hin. exfalso. apply in_app_or in Hin. destruct Hin as [Hin | Hin];
        [exact (not_lookup_of_In _ _ Hevs1 Hin) |].
      rewrite bind_ret in Hrest. cbv beta in Hrest. rewrite Htruthy in Hrest.
      apply bind_inv in Hrest.
      destruct Hrest as [(e & Hs & _) | (names & w3 & evs3 & evs4 & Hs & Hraise & ->)].
      * exact (not_lookup_of_In _ _ (emits_run _ _ _ _ _ _ Hsuggest Hs) Hin).
      * injection Hraise as _ _ <-. rewrite app_nil_r in Hin.
        exact (not_lookup_of_In _ _ (emits_run _ _ _ _ _ _ Hsuggest Hs) Hin).
    + split; [intros _ | intros _].
      * split; [eauto | split; reflexivity].
      * destruct (do_get_sends name (name ++ ".stream") _ _ _ _ Hget)
          as (r2 & w2 & evs3 & Hsecond).
        apply in_or_app. right.
        match type of Hrest with
        | bind (do_get config (name ++ ".stream")) ?k w1 = _ =>
            destruct (bind_first_event _ k _ _ _ _ _ Hsecond) as (r3 & w3 & evs4 & Hrun)
        end.
        rewrite Hrun in Hrest. injection Hrest as _ _ <-. left. reflexivity.
    + split; [| intros (_ & ? & _); discriminate].
      intros Hin. exfalso. apply in_app_or in Hin. destruct Hin as [Hin | Hin];
        [exact (not_lookup_of_In _ _ Hevs1 Hin) |].
      rewrite bind_ret in Hrest. cbv beta in Hrest. rewrite Htruthy in Hrest.
      apply bind_inv in Hrest.
      destruct Hrest as [(e & Hs & _) | (names & w3 & evs3 & evs4 & Hs & Hraise & ->)].
      * exact (not_lookup_of_In _ _ (emits_run _ _ _ _ _ _ Hsuggest Hs) Hin).
      * injection Hraise as _ _ <-. rewrite app_nil_r in Hin.
        exact (not_lookup_of_In _ _ (emits_run _ _ _ _ _ _ Hsuggest Hs) Hin).
  - intros image w1 evs1 w2 evs2 Hget Hfalse Hsecond.
    destruct (suggest_image_names config self w2) as [[suggested w3] evs3] eqn:Hs.
    exists suggested, w3, evs3. split; [reflexivity |].
    unfold get_image_data. fold name.
    rewrite (bind_ok _ _ _ _ _ _ Hget), Hfalse.
    destruct Hsecond as [(Happ & -> & ->) | (Happ & image2 & Hget2 & Hfalse2)];
      rewrite Happ.
    + unfold bind, ret, raise. rewrite Hfalse, Hs.
      destruct suggested; simpl; rewrite ?app_nil_r; reflexivity.
    + rewrite (bind_ok _ _ _ _ _ _ Hget2), Hfalse2.
      unfold bind, raise. rewrite Hs.
      destruct suggested; simpl; rewrite ?app_nil_r; reflexivity.
Qed.

End ImageResolution.

(** C4, as stated, fails: both lookups return no image and the query for
    the names to suggest is answered with status 500; resolution fails with
    the error of that query, which carries no names. *)
Lemma get_image_data_without_names :
  get_image_data configured node7_centos8 (answering [no_image; no_image; status 500]) =
    (Raise (HTTPError 500), quiet_world,
     [EvRequest (ReqImage "smithi_centos_8");
      EvRequest (ReqImage "smithi_centos_8.stream");
      EvRequest (ReqImageSearch "smithi");
      EvLog Error "Got status {resp.status_code} from {url_suffix}: '{resp.text}'"]).
Proof. vm_compute. reflexivity. Qed.

(** A run of C4, the failure scenario: no image under either name, and the
    server suggests one name. *)
Lemma get_image_data_fallback_witness :
  let names := json_200 (JDict [("images", JList [JDict [("name", JStr "smithi_centos_9.stream")]])]) in
  get_image_data configured node7_centos8 (answering [no_image; no_image; names]) =
    (Raise (RuntimeError "Fog has no %s image. Available %s images: %s"
              [JStr "smithi_centos_8"; JStr "smithi";
               JList [JStr "smithi_centos_9.stream"]]),
     quiet_world,
     [EvRequest (ReqImage "smithi_centos_8");
      EvRequest (ReqImage "smithi_centos_8.stream");
      EvRequest (ReqImageSearch "smithi")]).
Proof.
  intros names.
  assert (Hfirst : do_get configured (image_name node7_centos8)
                     (answering [no_image; no_image; names]) =
                   (Ok JNull, answering [no_image; names],
                    [EvRequest (ReqImage "smithi_centos_8")]))
    by (vm_compute; reflexivity).
  assert (Hsecond : do_get configured (image_name node7_centos8 ++ ".stream")
                      (answering [no_image; names]) =
                    (Ok JNull, answering [names],
                     [EvRequest (ReqImage "smithi_centos_8.stream")]))
    by (vm_compute; reflexivity).
  destruct (proj2 (get_image_data_fallback configured node7_centos8
                     (answering [no_image; no_image; names]))
              JNull _ _ (answering [names]) _ Hfirst eq_refl
              (or_intror (conj eq_refl (ex_intro _ JNull (conj Hsecond eq_refl)))))
    as (suggested & w3 & evs3 & Hs & Hrun).
  vm_compute in Hs. injection Hs as <- <- <-. exact Hrun.
Defined.

(** ** Scheduling the deploy task *)

(** One step of a run that returned: the first computation returned too. *)
Ltac bind_ok_inv H a w1 evs1 Hc :=
  apply bind_inv in H;
  destruct H as [(? & _ & ?) | (a & w1 & evs1 & ? & Hc & H & ->)]; [discriminate |].

Section Selection.

Context {W : Type} `{!Runtime, !Http W, !Clock W}.
Variable config : config_t.
Variable self : FOG.

Lemma fresh_at_more evs evs' task :
  fresh_at evs task -> (forall ev, In ev evs -> In ev evs') -> fresh_at evs' task.
Proof.
  intros (ts & c & now & H1 & H2 & H3 & H4) Hsub. exists ts, c, now. auto.
Qed.


Lemma parse_timestamp_reads timestamp created :
  parse_timestamp (W := W) timestamp = Ok created <->
  exists stamp, timestamp = JStr stamp /\ strptime (W := W) stamp = Some created.
Proof.
  unfold parse_timestamp. split.
  - destruct timestamp as [| b | n | stamp | l | kv]; try discriminate.
    destruct (strptime stamp) as [t |] eqn:Hread; [| discriminate].
    intros [= <-]. eauto.
  - intros (stamp & -> & ->). reflexivity.
Qed.



Lemma select_recent_none host_tasks (w : W) :
  (forall task, In task host_tasks ->
                exists timestamp created,
                  getitem task "createdTime" = Ok timestamp /\
                  parse_timestamp timestamp = Ok created) ->
  exists r w' evs,
    select_recent host_tasks w = (r, w', evs) /\
    ((forall task, In task host_tasks -> ~ fresh_at evs task) -> r = Ok JNull).
Proof.
  revert w. induction host_tasks as [| task rest IH]; intros w Hwf.
  - exists (Ok JNull), w, []. split; reflexivity.
  - destruct (Hwf task (or_introl eq_refl)) as (timestamp & created & Hts & Hcr).
    destruct (utcnow w) as [t w0] eqn:Hnow.
    destruct (Z.ltb_spec (t - created) five_seconds) as [Hlt | Hge].
    + exists (getitem task "id"), w0, [EvNow t]. split.
      * simpl. unfold bind, lift, read_clock. rewrite Hts, Hnow, Hcr.
        destruct (Z.ltb_spec (t - created) five_seconds); [reflexivity | lia].
      * intros Hnone. exfalso. apply (Hnone task (or_introl eq_refl)).
        apply parse_timestamp_reads in Hcr. destruct Hcr as (stamp & -> & Hread).
        unfold five_seconds in Hlt.
        exists stamp, created, t. repeat split; simpl; auto; lia.
    + destruct (IH w0 (fun task' Hin => Hwf task' (or_intror Hin)))
        as (r & w' & evs & Hrun & Hnone).
      exists r, w', (EvNow t :: evs). split.
      * simpl. unfold bind at 1 2 3, lift, read_clock. rewrite Hts, Hnow, Hcr.
        destruct (Z.ltb_spec (t - created) five_seconds); [lia |].
        rewrite Hrun. reflexivity.
      * intros Hall. apply Hnone. intros task' Hin Hfresh.
        apply (Hall task' (or_intror Hin)).
        apply (fresh_at_more evs); [exact Hfresh | intros ev Hev; right; exact Hev].
Qed.



End Selection.


(** ** Canceling before scheduling *)

Lemma cancels_app evs evs' : cancels (evs ++ evs') = cancels evs ++ cancels evs'.
Proof. unfold cancels. apply List.filter_app. Qed.

Lemma background_cancels evs : forallb background evs = true -> cancels evs = [].
Proof.
  induction evs as [| ev evs IH]; [reflexivity |]. simpl.
  intros Hall. apply andb_prop in Hall. destruct Hall as [Hev Hall].
  unfold background in Hev. apply andb_prop in Hev. destruct Hev as [_ Hev].
  destruct (is_cancel ev); [discriminate | auto].
Qed.

Lemma background_not_schedule evs ev :
  forallb background evs = true -> is_schedule ev = true -> ~ In ev evs.
Proof.
  intros Hall Hev Hin. rewrite forallb_forall in Hall. specialize (Hall _ Hin).
  unfold background in Hall. rewrite Hev in Hall. discriminate.
Qed.

(** Where the one scheduling call of a run is, the calls before it are. *)
Lemma schedule_position (before after pre post : list event) (ev ev' : event) :
  (forall x, In x before -> is_schedule x = false) ->
  is_schedule ev' = true ->
  before ++ ev :: after = pre ++ ev' :: post ->
  (forall x, In x after -> is_schedule x = false) ->
  is_schedule ev = true ->
  pre = before.
Proof.
  revert pre. induction before as [| b before IH]; intros pre Hbefore Hev' Heq Hafter Hev.
  - destruct pre as [| p pre]; [reflexivity |].
    simpl in Heq. injection Heq as <- Heq.
    assert (Hin : In ev' after) by (rewrite Heq; apply in_or_app; right; left; reflexivity).
    rewrite (Hafter _ Hin) in Hev'. discriminate.
  - destruct pre as [| p pre].
    + simpl in Heq. injection Heq as -> _.
      rewrite (Hbefore ev' (or_introl eq_refl)) in Hev'. discriminate.
    + simpl in Heq. injection Heq as <- Heq. f_equal.
      apply IH; auto. intros x Hx. apply Hbefore. right. exact Hx.
Qed.

Section Running2.

Context {W : Type}.

Lemma bind_until (P : event -> bool) ev {A B} (c : M W A) (k : A -> M W B)
    w r w' evs :
  emits P c -> P ev = false ->
  bind c k w = (r, w', evs) -> In ev evs ->
  exists a w1 evs1 evs2,
    c w = (Ok a, w1, evs1) /\ k a w1 = (r, w', evs2) /\
    evs = evs1 ++ evs2 /\ In ev evs2.
Proof.
  intros Hc Hev Hrun Hin. apply bind_inv in Hrun.
  destruct Hrun as [(e & Hrun & _) | (a & w1 & evs1 & evs2 & Hrun & Hk & ->)].
  - pose proof (emits_run _ _ _ _ _ _ Hc Hrun) as Hall.
    rewrite forallb_forall in Hall. rewrite (Hall _ Hin) in Hev. discriminate.
  - exists a, w1, evs1, evs2. repeat split; auto.
    apply in_app_or in Hin. destruct Hin as [Hin | Hin]; [| exact Hin].
    pose proof (emits_run _ _ _ _ _ _ Hc Hrun) as Hall.
    rewrite forallb_forall in Hall. rewrite (Hall _ Hin) in Hev. discriminate.
Qed.

Lemma bind_lift_until ev {A B} (r0 : result A) (k : A -> M W B) w r w' evs :
  bind (lift r0) k w = (r, w', evs) -> In ev evs ->
  exists a, r0 = Ok a /\ k a w = (r, w', evs).
Proof.
  intros Hrun Hin. unfold bind, lift in Hrun. destruct r0 as [a | e].
  - exists a. split; [reflexivity |].
    destruct (k a w) as [[r2 w2] evs2]. simpl in Hrun. exact Hrun.
  - injection Hrun as _ _ <-. destruct Hin.
Qed.

End Running2.

Lemma logs_background evs : forallb is_log evs = true -> forallb background evs = true.
Proof.
  induction evs as [| ev evs IH]; [reflexivity |]. simpl.
  intros Hall. apply andb_prop in Hall. destruct Hall as [Hev Hall].
  rewrite (IH Hall). destruct ev; try discriminate. reflexivity.
Qed.

Lemma background_no_schedule evs :
  forallb background evs = true -> forall x, In x evs -> is_schedule x = false.
Proof.
  intros Hall x Hin. rewrite forallb_forall in Hall. specialize (Hall _ Hin).
  unfold background in Hall. destruct (is_schedule x); [discriminate | reflexivity].
Qed.

Lemma not_schedule_no_schedule evs :
  forallb not_schedule evs = true -> forall x, In x evs -> is_schedule x = false.
Proof.
  intros Hall x Hin. rewrite forallb_forall in Hall. specialize (Hall _ Hin).
  unfold not_schedule in Hall. destruct (is_schedule x); [discriminate | reflexivity].
Qed.

Section Scheduling.

Context {W : Type} `{!Runtime, !Http W, !Clock W}.
Variable config : config_t.
Variable self : FOG.

Lemma do_request_ok_events req verify (w w' : W) resp evs :
  do_request config req verify w = (Ok resp, w', evs) ->
  exists logs, evs = EvRequest req :: logs /\ forallb is_log logs = true.
Proof.
  intros Hrun.
  destruct (do_request_keys _ _ _ _ _ _ _ Hrun) as (a & u & e & Ha & Hu & He).
  rewrite (do_request_with_keys _ _ _ _ _ _ _ Ha Hu He) in Hrun.
  unfold answered in Hrun.
  destruct (http_send a u e req w) as [[resp0 | ex] w0]; [| discriminate].
  injection Hrun as _ _ <-. destruct (ok resp0); eauto.
Qed.

Lemma get_deploy_tasks_emits P :
  P (EvRequest ReqActiveTasks) = true ->
  (forall msg, P (EvLog Error msg) = true) ->
  emits P (get_deploy_tasks config self).
Proof.
  intros Hreq Hlog. unfold get_deploy_tasks.
  apply emits_bind; [apply do_request_emits; assumption | intros resp].
  destruct (rbind (resp_json resp) (fun obj => getitem obj "tasks")) as [tasks | e].
  - apply emits_bind; [apply emits_lift | intros items]. apply emits_lift.
  - apply emits_if; [| apply emits_raise].
    apply emits_bind; [apply emits_log; apply Hlog | intros _]. apply emits_ret.
Qed.

Lemma select_recent_emits P host_tasks :
  (forall t, P (EvNow t) = true) -> emits P (select_recent (W := W) host_tasks).
Proof.
  intros Hnow. induction host_tasks as [| task rest IH]; [apply emits_ret |].
  simpl. apply emits_bind; [apply emits_lift | intros timestamp].
  apply emits_bind.
  { intros w. unfold read_clock. destruct (utcnow w). simpl. rewrite Hnow. reflexivity. }
  intros now. apply emits_bind; [apply emits_lift | intros created].
  apply emits_if; [apply emits_lift | exact IH].
Qed.

Lemma cancel_deploy_task_emits P task_id :
  P (EvRequest (ReqCancel task_id)) = true ->
  (forall lvl msg, P (EvLog lvl msg) = true) ->
  emits P (cancel_deploy_task config task_id).
Proof.
  intros Hreq Hlog. unfold cancel_deploy_task.
  apply emits_bind; [apply emits_log; apply Hlog | intros _].
  apply emits_bind; [apply do_request_emits; auto | intros resp].
  apply emits_lift.
Qed.

Lemma cancel_all_emits tasks : emits not_schedule (cancel_all config tasks).
Proof.
  induction tasks as [| task rest IH]; [apply emits_ret |].
  simpl. apply emits_bind; [apply emits_lift | intros id].
  apply emits_bind; [apply cancel_deploy_task_emits; reflexivity | intros _].
  exact IH.
Qed.

(** A cancel that returned made one cancel call, for the id it was given. *)
Lemma cancel_deploy_task_once task_id (w w' : W) evs :
  cancel_deploy_task config task_id w = (Ok tt, w', evs) ->
  cancels evs = [EvRequest (ReqCancel task_id)].
Proof.
  intros Hrun. unfold cancel_deploy_task in Hrun.
  bind_ok_inv Hrun u0 w0 e0 Hlog.
  bind_ok_inv Hrun resp w1 e1 Hreq.
  unfold log in Hlog. injection Hlog as _ <- <-.
  unfold lift in Hrun. injection Hrun as _ _ <-.
  destruct (do_request_ok_events _ _ _ _ _ _ Hreq) as (logs & -> & Hlogs).
  simpl. rewrite app_nil_r. f_equal.
  apply background_cancels. apply logs_background. exact Hlogs.
Qed.

Lemma cancel_all_returns tasks (w w' : W) evs :
  cancel_all config tasks w = (Ok tt, w', evs) ->
  exists ids,
    task_ids tasks = Ok ids /\
    cancels evs = map (fun id => EvRequest (ReqCancel id)) ids.
Proof.
  revert w evs. induction tasks as [| task rest IH]; intros w evs Hrun.
  - injection Hrun as _ <-. exists []. split; reflexivity.
  - simpl in Hrun.
    bind_ok_inv Hrun tid w0 e0 Hid. unfold lift in Hid. injection Hid as Hid <- <-.
    bind_ok_inv Hrun u1 w1 e1 Hcancel. destruct u1.
    destruct (IH _ _ Hrun) as (ids & Hids & Hcancels).
    exists (tid :: ids). split.
    + unfold task_ids in *. simpl. rewrite Hid. simpl. rewrite Hids. reflexivity.
    + simpl. rewrite cancels_app, (cancel_deploy_task_once _ _ _ _ Hcancel), Hcancels.
      reflexivity.
Qed.

Lemma do_request_events req verify (w w' : W) r evs :
  do_request config req verify w = (r, w', evs) ->
  evs = [] \/ exists logs, evs = EvRequest req :: logs /\ forallb is_log logs = true.
Proof.
  destruct (fog_section config) as [section |] eqn:Hsection.
  2: { unfold do_request, fog_item, bind, raise. rewrite Hsection.
       intros [= _ _ <-]. auto. }
  assert (Hfog : fog config = section) by (unfold fog; rewrite Hsection; reflexivity).
  destruct (section !! "api_token") as [a |] eqn:Ha.
  2: { unfold do_request, fog_item, bind, raise. rewrite Hsection, Ha.
       intros [= _ _ <-]. auto. }
  destruct (section !! "user_token") as [u |] eqn:Hu.
  2: { unfold do_request, fog_item, bind, raise, ret. rewrite Hsection, Ha, Hu.
       intros [= _ _ <-]. auto. }
  destruct (section !! "endpoint") as [e |] eqn:He.
  2: { unfold do_request, fog_item, bind, raise, ret. rewrite Hsection, Ha, Hu, He.
       intros [= _ _ <-]. auto. }
  rewrite <- Hfog in Ha, Hu, He.
  rewrite (do_request_with_keys _ _ _ _ _ _ _ Ha Hu He). unfold answered.
  destruct (http_send a u e req w) as [[resp | ex] w0]; intros [= _ _ <-]; right.
  - destruct (ok resp); eauto.
  - eauto.
Qed.

(** C6: in a run of [schedule_deploy_task] that issues the schedule call,
    the active tasks of the host were listed first, and the cancel calls
    made before the schedule call are exactly one for each listed task, for
    its id and in the order of the list. *)
Theorem cancels_before_scheduling (host_id deploy_id : Z) (w w' : W) r evs pre post :
  schedule_deploy_task config self host_id w = (r, w', evs) ->
  evs = pre ++ EvRequest (ReqSchedule host_id deploy_id) :: post ->
  exists tasks w1 evs1 ids,
    get_deploy_tasks config self w = (Ok tasks, w1, evs1) /\
    task_ids tasks = Ok ids /\
    cancels pre = map (fun id => EvRequest (ReqCancel id)) ids.
Proof.
  intros Hrun Heq.
  set (sched := EvRequest (ReqSchedule host_id deploy_id)) in *.
  assert (Hin : In sched evs) by (rewrite Heq; apply in_or_app; right; left; reflexivity).
  unfold schedule_deploy_task in Hrun.
  apply (bind_until not_schedule sched) in Hrun;
    [| apply emits_log; reflexivity | reflexivity | exact Hin].
  destruct Hrun as (u0 & w0 & e0 & r0 & Hlog & Hrun & Hevs & Hin0).
  unfold log in Hlog. injection Hlog as _ <- <-.
  apply (bind_until not_schedule sched) in Hrun;
    [| apply get_deploy_tasks_emits; reflexivity | reflexivity | exact Hin0].
  destruct Hrun as (tasks & w1 & e1 & r1 & Hlist & Hrun & Hr0 & Hin1).
  apply (bind_until not_schedule sched) in Hrun;
    [| apply cancel_all_emits | reflexivity | exact Hin1].
  destruct Hrun as (u2 & w2 & e2 & r2 & Hcancel & Hrun & Hr1 & Hin2). destruct u2.
  apply (bind_until not_schedule sched) in Hrun;
    [| apply do_request_emits; reflexivity | reflexivity | exact Hin2].
  destruct Hrun as (resp & w3 & e3 & r3 & Htype & Hrun & Hr2 & Hin3).
  apply (bind_lift_until sched) in Hrun; [| exact Hin3].
  destruct Hrun as (obj & _ & Hrun).
  apply (bind_lift_until sched) in Hrun; [| exact Hin3].
  destruct Hrun as (all_types & _ & Hrun).
  apply (bind_lift_until sched) in Hrun; [| exact Hin3].
  destruct Hrun as (items & _ & Hrun).
  apply (bind_lift_until sched) in Hrun; [| exact Hin3].
  destruct Hrun as (tasktypes & _ & Hrun).
  apply (bind_lift_until sched) in Hrun; [| exact Hin3].
  destruct Hrun as (first_type & _ & Hrun).
  apply (bind_lift_until sched) in Hrun; [| exact Hin3].
  destruct Hrun as (tid & _ & Hrun).
  apply (bind_lift_until sched) in Hrun; [| exact Hin3].
  destruct Hrun as (found_id & _ & Hrun).
  assert (Htail : exists logs after,
             r3 = EvRequest (ReqSchedule host_id found_id) :: logs ++ after /\
             forallb is_log logs = true /\ forallb background after = true).
  { apply bind_inv in Hrun.
    destruct Hrun as [(e & Hreq & _) | (resp2 & w4 & e4 & e5 & Hreq & Hrest & ->)].
    - destruct (do_request_events _ _ _ _ _ _ Hreq) as [-> | (logs & -> & Hlogs)];
        [destruct Hin3 |].
      exists logs, []. rewrite app_nil_r. auto.
    - destruct (do_request_ok_events _ _ _ _ _ _ Hreq) as (logs & -> & Hlogs).
      exists logs, e5. repeat split; auto.
      refine (emits_run background _ _ _ _ _ _ Hrest).
      apply emits_bind; [apply get_deploy_tasks_emits; reflexivity | intros host_tasks].
      apply select_recent_emits. reflexivity. }
  destruct Htail as (logs & after & -> & Hlogs & Hafter).
  pose proof (emits_run background _ _ _ _ _
                (get_deploy_tasks_emits background eq_refl (fun _ => eq_refl)) Hlist) as He1.
  pose proof (emits_run not_schedule _ _ _ _ _ (cancel_all_emits tasks) Hcancel) as He2.
  pose proof (emits_run background _ _ _ _ _
                (do_request_emits config background ReqTaskType true eq_refl
                   (fun _ => eq_refl)) Htype) as He3.
  destruct (cancel_all_returns _ _ _ _ Hcancel) as (ids & Hids & Hcancels).
  exists tasks, w1, e1, ids. split; [exact Hlist |]. split; [exact Hids |].
  assert (Hpre : pre = [EvLog Info "Scheduling deploy of %s %s"] ++ e1 ++ e2 ++ e3).
  { apply (schedule_position _ (logs ++ after) _ post
             (EvRequest (ReqSchedule host_id found_id)) sched).
    - intros x Hx. repeat (apply in_app_or in Hx; destruct Hx as [Hx | Hx]).
      + destruct Hx as [<- | []]. reflexivity.
      + exact (background_no_schedule _ He1 _ Hx).
      + exact (not_schedule_no_schedule _ He2 _ Hx).
      + exact (background_no_schedule _ He3 _ Hx).
    - reflexivity.
    - rewrite <- Heq, Hevs, Hr0, Hr1, Hr2. rewrite <- !app_assoc. reflexivity.
    - intros x Hx. apply in_app_or in Hx. destruct Hx as [Hx | Hx].
      + exact (background_no_schedule _ (logs_background _ Hlogs) _ Hx).
      + exact (background_no_schedule _ Hafter _ Hx).
    - reflexivity. }
  rewrite Hpre, !cancels_app, (background_cancels _ He1), (background_cancels _ He3), Hcancels.
  simpl. rewrite app_nil_r. reflexivity.
Qed.

End Scheduling.

(** A run of C6: task 5 is active on the node, and it is canceled before the
    schedule call. *)
Lemma cancels_before_scheduling_witness :
  let pre := [EvLog Info "Scheduling deploy of %s %s";
              EvRequest ReqActiveTasks;
              EvLog Debug "Canceling deploy task with ID {task_id}";
              EvRequest (ReqCancel (JInt 5)); EvRequest ReqTaskType] in
  exists tasks w1 evs1 ids,
    get_deploy_tasks configured node7 rescheduling = (Ok tasks, w1, evs1) /\
    task_ids tasks = Ok ids /\
    cancels pre = map (fun id => EvRequest (ReqCancel id)) ids.
Proof.
  intros pre.
  refine (cancels_before_scheduling configured node7 12 3 rescheduling quiet_world
            (Ok (JInt 7)) _ pre [EvRequest ReqActiveTasks; EvNow 1714564803000000] _ _);
    vm_compute; reflexivity.
Defined.

(** ** The phases of [create] *)

Section Associativity.

Context {W : Type}.

Lemma bind_assoc {A B C} (c : M W A) (k : A -> M W B) (h : B -> M W C) w :
  bind (bind c k) h w = bind c (fun a => bind (k a) h) w.
Proof.
  unfold bind. destruct (c w) as [[[a | e] w1] evs1]; [| reflexivity].
  destruct (k a w1) as [[[b | e] w2] evs2]; [| reflexivity].
  destruct (h b w2) as [[r w3] evs3]. rewrite app_assoc. reflexivity.
Qed.

Lemma bind_ext {A B} (c : M W A) (k k' : A -> M W B) w :
  (forall a w1, k a w1 = k' a w1) -> bind c k w = bind c k' w.
Proof.
  intros Hk. unfold bind. destruct (c w) as [[[a | e] w1] evs1]; [| reflexivity].
  rewrite Hk. reflexivity.
Qed.

End Associativity.

Section CreatePhases.

Context {W : Type} `{!Runtime, !Http W, !Console W, !Remote W, !Clock W}.
Variable config : config_t.
Variable default_sleep : positive.
Variable self : FOG.

Lemma create_phases (w : W) :
  create config default_sleep self w =
    bind (create_until_scheduled config self)
         (fun task_id =>
            bind (try_except is_Exception
                    (power_cycle_and_wait config self task_id)
                    (fun e => bind (cancel_deploy_task config task_id) (fun _ => raise e)))
                 (fun _ => after_deploy config default_sleep self)) w.
Proof.
  unfold create, create_until_scheduled.
  rewrite bind_assoc. apply bind_ext. intros on w1.
  destruct (negb on); [reflexivity |].
  rewrite bind_assoc. apply bind_ext. intros host_data w2.
  rewrite bind_assoc. apply bind_ext. intros id w3.
  rewrite bind_assoc. apply bind_ext. intros host_id w4.
  rewrite bind_assoc. apply bind_ext. intros _ w5.
  apply bind_ext. intros task_id w6.
  apply bind_ext. intros _ w7.
  unfold after_deploy. reflexivity.
Qed.

End CreatePhases.

(** ** The sentinel file of the configuration *)

Section Sentinel.

Context {W : Type} `{!Remote W, !Clock W}.
Variable config : config_t.
Variable default_sleep : positive.

Lemma fog_get_emits P key : emits P (fog_get config key : M W (option cval)).
Proof.
  unfold fog_get. destruct (fog_section config); [apply emits_ret | apply emits_raise].
Qed.

(** The lookup reads the section and touches nothing; it fails exactly when
    there is no section. *)
Lemma fog_get_run key (w w' : W) r evs :
  fog_get config key w = (r, w', evs) ->
  w' = w /\ evs = [] /\
  match r with
  | Ok found => fog_section config <> None /\ found = fog config !! key
  | Raise e => fog_section config = None /\ e = AttributeError
  end.
Proof.
  unfold fog_get, fog. destruct (fog_section config) as [section |];
    intros [= <- <- <-]; auto.
Qed.

(** What [_wait_for_ready] does with the value it found is the wait for the
    sentinel file of the configuration. *)
Lemma sentinel_choice found :
  found = fog config !! "sentinel_file" ->
  match found with
  | Some path => if cval_truthy path then wait_for_sentinel (W := W) default_sleep path
                 else ret tt
  | None => ret tt
  end =
  match sentinel_file config with
  | Some path => wait_for_sentinel default_sleep path
  | None => ret tt
  end.
Proof.
  intros ->. unfold sentinel_file.
  destruct (fog config !! "sentinel_file") as [path |]; [| reflexivity].
  destruct (cval_truthy path); reflexivity.
Qed.

Lemma sentinel_step_emits P found :
  (forall path, emits P (wait_for_sentinel (W := W) default_sleep path)) ->
  emits P (match found with
           | Some path => if cval_truthy path then wait_for_sentinel default_sleep path
                          else ret tt
           | None => ret tt
           end).
Proof.
  intros Hwait. destruct found as [path |]; [| apply emits_ret].
  destruct (cval_truthy path); [apply Hwait | apply emits_ret].
Qed.

(** [_wait_for_ready] by its steps: the wait for SSH, the reading of the
    [fog] section, the wait for the sentinel file, the message. *)
Lemma wait_for_ready_phases (w : W) :
  _wait_for_ready config default_sleep w =
    bind (poll (sw_sleeps (ssh_wait config)) connect_attempt)
         (fun _ =>
            match fog_section config with
            | Some _ =>
                bind (match sentinel_file config with
                      | Some path => wait_for_sentinel default_sleep path
                      | None => ret tt
                      end)
                     (fun _ => log Info "Node is ready")
            | None => raise AttributeError
            end) w.
Proof.
  unfold _wait_for_ready. apply bind_ext. intros _ w1.
  pose proof (sentinel_choice (fog config !! "sentinel_file") eq_refl) as Hchoice.
  unfold fog_get. unfold fog in Hchoice.
  destruct (fog_section config) as [section |]; [| reflexivity].
  rewrite bind_ret, Hchoice. reflexivity.
Qed.

End Sentinel.

(** ** What the waits send *)

Section Waits.

Context {W : Type} `{!Runtime, !Http W, !Console W, !Remote W, !Clock W}.
Variable config : config_t.
Variable default_sleep : positive.
Variable self : FOG.

Lemma poll_emits P pauses (attempt : M W bool) :
  (forall s, P (EvSleep s) = true) -> emits P attempt -> emits P (poll pauses attempt).
Proof.
  intros Hsleep Hattempt. induction pauses as [| pause rest IH]; simpl.
  - apply emits_bind; [exact Hattempt | intros done].
    apply emits_if; [apply emits_ret | apply emits_raise].
  - apply emits_bind; [exact Hattempt | intros done].
    apply emits_if; [apply emits_ret |].
    apply emits_bind; [apply emits_call; apply Hsleep | intros _]. exact IH.
Qed.

Lemma deploy_task_active_emits task_id :
  emits background (deploy_task_active config self task_id).
Proof.
  unfold deploy_task_active.
  apply emits_bind; [apply get_deploy_tasks_emits; reflexivity | intros host_tasks].
  apply emits_bind; [apply emits_lift | intros matches]. apply emits_ret.
Qed.

Lemma wait_for_deploy_task_emits task_id :
  emits background (wait_for_deploy_task config self task_id).
Proof.
  unfold wait_for_deploy_task.
  apply emits_bind; [apply emits_log; reflexivity | intros _].
  apply poll_emits; [reflexivity |].
  apply emits_bind; [apply deploy_task_active_emits | intros active]. apply emits_ret.
Qed.

Lemma power_cycle_and_wait_emits task_id :
  emits background (power_cycle_and_wait config self task_id).
Proof.
  unfold power_cycle_and_wait.
  apply emits_bind; [apply emits_call; reflexivity | intros _].
  apply emits_bind; [apply emits_call; reflexivity | intros _].
  apply wait_for_deploy_task_emits.
Qed.

Lemma wait_for_ready_emits : emits background (_wait_for_ready (W := W) config default_sleep).
Proof.
  unfold _wait_for_ready, wait_for_sentinel, connect_attempt, sentinel_attempt.
  apply emits_bind.
  { apply poll_emits; [reflexivity |].
    apply emits_try_except.
    - apply emits_bind; [apply emits_call; reflexivity | intros _]. apply emits_ret.
    - intros e. apply emits_bind; [apply emits_log; reflexivity | intros _]. apply emits_ret. }
  intros _. apply emits_bind; [apply fog_get_emits | intros found].
  apply emits_bind; [| intros _; apply emits_log; reflexivity].
  apply sentinel_step_emits. intros path.
  apply poll_emits; [reflexivity |].
  apply emits_try_except.
  - apply emits_bind; [apply emits_call; reflexivity | intros _]. apply emits_ret.
  - intros e. apply emits_bind; [apply emits_log; reflexivity | intros _]. apply emits_ret.
Qed.

Lemma fix_hostname_emits : emits background (_fix_hostname (W := W) self).
Proof.
  unfold _fix_hostname.
  apply emits_bind; [apply emits_call; reflexivity | intros out].
  apply emits_bind; [apply emits_call; reflexivity | intros out2].
  apply emits_bind.
  { apply emits_if; [| apply emits_ret].
    apply emits_bind; [apply emits_call; reflexivity | intros _].
    apply emits_bind; [apply emits_call; reflexivity | intros _].
    apply emits_bind; [intros w; reflexivity | intros new_ip].
    apply emits_call; reflexivity. }
  intros _. apply emits_bind; [apply emits_call; reflexivity | intros _].
  apply emits_call; reflexivity.
Qed.

Lemma verify_installed_os_emits : emits background (_verify_installed_os (W := W) self).
Proof.
  unfold _verify_installed_os.
  apply emits_bind.
  { intros w. destruct (remote_os w). reflexivity. }
  intros found. apply emits_if; [apply emits_raise | apply emits_ret].
Qed.

Lemma after_deploy_emits : emits background (after_deploy (W := W) config default_sleep self).
Proof.
  unfold after_deploy.
  apply emits_bind; [apply wait_for_ready_emits | intros _].
  apply emits_bind; [apply fix_hostname_emits | intros _].
  apply emits_bind; [apply verify_installed_os_emits | intros _].
  apply emits_log. reflexivity.
Qed.

(** An attempt that succeeds at once ends the wait: no sleep, no timeout. *)
Lemma poll_first pauses (attempt : M W bool) (w w1 : W) evs1 :
  attempt w = (Ok true, w1, evs1) -> poll pauses attempt w = (Ok tt, w1, evs1).
Proof.
  intros Hattempt. destruct pauses; simpl; unfold bind, ret; rewrite Hattempt;
    rewrite app_nil_r; reflexivity.
Qed.

End Waits.

(** ** Failure after scheduling *)

Section Failure.

Context {W : Type} `{!Runtime, !Http W, !Console W, !Remote W, !Clock W}.
Variable config : config_t.
Variable default_sleep : positive.
Variable self : FOG.

Lemma scheduled_enabled (w w1 : W) task_id evs1 :
  create_until_scheduled config self w = (Ok task_id, w1, evs1) ->
  unset config = [].
Proof.
  intros Hrun. unfold create_until_scheduled in Hrun.
  rewrite (bind_ok _ _ _ _ _ _ (enabled_quiet config w)) in Hrun.
  destruct (unset config); [reflexivity |]. simpl in Hrun. discriminate.
Qed.

(** With the settings in place a cancel makes one cancel call, for the id it
    was given, however the call ends. *)
Lemma cancel_deploy_task_calls_once task_id (w w' : W) r evs :
  unset config = [] ->
  cancel_deploy_task config task_id w = (r, w', evs) ->
  cancels evs = [EvRequest (ReqCancel task_id)].
Proof.
  intros Hset Hrun. unfold cancel_deploy_task in Hrun.
  rewrite (bind_ok _ _ _ _ _ _ (eq_refl : log Debug _ w = (Ok tt, w, [_]))) in Hrun.
  destruct (do_request_sends config (ReqCancel task_id) true w Hset)
    as (a & u & e & _ & _ & _ & Hreq).
  unfold bind in Hrun. rewrite Hreq in Hrun. unfold answered in Hrun.
  destruct (http_send a u e (ReqCancel task_id) w) as [[resp | ex] w0].
  - unfold lift, raise_for_status in Hrun.
    destruct (ok resp); simpl in Hrun; injection Hrun as _ _ <-; reflexivity.
  - injection Hrun as _ _ <-. reflexivity.
Qed.

(** C1, as amended.  Let [create] have scheduled the task [task_id].  If the
    power cycle or the wait for the deploy raises an exception of a class
    derived from [Exception], [create] makes exactly one cancel call, for
    [task_id], and then raises: the original exception when the cancel
    returns, the exception of the cancel when the cancel itself fails.  An
    exception that is not derived from [Exception] propagates with no cancel
    call.  When neither step raises, [create] itself makes no cancel call. *)
Theorem create_cancels_on_failure (w w1 : W) task_id evs1 :
  create_until_scheduled config self w = (Ok task_id, w1, evs1) ->
  (forall e w2 evs2,
      power_cycle_and_wait config self task_id w1 = (Raise e, w2, evs2) ->
      is_Exception e = true ->
      exists canceled w3 evs3,
        cancel_deploy_task config task_id w2 = (canceled, w3, evs3) /\
        cancels (evs2 ++ evs3) = [EvRequest (ReqCancel task_id)] /\
        create config default_sleep self w =
          (Raise (match canceled with Ok _ => e | Raise e' => e' end), w3,
           evs1 ++ evs2 ++ evs3)) /\
  (forall e w2 evs2,
      power_cycle_and_wait config self task_id w1 = (Raise e, w2, evs2) ->
      is_Exception e = false ->
      cancels evs2 = [] /\
      create config default_sleep self w = (Raise e, w2, evs1 ++ evs2)) /\
  (forall w2 evs2,
      power_cycle_and_wait config self task_id w1 = (Ok tt, w2, evs2) ->
      exists r w3 evs3,
        after_deploy config default_sleep self w2 = (r, w3, evs3) /\
        cancels (evs2 ++ evs3) = [] /\
        create config default_sleep self w = (r, w3, evs1 ++ evs2 ++ evs3)).
Proof.
  intros Hsched. pose proof (scheduled_enabled _ _ _ _ Hsched) as Hset.
  split; [| split].
  - intros e w2 evs2 Hfail Hcaught.
    destruct (cancel_deploy_task config task_id w2) as [[canceled w3] evs3] eqn:Hcancel.
    exists canceled, w3, evs3. split; [reflexivity |]. split.
    + rewrite cancels_app, (cancel_deploy_task_calls_once _ _ _ _ _ Hset Hcancel).
      rewrite (background_cancels _
                 (emits_run _ _ _ _ _ _ (power_cycle_and_wait_emits config self task_id) Hfail)).
      reflexivity.
    + rewrite create_phases, (bind_ok _ _ _ _ _ _ Hsched).
      unfold bind, try_except, raise. rewrite Hfail, Hcaught, Hcancel.
      destruct canceled; simpl; rewrite ?app_nil_r; reflexivity.
  - intros e w2 evs2 Hfail Hpass. split.
    + apply background_cancels.
      exact (emits_run _ _ _ _ _ _ (power_cycle_and_wait_emits config self task_id) Hfail).
    + rewrite create_phases, (bind_ok _ _ _ _ _ _ Hsched).
      unfold bind, try_except. rewrite Hfail, Hpass. reflexivity.
  - intros w2 evs2 Hdone.
    destruct (after_deploy config default_sleep self w2) as [[r w3] evs3] eqn:Hafter.
    exists r, w3, evs3. split; [reflexivity |]. split.
    + rewrite cancels_app.
      rewrite (background_cancels _
                 (emits_run _ _ _ _ _ _ (power_cycle_and_wait_emits config self task_id) Hdone)).
      rewrite (background_cancels _
                 (emits_run _ _ _ _ _ _ (after_deploy_emits config default_sleep self) Hafter)).
      reflexivity.
    + rewrite create_phases, (bind_ok _ _ _ _ _ _ Hsched).
      unfold bind, try_except. rewrite Hdone, Hafter. reflexivity.
Qed.

End Failure.

(** C1, as stated, fails twice.  When the console raises [KeyboardInterrupt]
    during the power cycle, [create] makes no cancel call.  When it raises
    [OSError] and the server answers the cancel call with status 500,
    [create] raises the [HTTPError] of the cancel, not the original
    exception. *)
Lemma create_cancel_exceptions :
  (exists w evs,
      create configured 6 node7 (deploying [Raise KeyboardInterrupt] []) =
        (Raise KeyboardInterrupt, w, evs) /\
      cancels evs = []) /\
  (exists w evs,
      create configured 6 node7 (deploying [Raise OSError] [status 500]) =
        (Raise (HTTPError 500), w, evs) /\
      cancels evs = [EvRequest (ReqCancel (JInt 7))]).
Proof. split; eexists; eexists; split; vm_compute; reflexivity. Qed.

(** A run of C1: the power-off fails, task 7 is canceled, and the failure of
    the console reaches the caller. *)
Lemma create_cancels_on_failure_witness :
  exists w evs,
    create configured 6 node7 (deploying [Raise OSError] [status 200]) =
      (Raise OSError, w, evs) /\
    cancels evs = [EvRequest (ReqCancel (JInt 7))].
Proof.
  assert (Hsched : exists w1 evs1,
             create_until_scheduled configured node7 (deploying [Raise OSError] [status 200]) =
               (Ok (JInt 7), w1, evs1) /\ cancels evs1 = [] /\
             exists w2 evs2,
               power_cycle_and_wait configured node7 (JInt 7) w1 = (Raise OSError, w2, evs2) /\
               exists w3 evs3,
                 cancel_deploy_task configured (JInt 7) w2 = (Ok tt, w3, evs3)).
  { do 2 eexists. split; [vm_compute; reflexivity |]. split; [vm_compute; reflexivity |].
    do 2 eexists. split; [vm_compute; reflexivity |].
    do 2 eexists. vm_compute. reflexivity. }
  destruct Hsched as (w1 & evs1 & Hsched & Hnone & w2 & evs2 & Hfail & w3 & evs3 & Hcancel).
  destruct (proj1 (create_cancels_on_failure configured 6 node7 _ _ _ _ Hsched)
              _ _ _ Hfail eq_refl)
    as (canceled & w3' & evs3' & Hcancel' & Hone & Hrun).
  rewrite Hcancel in Hcancel'. injection Hcancel' as <- <- <-.
  exists w3, (evs1 ++ evs2 ++ evs3). split; [exact Hrun |].
  rewrite cancels_app, Hnone. exact Hone.
Defined.

(** ** A deploy task that was not found *)

Lemma py_eq_None (v : json) : py_eq v JNull = true -> v = JNull.
Proof. destruct v; simpl; try discriminate. reflexivity. Qed.

Lemma matches_of_ids task_id tasks ids :
  task_ids tasks = Ok ids ->
  rmap (fun task => rbind (getitem task "id") (fun id => Ok (py_eq id task_id))) tasks =
    Ok (map (fun id => py_eq id task_id) ids).
Proof.
  unfold task_ids. revert ids. induction tasks as [| task rest IH]; intros ids Hids.
  - injection Hids as <-. reflexivity.
  - simpl in *. destruct (getitem task "id") as [id |]; [| discriminate]. simpl in *.
    destruct (rmap (fun task0 => getitem task0 "id") rest) as [ids' |]; [| discriminate].
    injection Hids as <-. rewrite (IH ids' eq_refl). reflexivity.
Qed.

Lemma no_match_of_None ids :
  ~ In JNull ids -> existsb (fun b : bool => b) (map (fun id => py_eq id JNull) ids) = false.
Proof.
  induction ids as [| id ids IH]; [reflexivity |]. intros Hnot. simpl.
  destruct (py_eq id JNull) eqn:Heq.
  - apply py_eq_None in Heq. subst id. destruct Hnot. left. reflexivity.
  - apply IH. intros Hin. apply Hnot. right. exact Hin.
Qed.

Section AbsentTask.

Context {W : Type} `{!Runtime, !Http W, !Console W, !Remote W, !Clock W}.
Variable config : config_t.
Variable default_sleep : positive.
Variable self : FOG.

Lemma wait_for_absent_task (w w1 : W) tasks evs1 ids :
  get_deploy_tasks config self w = (Ok tasks, w1, evs1) ->
  task_ids tasks = Ok ids ->
  ~ In JNull ids ->
  deploy_task_active config self JNull w = (Ok false, w1, evs1) /\
  wait_for_deploy_task config self JNull w =
    (Ok tt, w1, EvLog Info "Waiting for deploy to finish" :: evs1).
Proof.
  intros Hlist Hids Hnot.
  assert (Hactive : deploy_task_active config self JNull w = (Ok false, w1, evs1)).
  { unfold deploy_task_active. rewrite (bind_ok _ _ _ _ _ _ Hlist).
    unfold bind, lift, ret. rewrite (matches_of_ids _ _ _ Hids), (no_match_of_None _ Hnot).
    rewrite !app_nil_r. reflexivity. }
  split; [exact Hactive |].
  unfold wait_for_deploy_task.
  rewrite (bind_ok _ _ _ _ _ _ (eq_refl : log Info _ w = (Ok tt, w, [_]))).
  rewrite (poll_first _ _ w w1 evs1); [reflexivity |].
  rewrite (bind_ok _ _ _ _ _ _ Hactive). unfold ret. rewrite app_nil_r. reflexivity.
Qed.

(** C10: when the time stamps of the tasks listed after the scheduling can
    be read and none of the tasks is below five seconds old, the selection of
    [schedule_deploy_task] returns [None].  For every list of active tasks in
    which no id is [None], [deploy_task_active(None)] is false and
    [wait_for_deploy_task(None)] returns after its first poll, without a
    sleep and without raising.  So when the scheduling returned [None] and
    the power cycle succeeds, [create] cancels nothing, raises nothing and
    goes on to wait for the node. *)
Theorem absent_task_passes_for_deployed :
  (forall host_tasks (w : W),
      (forall task, In task host_tasks ->
                    exists timestamp created,
                      getitem task "createdTime" = Ok timestamp /\
                      parse_timestamp timestamp = Ok created) ->
      exists r w' evs,
        select_recent host_tasks w = (r, w', evs) /\
        ((forall task, In task host_tasks -> ~ fresh_at evs task) -> r = Ok JNull)) /\
  (forall (w w1 : W) tasks evs1 ids,
      get_deploy_tasks config self w = (Ok tasks, w1, evs1) ->
      task_ids tasks = Ok ids ->
      ~ In JNull ids ->
      deploy_task_active config self JNull w = (Ok false, w1, evs1) /\
      wait_for_deploy_task config self JNull w =
        (Ok tt, w1, EvLog Info "Waiting for deploy to finish" :: evs1)) /\
  (forall (w wa wb wc w1 : W) evs0 tasks evs1 ids,
      create_until_scheduled config self w = (Ok JNull, wa, evs0) ->
      power_off wa = (Ok tt, wb) ->
      power_on wb = (Ok tt, wc) ->
      get_deploy_tasks config self wc = (Ok tasks, w1, evs1) ->
      task_ids tasks = Ok ids ->
      ~ In JNull ids ->
      exists r w' evs,
        after_deploy config default_sleep self w1 = (r, w', evs) /\
        create config default_sleep self w =
          (r, w',
           evs0 ++
           [EvPowerOff; EvPowerOn; EvLog Info "Waiting for deploy to finish"] ++
           evs1 ++ evs)).
Proof.
  split; [intros host_tasks w; apply select_recent_none |].
  split; [intros w w1 tasks evs1 ids; apply wait_for_absent_task |].
  intros w wa wb wc w1 evs0 tasks evs1 ids Hsched Hoff Hon Hlist Hids Hnot.
  destruct (after_deploy config default_sleep self w1) as [[r w'] evs] eqn:Hafter.
  exists r, w', evs. split; [reflexivity |].
  destruct (wait_for_absent_task _ _ _ _ _ Hlist Hids Hnot) as [_ Hwait].
  rewrite create_phases, (bind_ok _ _ _ _ _ _ Hsched).
  unfold bind, try_except, power_cycle_and_wait, bind, call.
  rewrite Hoff, Hon, Hwait, Hafter. simpl. rewrite <- ?app_assoc. reflexivity.
Qed.

End AbsentTask.

(** A run of C10: task 7 is a thousand seconds old when the selection reads
    the clock, so no id is returned; task 7 is still active when [create]
    polls, and [create] completes. *)
Lemma absent_task_passes_for_deployed_witness :
  exists w evs,
    create configured 6 node7 stale_listing = (Ok tt, w, evs) /\
    cancels evs = [].
Proof.
  assert (Hrun : exists wa evs0,
             create_until_scheduled configured node7 stale_listing = (Ok JNull, wa, evs0) /\
             cancels evs0 = [] /\
             exists wb wc,
               power_off wa = (Ok tt, wb) /\ power_on wb = (Ok tt, wc) /\
               exists w1 evs1,
                 get_deploy_tasks configured node7 wc =
                   (Ok [task 7 "node7" "2024-05-01 12:00:00"], w1, evs1) /\
                 cancels evs1 = [] /\
                 exists w' evs,
                   after_deploy configured 6 node7 w1 = (Ok tt, w', evs) /\
                   cancels evs = []).
  { do 2 eexists. split; [vm_compute; reflexivity |]. split; [vm_compute; reflexivity |].
    do 2 eexists. split; [vm_compute; reflexivity |]. split; [vm_compute; reflexivity |].
    do 2 eexists. split; [vm_compute; reflexivity |]. split; [vm_compute; reflexivity |].
    do 2 eexists. split; vm_compute; reflexivity. }
  destruct Hrun as (wa & evs0 & Hsched & Hc0 & wb & wc & Hoff & Hon &
                    w1 & evs1 & Hlist & Hc1 & w' & evs & Hafter & Hc2).
  destruct (proj2 (proj2 (absent_task_passes_for_deployed configured 6 node7))
              _ _ _ _ _ _ _ _ [JInt 7] Hsched Hoff Hon Hlist eq_refl)
    as (r & w2 & evs2 & Hafter' & Hcreate).
  { intros [Hin | []]. discriminate. }
  rewrite Hafter in Hafter'. injection Hafter' as <- <- <-.
  exists w', (evs0 ++ [EvPowerOff; EvPowerOn; EvLog Info "Waiting for deploy to finish"] ++
              evs1 ++ evs).
  split; [exact Hcreate |].
  rewrite !cancels_app, Hc0, Hc1, Hc2. reflexivity.
Defined.

(** ** The waits for the node *)

Lemma sleeps_begun n timeout increment start current k :
  (k < length (sleeps n timeout increment start current))%nat ->
  start + total (firstn k (sleeps n timeout increment start current)) < timeout.
Proof.
  revert start current k. induction n as [| n IH]; intros start current k Hk; simpl in *.
  - lia.
  - destruct (Z.leb_spec timeout start) as [Hle | Hlt]; simpl in *; [lia |].
    destruct k as [| k]; simpl; [lia |].
    specialize (IH (start + current) (current + increment) k). unfold total in *. lia.
Qed.

(** When every pause lasts a second or more, a count of [timeout - start]
    pauses does not cut the wait short: its pauses reach the timeout. *)
Lemma sleeps_reach n timeout increment start current :
  0 < current -> 0 <= increment ->
  (Z.to_nat (timeout - start) <= n)%nat ->
  timeout <= start + total (sleeps n timeout increment start current).
Proof.
  revert start current. induction n as [| n IH]; intros start current Hcur Hinc Hn; simpl.
  - lia.
  - destruct (Z.leb_spec timeout start) as [Hle | Hlt]; simpl; [lia |].
    specialize (IH (start + current) (current + increment)). unfold total in *. lia.
Qed.

Lemma sw_sleeps_begun sw : begun_before (sw_timeout sw) (sw_sleeps sw).
Proof.
  intros k Hk. unfold sw_sleeps in *.
  pose proof (sleeps_begun _ _ _ _ _ _ Hk). lia.
Qed.

Lemma sw_sleeps_reach sw :
  sw_tries sw = None -> sw_timeout sw <= total (sw_sleeps sw).
Proof.
  intros Hnone. unfold sw_sleeps. rewrite Hnone.
  pose proof (sleeps_reach (Z.to_nat (sw_timeout sw)) (sw_timeout sw)
                (Z.of_N (sw_increment sw)) 0 (Z.pos (sw_sleep sw))).
  lia.
Qed.

Lemma slept_in_app evs evs' : slept_in (evs ++ evs') = slept_in evs ++ slept_in evs'.
Proof. unfold slept_in. apply flat_map_app. Qed.

Lemma slept_in_none evs : forallb not_sleep evs = true -> slept_in evs = [].
Proof.
  induction evs as [| ev evs IH]; [reflexivity |]. simpl.
  intros Hall. apply andb_prop in Hall. destruct Hall as [Hev Hall].
  rewrite (IH Hall). destruct ev; try discriminate; reflexivity.
Qed.

Section Polling.

Context {W : Type} `{!Remote W, !Clock W}.

(** A wait sleeps the first pauses of its list, in order.  It ends with the
    success of an attempt, with the exception an attempt raised, or, once
    every pause has been slept, with [MaxWhileTries]. *)
Lemma poll_run pauses (attempt : M W bool) :
  emits not_sleep attempt ->
  forall (w w' : W) r evs,
    poll pauses attempt w = (r, w', evs) ->
    exists k,
      slept_in evs = firstn k pauses /\
      (r = Ok tt \/
       (r = Raise MaxWhileTries /\ slept_in evs = pauses) \/
       (exists e w0 w1 evs1, r = Raise e /\ attempt w0 = (Raise e, w1, evs1))).
Proof.
  intros Hquiet. induction pauses as [| pause rest IH]; intros w w' r evs Hrun.
  - simpl in Hrun. apply bind_inv in Hrun.
    destruct Hrun as [(e & Hatt & ->) | (done & w1 & evs1 & evs2 & Hatt & Hrest & ->)].
    + exists 0%nat. rewrite (slept_in_none _ (emits_run _ _ _ _ _ _ Hquiet Hatt)).
      split; [reflexivity |]. right. right. eauto 6.
    + rewrite slept_in_app, (slept_in_none _ (emits_run _ _ _ _ _ _ Hquiet Hatt)).
      exists 0%nat. destruct done; injection Hrest as <- _ <-; simpl; auto.
  - simpl in Hrun. apply bind_inv in Hrun.
    destruct Hrun as [(e & Hatt & ->) | (done & w1 & evs1 & evs2 & Hatt & Hrest & ->)].
    + exists 0%nat. rewrite (slept_in_none _ (emits_run _ _ _ _ _ _ Hquiet Hatt)).
      split; [reflexivity |]. right. right. eauto 6.
    + rewrite slept_in_app, (slept_in_none _ (emits_run _ _ _ _ _ _ Hquiet Hatt)).
      destruct done.
      * injection Hrest as <- _ <-. exists 0%nat. simpl. auto.
      * rewrite (bind_ok _ _ _ _ _ _
                   (eq_refl : call (EvSleep pause) (fun w => (Ok tt, sleep pause w)) w1 =
                              (Ok tt, sleep pause w1, [EvSleep pause]))) in Hrest.
        destruct (poll rest attempt (sleep pause w1)) as [[r2 w2] evs3] eqn:Hpoll.
        injection Hrest as <- <- <-.
        destruct (IH _ _ _ _ Hpoll) as (k & Hslept & Hend).
        exists (S k). simpl. rewrite Hslept. split; [reflexivity |].
        destruct Hend as [-> | [(-> & Hall) | Hraised]]; auto.
        right. left. split; [reflexivity |]. f_equal. rewrite <- Hslept. exact Hall.
Qed.

End Polling.

Section Readiness.

Context {W : Type} `{!Remote W, !Clock W}.
Variable config : config_t.
Variable default_sleep : positive.

Lemma connect_attempt_emits P :
  P EvConnect = true -> (forall msg, P (EvLog Warning msg) = true) ->
  emits P (connect_attempt (W := W)).
Proof.
  intros Hconnect Hlog. unfold connect_attempt. apply emits_try_except.
  - apply emits_bind; [apply emits_call; exact Hconnect | intros _]. apply emits_ret.
  - intros e. apply emits_bind; [apply emits_log; apply Hlog | intros _]. apply emits_ret.
Qed.

Lemma sentinel_attempt_emits P path :
  P (EvRun (CmdWaitSentinel path) true) = true ->
  (forall msg, P (EvLog Error msg) = true) ->
  emits P (sentinel_attempt (W := W) path).
Proof.
  intros Hrun Hlog. unfold sentinel_attempt. apply emits_try_except.
  - apply emits_bind; [apply emits_call; exact Hrun | intros _]. apply emits_ret.
  - intros e. apply emits_bind; [apply emits_log; apply Hlog | intros _]. apply emits_ret.
Qed.

(** An exception leaves the body of the sentinel loop only if its class is
    not one of those the loop retries. *)
Lemma sentinel_attempt_raises path (w0 w1 : W) e evs1 :
  sentinel_attempt path w0 = (Raise e, w1, evs1) -> sentinel_retried e = false.
Proof.
  unfold sentinel_attempt, try_except, bind, call, log, ret.
  destruct (run (CmdWaitSentinel path) true (Some 600) w0) as [[[] | e'] w2]; simpl;
    [discriminate |].
  destruct (sentinel_retried e') eqn:Hretried; [discriminate |].
  intros [= <- _ _]. exact Hretried.
Qed.

Lemma wait_for_sentinel_run path (w w' : W) r evs :
  wait_for_sentinel default_sleep path w = (r, w', evs) ->
  exists k,
    slept_in evs = firstn k (sw_sleeps (sentinel_wait default_sleep)) /\
    (r = Ok tt \/
     (r = Raise MaxWhileTries /\ slept_in evs = sw_sleeps (sentinel_wait default_sleep)) \/
     (exists e, r = Raise e /\ sentinel_retried e = false)).
Proof.
  intros Hrun. unfold wait_for_sentinel in Hrun.
  destruct (poll_run _ _ (sentinel_attempt_emits not_sleep path eq_refl (fun _ => eq_refl))
              _ _ _ _ Hrun) as (k & Hslept & Hend).
  exists k. split; [exact Hslept |].
  destruct Hend as [-> | [Htimeout | (e & w0 & w1 & evs1 & -> & Hraised)]]; auto.
  right. right. exists e. split; [reflexivity |].
  exact (sentinel_attempt_raises _ _ _ _ _ Hraised).
Qed.

Lemma sentinel_phase_run (w w' : W) r evs :
  match sentinel_file config with
  | Some path => wait_for_sentinel default_sleep path
  | None => ret tt
  end w = (r, w', evs) ->
  exists k2,
    slept_in evs = firstn k2 (sw_sleeps (sentinel_wait default_sleep)) /\
    (sentinel_file config = None -> evs = []).
Proof.
  destruct (sentinel_file config) as [path |]; intros Hrun.
  - destruct (wait_for_sentinel_run _ _ _ _ _ Hrun) as (k2 & Hslept & _).
    exists k2. split; [exact Hslept | discriminate].
  - injection Hrun as _ _ <-. exists 0%nat. split; reflexivity.
Qed.

Lemma ssh_phase_run (w w' : W) r evs :
  poll (sw_sleeps (ssh_wait config)) connect_attempt w = (r, w', evs) ->
  forallb not_sentinel evs = true /\
  exists k1, slept_in evs = firstn k1 (sw_sleeps (ssh_wait config)).
Proof.
  intros Hrun. split.
  - refine (emits_run not_sentinel _ _ _ _ _ _ Hrun).
    apply poll_emits; [reflexivity |]. apply connect_attempt_emits; reflexivity.
  - destruct (poll_run _ _ (connect_attempt_emits not_sleep eq_refl (fun _ => eq_refl))
                _ _ _ _ Hrun) as (k1 & Hslept & _).
    exists k1. exact Hslept.
Qed.

(** C8, as amended.  The wait for SSH is bounded by the configured
    [fog_wait_for_ssh_timeout]: each of its pauses begins before that many
    seconds have been slept, and its pauses reach it.  The wait for the
    sentinel is bounded by a fixed 1800 seconds, whatever the configuration.
    A run of [_wait_for_ready] sleeps first pauses of the one wait and then
    first pauses of the other; without a configured sentinel file it never
    runs the sentinel command and sleeps for the SSH wait only.  The wait
    for the sentinel ends with the success of the command, with
    [MaxWhileTries] once all its pauses have been slept, or with an
    exception of a class it does not retry: [ConnectionError] and
    [EOFError] are retried. *)
Theorem readiness_waits_are_bounded :
  begun_before (fog_wait_for_ssh_timeout config) (sw_sleeps (ssh_wait config)) /\
  fog_wait_for_ssh_timeout config <= total (sw_sleeps (ssh_wait config)) /\
  begun_before 1800 (sw_sleeps (sentinel_wait default_sleep)) /\
  1800 <= total (sw_sleeps (sentinel_wait default_sleep)) /\
  (forall (w w' : W) r evs,
      _wait_for_ready config default_sleep w = (r, w', evs) ->
      (exists k1 k2,
          slept_in evs = firstn k1 (sw_sleeps (ssh_wait config)) ++
                         firstn k2 (sw_sleeps (sentinel_wait default_sleep))) /\
      (sentinel_file config = None ->
       forallb not_sentinel evs = true /\
       exists k1, slept_in evs = firstn k1 (sw_sleeps (ssh_wait config)))) /\
  (forall path (w w' : W) r evs,
      wait_for_sentinel default_sleep path w = (r, w', evs) ->
      exists k,
        slept_in evs = firstn k (sw_sleeps (sentinel_wait default_sleep)) /\
        (r = Ok tt \/
         (r = Raise MaxWhileTries /\
          slept_in evs = sw_sleeps (sentinel_wait default_sleep)) \/
         (exists e, r = Raise e /\ sentinel_retried e = false))).
Proof.
  split; [exact (sw_sleeps_begun (ssh_wait config)) |].
  split; [exact (sw_sleeps_reach (ssh_wait config) eq_refl) |].
  split; [exact (sw_sleeps_begun (sentinel_wait default_sleep)) |].
  split; [exact (sw_sleeps_reach (sentinel_wait default_sleep) eq_refl) |].
  split; [| intros path w w' r evs; apply wait_for_sentinel_run].
  intros w w' r evs Hrun. rewrite wait_for_ready_phases in Hrun. apply bind_inv in Hrun.
  destruct Hrun as [(e & Hssh & _) | (u & w1 & evs1 & evs2 & Hssh & Hrest & ->)].
  - destruct (ssh_phase_run _ _ _ _ Hssh) as (Hquiet & k1 & Hslept). split.
    + exists k1, 0%nat. simpl. rewrite app_nil_r. exact Hslept.
    + intros _. split; [exact Hquiet | exists k1; exact Hslept].
  - destruct (ssh_phase_run _ _ _ _ Hssh) as (Hquiet & k1 & Hslept).
    assert (Hsecond : exists k2,
               slept_in evs2 = firstn k2 (sw_sleeps (sentinel_wait default_sleep)) /\
               (sentinel_file config = None ->
                forallb not_sentinel evs2 = true /\ slept_in evs2 = [])).
    { destruct (fog_section config) as [section |].
      2: { injection Hrest as _ _ <-. exists 0%nat. auto. }
      apply bind_inv in Hrest.
      destruct Hrest as [(e & Hsent & _) | (u2 & w2 & evs3 & evs4 & Hsent & Hlog & ->)].
      - destruct (sentinel_phase_run _ _ _ _ Hsent) as (k2 & Hs & Hnone).
        exists k2. split; [exact Hs |]. intros Hfile. rewrite (Hnone Hfile). auto.
      - destruct (sentinel_phase_run _ _ _ _ Hsent) as (k2 & Hs & Hnone).
        injection Hlog as _ _ <-. exists k2. rewrite slept_in_app. simpl.
        rewrite app_nil_r. split; [exact Hs |].
        intros Hfile. rewrite (Hnone Hfile). auto. }
    destruct Hsecond as (k2 & Hs & Hnone). rewrite slept_in_app, forallb_app. split.
    + exists k1, k2. rewrite Hslept, Hs. reflexivity.
    + intros Hfile. destruct (Hnone Hfile) as [Hq2 Hs2]. rewrite Hquiet, Hq2, Hs2.
      split; [reflexivity |]. exists k1. rewrite app_nil_r. exact Hslept.
Qed.

End Readiness.

(** C8, as stated, fails: with every timeout of the configuration set to one
    second and a node that drops every command, the wait for the sentinel
    sleeps 1887 seconds before it gives up. *)
Lemma sentinel_wait_ignores_configuration :
  fog_wait_for_ssh_timeout hasty = 1 /\
  fog_reimage_timeout hasty = 1 /\
  exists w evs,
    _wait_for_ready hasty 6 dropping = (Raise MaxWhileTries, w, evs) /\
    total (slept_in evs) = 1887.
Proof.
  split; [reflexivity |]. split; [reflexivity |].
  do 2 eexists. split; vm_compute; reflexivity.
Qed.

(** A run of C8: the same wait, whose pauses are the first pauses of the two
    waits. *)
Lemma readiness_waits_are_bounded_witness :
  exists k1 k2 w evs,
    _wait_for_ready hasty 6 dropping = (Raise MaxWhileTries, w, evs) /\
    slept_in evs = firstn k1 (sw_sleeps (ssh_wait hasty)) ++
                   firstn k2 (sw_sleeps (sentinel_wait 6)).
Proof.
  assert (Hrun : exists w evs,
             _wait_for_ready hasty 6 dropping = (Raise MaxWhileTries, w, evs))
    by (do 2 eexists; vm_compute; reflexivity).
  destruct Hrun as (w & evs & Hrun).
  destruct (proj1 (proj1 (proj2 (proj2 (proj2 (proj2
              (readiness_waits_are_bounded (W := world) hasty 6)))))
              _ _ _ _ Hrun)) as (k1 & k2 & Hslept).
  exists k1, k2, w, evs. split; [exact Hrun | exact Hslept].
Defined.

(** ** Text and substitution *)

Section Text.

Local Open Scope string_scope.
#[local] Arguments String.append !s1 s2 : simpl nomatch.

Lemma sapp_assoc (a b c : string) : (a ++ b) ++ c = a ++ (b ++ c).
Proof. induction a as [| h a IH]; simpl; [reflexivity | rewrite IH; reflexivity]. Qed.

Lemma sapp_nil_r (a : string) : a ++ "" = a.
Proof. induction a as [| h a IH]; simpl; [reflexivity | rewrite IH; reflexivity]. Qed.

(** Two ways of cutting one text differ by a middle piece. *)
Lemma sapp_eq_app (a b c d : string) :
  a ++ b = c ++ d ->
  (exists x, a = c ++ x /\ d = x ++ b) \/ (exists x, c = a ++ x /\ b = x ++ d).
Proof.
  revert c. induction a as [| h a IH]; intros c Heq; simpl in Heq.
  - right. exists c. auto.
  - destruct c as [| h' c]; simpl in Heq.
    + left. exists (String h a). auto.
    + injection Heq as <- Heq. destruct (IH _ Heq) as [(x & -> & ->) | (x & -> & ->)].
      * left. exists x. auto.
      * right. exists x. auto.
Qed.

Lemma startswith_spec (s p : string) :
  startswith s p = true <-> exists r, s = p ++ r.
Proof.
  revert s. induction p as [| a p IH]; intros s; simpl.
  - split; [intros _; exists s; reflexivity | intros _; destruct s; reflexivity].
  - destruct s as [| b s].
    + split; [discriminate | intros (r & Hr); discriminate].
    + split.
      * intros H. apply andb_prop in H. destruct H as [Hab Hrest].
        apply Ascii.eqb_eq in Hab. subst b.
        apply IH in Hrest. destruct Hrest as (r & ->). exists r. reflexivity.
      * intros (r & Hr). injection Hr as -> ->.
        simpl. rewrite Ascii.eqb_refl. simpl. apply IH. exists r. reflexivity.
Qed.

Lemma startswith_app (x y p : string) :
  startswith x p = true -> startswith (x ++ y) p = true.
Proof.
  intros H. apply startswith_spec in H. destruct H as (r & ->).
  apply startswith_spec. exists (r ++ y). apply sapp_assoc.
Qed.

Lemma contains_spec (s old : string) : contains s old = true <-> occurs old s.
Proof.
  split.
  - induction s as [| c t IH]; cbn [contains]; intros H.
    + rewrite orb_false_r in H. destruct old; [| discriminate].
      exists "", "". reflexivity.
    + apply orb_prop in H. destruct H as [H | H].
      * apply startswith_spec in H. destruct H as (r & Hr). exists "", r. exact Hr.
      * destruct (IH H) as (pre & post & ->). exists (String c pre), post. reflexivity.
  - intros (pre & post & ->). induction pre as [| c pre IH].
    + assert (H : startswith (old ++ post) old = true)
        by (apply startswith_spec; exists post; reflexivity).
      change ("" ++ old ++ post) with (old ++ post).
      destruct (old ++ post); cbn [contains]; rewrite H; reflexivity.
    + change (String c pre ++ old ++ post) with (String c (pre ++ old ++ post)).
      cbn [contains]. rewrite IH. apply orb_true_r.
Qed.

Lemma contains_free (s old : string) : contains s old = false <-> ~ occurs old s.
Proof.
  rewrite <- contains_spec. destruct (contains s old); split; congruence.
Qed.

Lemma occurs_left (old a b : string) : occurs old a -> occurs old (a ++ b).
Proof.
  intros (pre & post & ->). exists pre, (post ++ b). rewrite !sapp_assoc. reflexivity.
Qed.

Lemma occurs_right (old a b : string) : occurs old b -> occurs old (a ++ b).
Proof.
  intros (pre & post & ->). exists (a ++ pre), post. rewrite !sapp_assoc. reflexivity.
Qed.

Lemma sdrop_app (a b : string) : sdrop (String.length a) (a ++ b) = b.
Proof. induction a as [| h a IH]; simpl; [destruct b; reflexivity | exact IH]. Qed.

Lemma replace_from_skip old new k s :
  replace_from old new k s = replace_from old new 0 (sdrop k s).
Proof.
  revert k. induction s as [| c t IH]; intros k.
  - destruct k; reflexivity.
  - destruct k as [| k]; [reflexivity |]. simpl. apply IH.
Qed.

Lemma replace_match old new rest :
  old <> "" ->
  replace_from old new 0 (old ++ rest) = new ++ replace_from old new 0 rest.
Proof.
  intros Hold. destruct old as [| c old]; [congruence |].
  assert (H : startswith (String c old ++ rest) (String c old) = true)
    by (apply startswith_spec; exists rest; reflexivity).
  change (String c old ++ rest) with (String c (old ++ rest)) in *.
  cbn [replace_from]. rewrite H. f_equal.
  replace (String.length (String c old) - 1)%nat with (String.length old)
    by (simpl; lia).
  rewrite replace_from_skip, sdrop_app. reflexivity.
Qed.

Lemma replace_pass old new c t :
  startswith (String c t) old = false ->
  replace_from old new 0 (String c t) = String c (replace_from old new 0 t).
Proof. intros H. cbn [replace_from]. rewrite H. reflexivity. Qed.

(** The first occurrence: the text before it holds none, and the
    replacement copies that text, writes [new] and goes on behind the
    occurrence. *)
Lemma first_occurrence old s :
  old <> "" -> contains s old = true ->
  exists a rest,
    s = a ++ old ++ rest /\ contains a old = false /\
    forall new, replace_from old new 0 s = a ++ new ++ replace_from old new 0 rest.
Proof.
  intros Hold. induction s as [| c t IH]; intros Hin.
  - cbn [contains] in Hin. rewrite orb_false_r in Hin.
    destruct old; [congruence | discriminate].
  - destruct (startswith (String c t) old) eqn:Hstart.
    + apply startswith_spec in Hstart. destruct Hstart as (r & Hr).
      exists "", r. split; [exact Hr |]. split.
      * destruct old; [congruence | reflexivity].
      * intros new. rewrite Hr. apply replace_match. exact Hold.
    + cbn [contains] in Hin. rewrite Hstart in Hin. simpl in Hin.
      destruct (IH Hin) as (a & rest & -> & Hfree & Hrep).
      exists (String c a), rest. split; [reflexivity |]. split.
      * cbn [contains]. rewrite Hfree, orb_false_r.
        destruct (startswith (String c a) old) eqn:Ha; [| reflexivity].
        apply (startswith_app _ (old ++ rest)) in Ha.
        change (String c a ++ old ++ rest) with (String c (a ++ old ++ rest)) in Ha.
        congruence.
      * intros new. rewrite (replace_pass _ _ _ _ Hstart), Hrep. reflexivity.
Qed.

Lemma replace_nothing old new s :
  contains s old = false -> replace_from old new 0 s = s.
Proof.
  induction s as [| c t IH]; [reflexivity |]. intros Hfree.
  cbn [contains] in Hfree. apply orb_false_elim in Hfree. destruct Hfree as [Hstart Hfree].
  rewrite (replace_pass _ _ _ _ Hstart), (IH Hfree). reflexivity.
Qed.

(** An occurrence of [old] in [a ++ new ++ rest] lies in [a] or in [rest]
    when [new] is apart from [old]. *)
Lemma occurs_around old new a rest :
  apart old new -> ~ occurs old a -> ~ occurs old rest ->
  ~ occurs old (a ++ new ++ rest).
Proof.
  intros (Ca & Cb & Cc & Cd) Ha Hrest (pre & post & Heq).
  destruct (sapp_eq_app _ _ _ _ Heq) as [(x & Hax & Hx) | (x & Hpre & Hx)].
  - destruct (sapp_eq_app _ _ _ _ Hx) as [(y & Hold & Hy) | (y & -> & _)].
    2: { apply Ha. exists pre, y. exact Hax. }
    destruct y as [| cy y].
    { apply Ha. exists pre, "". rewrite Hax, Hold, !sapp_nil_r. reflexivity. }
    destruct (sapp_eq_app _ _ _ _ Hy) as [(z & Hnew & _) | (z & Hyz & Hz)].
    { exact (Cc x (String cy y) z ltac:(discriminate) Hnew Hold). }
    rewrite Hyz in Hold.
    destruct x as [| cx x].
    + destruct new as [| cn new].
      * apply Hrest. exists "", post. rewrite Hz, Hold. reflexivity.
      * exact (Cb "" (String cn new) z ltac:(discriminate) eq_refl Hold).
    + destruct z as [| cz z].
      * destruct new as [| cn new]; [discriminate |].
        rewrite sapp_nil_r in Hold.
        exact (Cc (String cx x) (String cn new) "" ltac:(discriminate)
                 (eq_sym (sapp_nil_r _)) Hold).
      * exact (Cd (String cx x) (String cz z) ltac:(discriminate) ltac:(discriminate) Hold).
  - destruct (sapp_eq_app _ _ _ _ Hx) as [(y & Hnew & Hy) | (y & _ & Hr)].
    2: { apply Hrest. exists y, post. exact Hr. }
    symmetry in Hy.
    destruct (sapp_eq_app _ _ _ _ Hy) as [(z & Hyz & _) | (z & Hold & Hz)].
    + apply Ca. exists x, z. rewrite Hnew, Hyz. reflexivity.
    + destruct y as [| cy y].
      * apply Hrest. exists "", post. rewrite Hz, Hold. reflexivity.
      * exact (Cb x (String cy y) z ltac:(discriminate) Hnew Hold).
Qed.

Lemma suffixes_in (a x y : string) :
  y <> "" -> a = x ++ y -> In y (suffixes a).
Proof.
  intros Hy ->. induction x as [| c x IH].
  - destruct y; [congruence | left; reflexivity].
  - right. exact IH.
Qed.

Lemma overlap_free (a b x y z : string) :
  overlap a b = false -> y <> "" -> a = x ++ y -> b = y ++ z -> False.
Proof.
  intros Hover Hy Ha Hb.
  assert (Hex : existsb (fun y => startswith b y) (suffixes a) = true).
  { apply existsb_exists. exists y. split; [exact (suffixes_in _ _ _ Hy Ha) |].
    apply startswith_spec. exists z. exact Hb. }
  unfold overlap in Hover. congruence.
Qed.

Lemma separate_apart (old new : string) : separate old new = true -> apart old new.
Proof.
  unfold separate. intros H.
  apply andb_prop in H. destruct H as [H Hwithin].
  apply andb_prop in H. destruct H as [H Hon].
  apply andb_prop in H. destruct H as [Hin Hno].
  apply negb_true_iff in Hwithin, Hon, Hno, Hin.
  split; [apply contains_free; exact Hin |].
  split; [intros x y z Hy Hnew Hold; exact (overlap_free _ _ _ _ _ Hno Hy Hnew Hold) |].
  split; [intros x y z Hy Hnew Hold; exact (overlap_free _ _ _ _ _ Hon Hy Hold Hnew) |].
  intros x z Hx Hz Hold.
  destruct x as [| cx x]; [congruence |]. rewrite Hold in Hwithin.
  change (String cx x ++ new ++ z) with (String cx (x ++ new ++ z)) in Hwithin.
  cbn [within] in Hwithin.
  assert (Hex : existsb (fun w => startswith w new && (String.length new <? String.length w)%nat)
                        (suffixes (x ++ new ++ z)) = true).
  { apply existsb_exists. exists (new ++ z). split.
    - apply (suffixes_in _ x); [| reflexivity]. destruct new, z; simpl; congruence.
    - apply andb_true_intro. split.
      + apply startswith_spec. exists z. reflexivity.
      + apply Nat.ltb_lt. rewrite append_length. destruct z; [congruence | simpl; lia]. }
  congruence.
Qed.

(** Replacing every [old] by a [new] that is apart from it leaves no
    [old]. *)
Lemma replace_removes old new :
  old <> "" -> apart old new ->
  forall n s, (String.length s <= n)%nat -> ~ occurs old (replace_from old new 0 s).
Proof.
  intros Hold Hapart. induction n as [| n IH]; intros s Hlen;
    destruct (contains s old) eqn:Hin.
  - destruct (first_occurrence _ _ Hold Hin) as (a & rest & -> & _ & _).
    rewrite !append_length in Hlen. destruct old; [congruence | simpl in Hlen; lia].
  - rewrite (replace_nothing _ _ _ Hin). apply contains_free. exact Hin.
  - destruct (first_occurrence _ _ Hold Hin) as (a & rest & -> & Hfree & Hrep).
    rewrite Hrep. apply occurs_around; [exact Hapart | apply contains_free; exact Hfree |].
    apply IH. rewrite !append_length in Hlen.
    destruct old; [congruence | simpl in Hlen; lia].
  - rewrite (replace_nothing _ _ _ Hin). apply contains_free. exact Hin.
Qed.

(** Replacing every [p] by a [q] that is apart from [old] brings no [old]
    into a text that held none. *)
Lemma replace_keeps p q old :
  p <> "" -> apart old q ->
  forall n s, (String.length s <= n)%nat ->
              ~ occurs old s -> ~ occurs old (replace_from p q 0 s).
Proof.
  intros Hp Hapart. induction n as [| n IH]; intros s Hlen Hfree;
    destruct (contains s p) eqn:Hin.
  - destruct (first_occurrence _ _ Hp Hin) as (a & rest & -> & _ & _).
    rewrite !append_length in Hlen. destruct p; [congruence | simpl in Hlen; lia].
  - rewrite (replace_nothing _ _ _ Hin). exact Hfree.
  - destruct (first_occurrence _ _ Hp Hin) as (a & rest & -> & _ & Hrep).
    rewrite Hrep. apply occurs_around; [exact Hapart | |].
    + intros Ha. apply Hfree. apply occurs_left. exact Ha.
    + apply IH.
      * rewrite !append_length in Hlen. destruct p; [congruence | simpl in Hlen; lia].
      * intros Hrest. apply Hfree. apply occurs_right, occurs_right. exact Hrest.
  - rewrite (replace_nothing _ _ _ Hin). exact Hfree.
Qed.

Lemma replace_all_removes old new s :
  separate old new = true -> contains (replace_all old new s) old = false.
Proof.
  intros Hsep. pose proof (separate_apart _ _ Hsep) as Hapart.
  apply contains_free. destruct old as [| c old].
  - exfalso. destruct Hapart as (Ca & _). apply Ca. exists "", new. reflexivity.
  - assert (Hne : String c old <> "") by discriminate.
    cbn [replace_all]. apply (replace_removes _ _ Hne Hapart _ _ (le_n _)).
Qed.

Lemma replace_all_keeps p q old s :
  separate old q = true -> contains s old = false ->
  contains (replace_all p q s) old = false.
Proof.
  intros Hsep Hfree. pose proof (separate_apart _ _ Hsep) as Hapart.
  destruct p as [| c p]; [exact Hfree |].
  assert (Hne : String c p <> "") by discriminate.
  apply contains_free. cbn [replace_all].
  apply (replace_keeps _ _ _ Hne Hapart _ _ (le_n _)).
  apply contains_free. exact Hfree.
Qed.

End Text.

(** ** Reconciling the host name *)

Section Hostname.

Variable self : FOG.

(** C9, as amended.  On a node whose [/etc/hosts] has a line with the old
    host name, [_fix_hostname] leaves the live host name equal to the short
    name of the target; [/etc/hosts] is the file in which every occurrence
    of the old host name has been replaced by the short name and then every
    occurrence of the old IP by the current address of the node;
    [/etc/hostname] is the file in which every occurrence of the old host
    name has been replaced by the short name.  No occurrence of the old
    host name is left in either file when the short name and the current
    address are each separate from it, and no occurrence of the old IP is
    left in [/etc/hosts] when the current address is separate from it. *)
Theorem fix_hostname_rewrites (m : machine) :
  let old := strip (live_hostname m ++ newline) in
  let found := strip (grep old (etc_hosts m)) in
  let old_ip := first_field (strip (first_line found)) in
  found <> EmptyString ->
  exists m' evs,
    _fix_hostname self m = (Ok tt, m', evs) /\
    live_hostname m' = shortname self /\
    etc_hosts m' =
      replace_all old_ip (peer_address m)
        (replace_all old (shortname self) (etc_hosts m)) /\
    etc_hostname m' = replace_all old (shortname self) (etc_hostname m) /\
    (separate old (shortname self) = true ->
     separate old (peer_address m) = true ->
     contains (etc_hosts m') old = false /\ contains (etc_hostname m') old = false) /\
    (separate old_ip (peer_address m) = true ->
     contains (etc_hosts m') old_ip = false).
Proof.
  intros old found old_ip Hfound.
  unfold _fix_hostname, bind, call, ret.
  cbn [sh run ip_address machine_remote exec fst snd].
  fold old. fold found.
  destruct (String.eqb_spec found "") as [Hempty | _]; [contradiction |].
  cbn [negb]. cbn [exec set_file file fst snd live_hostname etc_hosts etc_hostname
                   peer_address installed].
  fold old_ip.
  eexists. eexists. split; [reflexivity |].
  cbn [live_hostname etc_hosts etc_hostname].
  split; [reflexivity |]. split; [reflexivity |]. split; [reflexivity |]. split.
  - intros Hname Haddress. split.
    + apply replace_all_keeps; [exact Haddress |]. apply replace_all_removes. exact Hname.
    + apply replace_all_removes. exact Hname.
  - intros Haddress. apply replace_all_removes. exact Haddress.
Qed.

End Hostname.

(** C9, as stated, fails: the short name [fog01] contains the old host name
    [fog] and the current address 10.0.0.12 the old address 10.0.0.1, so
    both are in [/etc/hosts] after the reconciliation, and the old host name
    is in [/etc/hostname]. *)
Lemma old_names_remain :
  exists m' evs,
    _fix_hostname fog01 imaged_from_fog = (Ok tt, m', evs) /\
    contains (etc_hosts imaged_from_fog) "10.0.0.1 fog.lab fog" = true /\
    contains (etc_hosts m') "fog" = true /\
    contains (etc_hosts m') "10.0.0.1" = true /\
    contains (etc_hostname m') "fog" = true.
Proof. do 2 eexists. repeat split; vm_compute; reflexivity. Qed.

(** A run of C9: [fog-image] at 172.21.0.7 becomes [smithi042] at
    172.21.15.33, and neither old name is left. *)
Lemma fix_hostname_rewrites_witness :
  exists m' evs,
    _fix_hostname smithi042 imaged_from_fog_image = (Ok tt, m', evs) /\
    live_hostname m' = "smithi042" /\
    contains (etc_hosts m') "fog-image" = false /\
    contains (etc_hostname m') "fog-image" = false /\
    contains (etc_hosts m') "172.21.0.7" = false.
Proof.
  destruct (fix_hostname_rewrites smithi042 imaged_from_fog_image)
    as (m' & evs & Hrun & Hlive & _ & _ & Hname & Hip).
  { vm_compute. discriminate. }
  exists m', evs. split; [exact Hrun |]. split; [exact Hlive |].
  destruct Hname as [Hhosts Hhostname]; [vm_compute; reflexivity .. |].
  split; [exact Hhosts |]. split; [exact Hhostname |].
  apply Hip. vm_compute. reflexivity.
Defined.

(** * Further properties of the module *)

(** ** The request layer *)

Section Requests.

Context {W : Type} `{!Runtime, !Http W}.
Variable config : config_t.


(** X2: a request reads [api_token], [user_token] and [endpoint] from
    [config.fog], in this order and before anything is sent.  Without a
    [fog] section it raises [TypeError].  With a section from which one of
    the three is missing it raises [KeyError] for the first that is missing.
    In both cases no call is made and the world is as it was. *)
Theorem do_request_missing_setting (req : request) (verify : bool) (w : W) :
  (fog_section config = None ->
   do_request config req verify w = (Raise TypeError, w, [])) /\
  (forall section key,
      fog_section config = Some section ->
      In key ["api_token"; "user_token"; "endpoint"] ->
      section !! key = None ->
      exists found missing rest,
        ["api_token"; "user_token"; "endpoint"] = found ++ missing :: rest /\
        (forall k, In k found -> section !! k <> None) /\
        section !! missing = None /\
        do_request config req verify w = (Raise (KeyError missing), w, [])).
Proof.
  split.
  - intros Hnone. unfold do_request, fog_item, bind, raise. rewrite Hnone. reflexivity.
  - intros section key Hsection Hkey Hnone.
    unfold do_request, fog_item, bind, raise, ret. rewrite Hsection.
    destruct (section !! "api_token") as [a |] eqn:Ha.
    2: { exists [], "api_token", ["user_token"; "endpoint"].
         split; [reflexivity |]. split; [intros k [] |]. split; [exact Ha | reflexivity]. }
    destruct (section !! "user_token") as [u |] eqn:Hu.
    2: { exists ["api_token"], "user_token", ["endpoint"].
         split; [reflexivity |]. split; [| split; [exact Hu | reflexivity]].
         intros k [<- | []]. congruence. }
    destruct (section !! "endpoint") as [e |] eqn:He.
    2: { exists ["api_token"; "user_token"], "endpoint", [].
         split; [reflexivity |]. split; [| split; [exact He | reflexivity]].
         intros k [<- | [<- | []]]; congruence. }
    exfalso. simpl in Hkey. destruct Hkey as [<- | [<- | [<- | []]]]; congruence.
Qed.


End Requests.


(** Two runs of X2: a configuration without a [fog] section, and one whose
    section does not name the server. *)
Lemma do_request_missing_setting_witness :
  do_request unconfigured (ReqHost "node7") true quiet_world =
    (Raise TypeError, quiet_world, []) /\
  exists found missing rest,
    ["api_token"; "user_token"; "endpoint"] = found ++ missing :: rest /\
    (forall k, In k found ->
               (list_to_map [("api_token", CStr "api"); ("user_token", CStr "user")]
                  : gmap string cval) !! k <> None) /\
    (list_to_map [("api_token", CStr "api"); ("user_token", CStr "user")]
       : gmap string cval) !! missing = None /\
    do_request tokens_only (ReqHost "node7") true quiet_world =
      (Raise (KeyError missing), quiet_world, []).
Proof.
  split.
  - apply (proj1 (do_request_missing_setting unconfigured (ReqHost "node7") true
                    quiet_world)).
    reflexivity.
  - apply (proj2 (do_request_missing_setting tokens_only (ReqHost "node7") true
                    quiet_world) _ "endpoint").
    + reflexivity.
    + simpl. auto.
    + vm_compute. reflexivity.
Defined.


(** ** The machine types *)

Lemma split_on_fields sep s f :
  In f (split_on sep s) -> contains f (String sep EmptyString) = false.
Proof.
  revert f. induction s as [| c t IH]; intros f Hin.
  - destruct Hin as [<- | []]. reflexivity.
  - simpl in Hin. destruct (Ascii.eqb_spec c sep) as [-> | Hne].
    + destruct Hin as [<- | Hin]; [reflexivity | exact (IH _ Hin)].
    + destruct (split_on sep t) as [| f0 fs] eqn:Hsplit.
      * destruct Hin as [<- | []]. cbn. 
        destruct (Ascii.eqb_spec sep c) as [-> | _]; [congruence | reflexivity].
      * destruct Hin as [<- | Hin].
        -- cbn [contains startswith].
           destruct (Ascii.eqb_spec sep c) as [-> | _]; [congruence |].
           simpl. apply IH. left. reflexivity.
        -- apply IH. right. exact Hin.
Qed.

Section MachineTypes.

Context {W : Type}.
Variable config : config_t.

(** X4: [get_types] returns the empty list when a required setting is unset.
    What it returns never holds an empty name, and it touches nothing.  When
    [machine_types] is a string, every name returned is one of its
    comma-separated fields and holds no comma. *)
Theorem get_types_names (w : W) :
  (unset config <> [] -> get_types config w = (Ok [], w, [])) /\
  (forall types w' evs,
      get_types config w = (Ok types, w', evs) ->
      ~ In EmptyString types /\ w' = w /\ evs = [] /\
      (forall s, unset config = [] ->
                 fog config !! "machine_types" = Some (CStr s) ->
                 forall t, In t types ->
                           In t (split_on "," s) /\ contains t "," = false)).
Proof.
  unfold get_types. rewrite (bind_ok _ _ _ _ _ _ (enabled_quiet (W := W) config w)).
  split.
  - intros Hunset. destruct (unset config); [congruence | reflexivity].
  - intros types w' evs. destruct (unset config) as [| p ps] eqn:Hset; simpl.
    + unfold bind, lift, ret.
      destruct (fog config !! "machine_types") as [[s | n | l] |] eqn:Htypes; simpl;
        intros Hrun; try discriminate; injection Hrun as <- <- <-.
      * split; [| split; [reflexivity | split; [reflexivity |]]].
        -- intros Hin. apply filter_In in Hin. destruct Hin as [_ Hin]. discriminate.
        -- intros s' _ [= <-] t Hin. apply filter_In in Hin. destruct Hin as [Hin _].
           split; [exact Hin | exact (split_on_fields _ _ _ Hin)].
      * split; [| split; [reflexivity | split; [reflexivity |]]].
        -- intros Hin. apply filter_In in Hin. destruct Hin as [_ Hin]. discriminate.
        -- intros s' _ [=].
      * split; [| split; [reflexivity | split; [reflexivity |]]].
        -- intros [].
        -- intros s' _ [=].
    + intros [= <- <- <-].
      split; [intros [] | split; [reflexivity | split; [reflexivity |]]].
      intros s' Hs. discriminate.
Qed.

End MachineTypes.

(** A run of X4: the setting [smithi,,mira,] names two machine types. *)
Lemma get_types_names_witness :
  get_types typed quiet_world = (Ok ["smithi"; "mira"], quiet_world, []) /\
  ~ In EmptyString ["smithi"; "mira"].
Proof.
  assert (Hrun : get_types typed quiet_world = (Ok ["smithi"; "mira"], quiet_world, []))
    by (vm_compute; reflexivity).
  split; [exact Hrun |].
  exact (proj1 (proj2 (get_types_names typed quiet_world) _ _ _ Hrun)).
Defined.

(** ** The image of a node *)

Lemma py_int_reads `{!Runtime} (v : json) (n : Z) : py_int v = Ok n <-> int_of v n.
Proof.
  unfold py_int, int_of. destruct v as [| b | k | s | l | kv]; try (split; [discriminate | tauto]).
  - split; [intros [= ->]; reflexivity | intros ->; reflexivity].
  - split; [intros [= ->]; reflexivity | intros ->; reflexivity].
  - destruct (str_to_int s) as [m |]; split; congruence.
Qed.

Section Images.

Context {W : Type} `{!Runtime, !Http W}.
Variable config : config_t.
Variable self : FOG.

Lemma verified_request (req : request) (w w' : W) resp evs :
  do_request config req true w = (Ok resp, w', evs) -> evs = [EvRequest req].
Proof.
  intros Hrun.
  destruct (do_request_keys _ _ _ _ _ _ _ Hrun) as (a & u & e & Ha & Hu & He).
  rewrite (do_request_with_keys _ _ _ _ _ _ _ Ha Hu He) in Hrun. unfold answered in Hrun.
  destruct (http_send a u e req w) as [[resp0 | ex] w0]; [| discriminate].
  destruct (ok resp0) eqn:Hok; simpl in Hrun; [| discriminate].
  injection Hrun as _ _ <-. reflexivity.
Qed.

(** The only request among the events of [do_request] is its own. *)
Lemma request_event (req req' : request) verify (w w' : W) r evs :
  do_request config req verify w = (r, w', evs) ->
  In (EvRequest req') evs -> req' = req.
Proof.
  intros Hrun Hin.
  destruct (do_request_events _ _ _ _ _ _ _ Hrun) as [-> | (logs & -> & Hlogs)];
    [destruct Hin |].
  destruct Hin as [[= <-] | Hin]; [reflexivity |].
  rewrite forallb_forall in Hlogs. specialize (Hlogs _ Hin). discriminate.
Qed.

Lemma get_image_data_emits P :
  (forall name, P (EvRequest (ReqImage name)) = true) ->
  P (EvRequest (ReqImageSearch (machine_type self))) = true ->
  (forall msg, P (EvLog Error msg) = true) ->
  emits P (get_image_data config self).
Proof.
  intros Hget Hsearch Hlog. unfold get_image_data.
  apply emits_bind; [apply do_get_emits; auto | intros image].
  apply emits_if; [apply emits_ret |].
  apply emits_bind; [apply emits_if; [apply do_get_emits; auto | apply emits_ret] |].
  intros image2. apply emits_if; [apply emits_ret |].
  apply emits_bind; [apply suggest_image_names_emits; auto | intros names].
  apply emits_raise.
Qed.

(** X5: an image found under the primary name is returned after that one
    lookup.  An image found under the name with [.stream] appended, when
    that lookup applies, is returned after the two lookups.  Whatever
    [get_image_data] returns is an image, never [None] or an empty object,
    and a run that returns has not queried the names to suggest. *)
Theorem get_image_data_found (w : W) :
  let name := image_name self in
  (forall image w1 evs1,
      do_get config name w = (Ok image, w1, evs1) ->
      truthy image = true ->
      get_image_data config self w = (Ok image, w1, evs1)) /\
  (forall image w1 evs1 image2 w2 evs2,
      do_get config name w = (Ok image, w1, evs1) ->
      truthy image = false ->
      stream_applies self = true ->
      do_get config (name ++ ".stream") w1 = (Ok image2, w2, evs2) ->
      truthy image2 = true ->
      get_image_data config self w = (Ok image2, w2, evs1 ++ evs2)) /\
  (forall image w' evs,
      get_image_data config self w = (Ok image, w', evs) ->
      truthy image = true /\ forallb not_search evs = true).
Proof.
  intros name. split; [| split].
  - intros image w1 evs1 Hget Htrue. unfold get_image_data. fold name.
    rewrite (bind_ok _ _ _ _ _ _ Hget), Htrue. unfold ret. rewrite app_nil_r. reflexivity.
  - intros image w1 evs1 image2 w2 evs2 Hget Hfalse Happ Hget2 Htrue.
    unfold get_image_data. fold name.
    rewrite (bind_ok _ _ _ _ _ _ Hget), Hfalse, Happ.
    rewrite (bind_ok _ _ _ _ _ _ Hget2), Htrue. unfold ret. rewrite app_nil_r. reflexivity.
  - intros image w' evs Hrun. unfold get_image_data in Hrun. fold name in Hrun.
    assert (Hlookup : forall n, emits not_search (do_get config n))
      by (intros n; apply do_get_emits; reflexivity).
    bind_ok_inv Hrun image1 w1 evs1 Hget.
    pose proof (emits_run _ _ _ _ _ _ (Hlookup name) Hget) as Hevs1.
    destruct (truthy image1) eqn:Htruthy.
    + injection Hrun as <- <- <-. rewrite app_nil_r. auto.
    + bind_ok_inv Hrun image2 w2 evs2 Hsecond.
      assert (Hevs2 : forallb not_search evs2 = true).
      { destruct (stream_applies self).
        - exact (emits_run _ _ _ _ _ _ (Hlookup _) Hsecond).
        - injection Hsecond as _ _ <-. reflexivity. }
      destruct (truthy image2) eqn:Htruthy2.
      * injection Hrun as <- <- <-.
        rewrite !forallb_app, Hevs1, Hevs2. auto.
      * apply bind_inv in Hrun.
        destruct Hrun as [(e & _ & ?) | (names & ? & ? & ? & _ & Hraise & _)]; discriminate.
Qed.

(** X6: image resolution reads [os_type] in lower case only: two nodes of
    the same machine type and OS version whose OS types differ in case only
    resolve to the same image, with the same requests, and [set_image] does
    the same for both. *)
Theorem image_resolution_ignores_case (self' : FOG) (host_id : Z) (w : W) :
  same_but_case self self' ->
  get_image_data config self w = get_image_data config self' w /\
  set_image config self host_id w = set_image config self' host_id w.
Proof.
  intros (Hmachine & Hversion & Htype).
  assert (Hname : image_name self = image_name self')
    by (unfold image_name; congruence).
  assert (Hstream : stream_applies self = stream_applies self')
    by (unfold stream_applies; congruence).
  assert (Hsuggest : suggest_image_names (W := W) config self =
                     suggest_image_names config self')
    by (unfold suggest_image_names; rewrite Hmachine; reflexivity).
  assert (Hget : get_image_data (W := W) config self = get_image_data config self').
  { unfold get_image_data. rewrite Hname, Hstream, Hsuggest, Hmachine. reflexivity. }
  split; [rewrite Hget; reflexivity |].
  unfold set_image. rewrite Hget. reflexivity.
Qed.

(** X7: [set_image] sends a request that sets the image of a host only
    for the host it is given and with the id of the image that
    [get_image_data] returned, read as an integer: when the resolution of
    the image fails, or the image has no id that reads as an integer, no
    such request is sent.  When [set_image] returns, that request was its
    last call and was sent once. *)
Theorem set_image_after_resolution (host_id : Z) (w : W) :
  (forall r w' evs host_id' image_id,
      set_image config self host_id w = (r, w', evs) ->
      In (EvRequest (ReqSetImage host_id' image_id)) evs ->
      host_id' = host_id /\
      exists image w1 evs1 id,
        get_image_data config self w = (Ok image, w1, evs1) /\
        getitem image "id" = Ok id /\ int_of id image_id) /\
  (forall w' evs,
      set_image config self host_id w = (Ok tt, w', evs) ->
      exists image w1 evs1 id image_id,
        get_image_data config self w = (Ok image, w1, evs1) /\
        getitem image "id" = Ok id /\ int_of id image_id /\
        forallb not_set_image evs1 = true /\
        evs = evs1 ++ [EvLog Debug "Requesting image {image_name} (ID {image_id})";
                       EvRequest (ReqSetImage host_id image_id)]).
Proof.
  assert (Hresolve : emits not_set_image (get_image_data config self))
    by (apply get_image_data_emits; reflexivity).
  assert (Hnone : forall evs host_id' image_id,
             forallb not_set_image evs = true ->
             ~ In (EvRequest (ReqSetImage host_id' image_id)) evs).
  { intros evs host_id' image_id Hall Hin. rewrite forallb_forall in Hall.
    specialize (Hall _ Hin). discriminate. }
  split.
  - intros r w' evs host_id' image_id Hrun Hin. unfold set_image in Hrun.
    apply bind_inv in Hrun.
    destruct Hrun as [(e & Hget & _) | (image & w1 & evs1 & evs2 & Hget & Hrun & ->)].
    { destruct (Hnone _ _ _ (emits_run _ _ _ _ _ _ Hresolve Hget) Hin). }
    pose proof (emits_run _ _ _ _ _ _ Hresolve Hget) as Hevs1.
    apply in_app_or in Hin. destruct Hin as [Hin | Hin]; [destruct (Hnone _ _ _ Hevs1 Hin) |].
    apply bind_inv in Hrun.
    destruct Hrun as [(e & Hid & _) | (id & w2 & e2 & evs3 & Hid & Hrun & ->)].
    { injection Hid as _ _ <-. destruct Hin. }
    injection Hid as Hid <- <-. simpl in Hin.
    apply bind_inv in Hrun.
    destruct Hrun as [(e & Hint & _) | (n & w3 & e3 & evs4 & Hint & Hrun & ->)].
    { injection Hint as _ _ <-. destruct Hin. }
    injection Hint as Hint <- <-. simpl in Hin. apply py_int_reads in Hint.
    apply bind_inv in Hrun.
    destruct Hrun as [(e & Hlog & _) | (u & w4 & e4 & evs5 & Hlog & Hrun & ->)];
      [discriminate |].
    injection Hlog as _ <- <-. destruct Hin as [Hin | Hin]; [discriminate |].
    apply bind_inv in Hrun.
    destruct Hrun as [(e & Hreq & _) | (resp & w5 & e5 & evs6 & Hreq & Hret & ->)].
    + injection (request_event _ _ _ _ _ _ _ Hreq Hin) as -> ->.
      split; [reflexivity |]. exists image, w1, evs1, id. auto.
    + injection Hret as _ _ <-. rewrite app_nil_r in Hin.
      injection (request_event _ _ _ _ _ _ _ Hreq Hin) as -> ->.
      split; [reflexivity |]. exists image, w1, evs1, id. auto.
  - intros w' evs Hrun. unfold set_image in Hrun.
    bind_ok_inv Hrun image w1 evs1 Hget.
    bind_ok_inv Hrun iid w2 evs2 Hid. injection Hid as Hid <- <-.
    bind_ok_inv Hrun image_id w3 evs3 Hint. injection Hint as Hint <- <-.
    apply py_int_reads in Hint.
    bind_ok_inv Hrun u w4 evs4 Hlog. injection Hlog as _ <- <-.
    bind_ok_inv Hrun resp w5 evs5 Hreq. injection Hrun as _ <-.
    rewrite (verified_request _ _ _ _ _ Hreq).
    exists image, w1, evs1, iid, image_id.
    split; [exact Hget |]. split; [exact Hid |]. split; [exact Hint |].
    split; [exact (emits_run _ _ _ _ _ _ Hresolve Hget) | reflexivity].
Qed.

End Images.

(** A run of X5: CentOS 8 has no image under its own name and one under the
    name with [.stream] appended. *)
Lemma get_image_data_found_witness :
  get_image_data configured node7_centos8 (answering stream_image) =
    (Ok (JDict [("id", JStr "42"); ("name", JStr "smithi_centos_8.stream")]),
     quiet_world,
     [EvRequest (ReqImage "smithi_centos_8")] ++
     [EvRequest (ReqImage "smithi_centos_8.stream")]).
Proof.
  refine (proj1 (proj2 (get_image_data_found configured node7_centos8
                          (answering stream_image)))
            JNull (answering (tl stream_image)) _ _ _ _ _ _ _ _ _);
    vm_compute; reflexivity.
Defined.

(** A run of X6: [CentOS] and [CENTOS]. *)
Lemma image_resolution_ignores_case_witness :
  get_image_data configured node7 (answering stream_image) =
    get_image_data configured node7_capitals (answering stream_image) /\
  set_image configured node7 12 (answering stream_image) =
    set_image configured node7_capitals 12 (answering stream_image).
Proof.
  apply (image_resolution_ignores_case configured node7 node7_capitals 12
           (answering stream_image)).
  repeat split; vm_compute; reflexivity.
Defined.

(** A run of X7: image 42 is set on host 12. *)
Lemma set_image_after_resolution_witness :
  let w := answering (firstn 2 (skipn 1 until_scheduled)) in
  exists image w1 evs1 id image_id,
    get_image_data configured node7 w = (Ok image, w1, evs1) /\
    getitem image "id" = Ok id /\ int_of id image_id /\
    forallb not_set_image evs1 = true /\
    [EvRequest (ReqImage "smithi_centos_8.stream");
     EvLog Debug "Requesting image {image_name} (ID {image_id})";
     EvRequest (ReqSetImage 12 42)] =
    evs1 ++ [EvLog Debug "Requesting image {image_name} (ID {image_id})";
             EvRequest (ReqSetImage 12 image_id)].
Proof.
  intros w.
  apply (proj2 (set_image_after_resolution configured node7 12 w) quiet_world).
  vm_compute. reflexivity.
Defined.

(** ** The wait for the deploy task *)

Lemma task_ids_raise task_id tasks e :
  task_ids tasks = Raise e ->
  rmap (fun task => rbind (getitem task "id") (fun id => Ok (py_eq id task_id))) tasks =
    Raise e.
Proof.
  unfold task_ids. induction tasks as [| task rest IH]; intros Hids; [discriminate |].
  simpl in *. destruct (getitem task "id") as [id | e']; simpl in *;
    [| injection Hids as ->; reflexivity].
  destruct (rmap (fun task0 => getitem task0 "id") rest) as [ids' | e']; [discriminate |].
  simpl in Hids. rewrite (IH Hids). reflexivity.
Qed.

Section DeployWait.

Context {W : Type} `{!Runtime, !Http W, !Clock W}.
Variable config : config_t.
Variable self : FOG.

(** A wait ends with an attempt, and that attempt decides how it ends. *)
Lemma poll_last pauses (attempt : M W bool) :
  emits not_sleep attempt ->
  forall (w w' : W) r evs,
    poll pauses attempt w = (r, w', evs) ->
    exists w0 evs0 r0 evs1 k,
      attempt w0 = (r0, w', evs1) /\ evs = evs0 ++ evs1 /\
      slept_in evs = firstn k pauses /\
      match r0 with
      | Ok true => r = Ok tt
      | Ok false => r = Raise MaxWhileTries /\ slept_in evs = pauses
      | Raise e => r = Raise e
      end.
Proof.
  intros Hquiet. induction pauses as [| pause rest IH]; intros w w' r evs Hrun.
  - simpl in Hrun. apply bind_inv in Hrun.
    destruct Hrun as [(e & Hatt & ->) | (done & w1 & evs1 & evs2 & Hatt & Hrest & ->)].
    + exists w, [], (Raise e), evs, 0%nat.
      rewrite (slept_in_none _ (emits_run _ _ _ _ _ _ Hquiet Hatt)). auto.
    + assert (Hend : w' = w1 /\ evs2 = [] /\
                     r = if done then Ok tt else Raise MaxWhileTries)
        by (destruct done; injection Hrest as <- <- <-; auto).
      destruct Hend as (-> & -> & ->). rewrite app_nil_r.
      exists w, [], (Ok done), evs1, 0%nat.
      rewrite (slept_in_none _ (emits_run _ _ _ _ _ _ Hquiet Hatt)).
      destruct done; auto.
  - simpl in Hrun. apply bind_inv in Hrun.
    destruct Hrun as [(e & Hatt & ->) | (done & w1 & evs1 & evs2 & Hatt & Hrest & ->)].
    + exists w, [], (Raise e), evs, 0%nat.
      rewrite (slept_in_none _ (emits_run _ _ _ _ _ _ Hquiet Hatt)). auto.
    + pose proof (slept_in_none _ (emits_run _ _ _ _ _ _ Hquiet Hatt)) as Hnone.
      destruct done.
      * injection Hrest as <- <- <-. rewrite app_nil_r.
        exists w, [], (Ok true), evs1, 0%nat. rewrite Hnone. auto.
      * rewrite (bind_ok _ _ _ _ _ _
                   (eq_refl : call (EvSleep pause) (fun w => (Ok tt, sleep pause w)) w1 =
                              (Ok tt, sleep pause w1, [EvSleep pause]))) in Hrest.
        destruct (poll rest attempt (sleep pause w1)) as [[r2 w2] evs3] eqn:Hpoll.
        injection Hrest as <- <- <-.
        destruct (IH _ _ _ _ Hpoll) as (w0 & evs0 & r0 & evs4 & k & Hlast & -> & Hslept & Hend).
        exists w0, (evs1 ++ EvSleep pause :: evs0), r0, evs4, (S k).
        split; [exact Hlast |]. split; [rewrite <- app_assoc; reflexivity |].
        rewrite slept_in_app, Hnone. simpl. rewrite Hslept.
        split; [reflexivity |].
        destruct r0 as [[|] | e]; auto.
        destruct Hend as [-> Hall]. split; [reflexivity |]. rewrite <- Hslept, Hall.
        reflexivity.
Qed.

Lemma deploy_task_active_quiet task_id :
  emits not_sleep (deploy_task_active config self task_id).
Proof.
  unfold deploy_task_active.
  apply emits_bind; [apply get_deploy_tasks_emits; reflexivity | intros host_tasks].
  apply emits_bind; [apply emits_lift | intros matches]. apply emits_ret.
Qed.

(** X8: [deploy_task_active] lists the tasks of the host once.  An error of
    the listing is raised as it is.  When every listed task has an id, the
    answer is whether one of these ids equals the id asked for; a listed
    task without an id makes the call raise, whether or not another task
    has the id asked for. *)
Theorem deploy_task_active_by_listing (task_id : json) (w : W) :
  (forall e w1 evs1,
      get_deploy_tasks config self w = (Raise e, w1, evs1) ->
      deploy_task_active config self task_id w = (Raise e, w1, evs1)) /\
  (forall tasks w1 evs1,
      get_deploy_tasks config self w = (Ok tasks, w1, evs1) ->
      (forall ids,
          task_ids tasks = Ok ids ->
          exists active,
            deploy_task_active config self task_id w = (Ok active, w1, evs1) /\
            (active = true <-> exists id, In id ids /\ py_eq id task_id = true)) /\
      (forall e,
          task_ids tasks = Raise e ->
          deploy_task_active config self task_id w = (Raise e, w1, evs1))).
Proof.
  split.
  - intros e w1 evs1 Hlist. unfold deploy_task_active. apply bind_raise. exact Hlist.
  - intros tasks w1 evs1 Hlist. unfold deploy_task_active.
    rewrite (bind_ok _ _ _ _ _ _ Hlist). split.
    + intros ids Hids. unfold bind, lift, ret. rewrite (matches_of_ids _ _ _ Hids).
      rewrite !app_nil_r. eexists. split; [reflexivity |].
      rewrite existsb_exists. split.
      * intros (b & Hin & ->). apply in_map_iff in Hin.
        destruct Hin as (id & Heq & Hin). eauto.
      * intros (id & Hin & Heq). exists true. split; [| reflexivity].
        apply in_map_iff. eauto.
    + intros e Hids. unfold bind, lift. rewrite (task_ids_raise _ _ _ Hids).
      rewrite app_nil_r. reflexivity.
Qed.

(** X9: when the request for the active tasks is answered and the answer
    cannot be read as a task list, no task counts as active: the wait for
    the deploy task returns after that one request, without a sleep, as it
    does when the task has completed. *)
Theorem unreadable_listing_ends_wait (task_id : json) (w w1 : W) resp evs1 e :
  do_request config ReqActiveTasks true w = (Ok resp, w1, evs1) ->
  listed_tasks resp = Raise e ->
  deploy_task_active config self task_id w =
    (Ok false, w1, evs1 ++ [EvLog Error "Failed to get deploy tasks!"]) /\
  wait_for_deploy_task config self task_id w =
    (Ok tt, w1,
     EvLog Info "Waiting for deploy to finish" ::
     evs1 ++ [EvLog Error "Failed to get deploy tasks!"]).
Proof.
  intros Hreq Hparse.
  assert (Hlist : get_deploy_tasks config self w =
                  (Ok [], w1, evs1 ++ [EvLog Error "Failed to get deploy tasks!"])).
  { unfold get_deploy_tasks. rewrite (bind_ok _ _ _ _ _ _ Hreq).
    fold (listed_tasks resp). rewrite Hparse.
    rewrite (listed_tasks_raises_Exception _ _ Hparse). reflexivity. }
  assert (Hactive : deploy_task_active config self task_id w =
                    (Ok false, w1, evs1 ++ [EvLog Error "Failed to get deploy tasks!"])).
  { unfold deploy_task_active. rewrite (bind_ok _ _ _ _ _ _ Hlist).
    simpl. rewrite !app_nil_r. reflexivity. }
  split; [exact Hactive |].
  unfold wait_for_deploy_task.
  rewrite (bind_ok _ _ _ _ _ _ (eq_refl : log Info _ w = (Ok tt, w, [_]))).
  rewrite (poll_first _ _ w w1 (evs1 ++ [EvLog Error "Failed to get deploy tasks!"]));
    [reflexivity |].
  rewrite (bind_ok _ _ _ _ _ _ Hactive). unfold ret. rewrite app_nil_r. reflexivity.
Qed.

(** X10: a run of [wait_for_deploy_task] ends with a call of
    [deploy_task_active], and that call decides it: the wait returns only
    when the call found the task inactive; an exception of the call ends the
    wait at once and is raised as it is, without another poll; and when the
    call found the task active and no pause is left, the wait raises
    [MaxWhileTries].  The seconds slept are first pauses of the wait. *)
Theorem wait_for_deploy_task_ends (task_id : json) (w w' : W) r evs :
  wait_for_deploy_task config self task_id w = (r, w', evs) ->
  exists w0 evs0 answer evs1 k,
    deploy_task_active config self task_id w0 = (answer, w', evs1) /\
    evs = evs0 ++ evs1 /\
    slept_in evs = firstn k (sw_sleeps (deploy_wait config)) /\
    match answer with
    | Ok false => r = Ok tt
    | Ok true => r = Raise MaxWhileTries /\ slept_in evs = sw_sleeps (deploy_wait config)
    | Raise e => r = Raise e
    end.
Proof.
  intros Hrun. unfold wait_for_deploy_task in Hrun.
  rewrite (bind_ok _ _ _ _ _ _ (eq_refl : log Info _ w = (Ok tt, w, [_]))) in Hrun.
  destruct (poll _ _ w) as [[r1 w1] evs2] eqn:Hpoll. injection Hrun as <- <- <-.
  apply poll_last in Hpoll.
  2: { apply emits_bind; [apply deploy_task_active_quiet | intros active].
       apply emits_ret. }
  destruct Hpoll as (w0 & evs0 & r0 & evs1 & k & Hlast & -> & Hslept & Hend).
  unfold bind, ret in Hlast.
  destruct (deploy_task_active config self task_id w0) as [[answer w2] evs3] eqn:Hactive.
  exists w0, (EvLog Info "Waiting for deploy to finish" :: evs0), answer, evs3, k.
  destruct answer as [active | e].
  - injection Hlast as <- <- <-. rewrite app_nil_r in *.
    split; [exact Hactive |]. split; [reflexivity |].
    split; [exact Hslept |]. destruct active; exact Hend.
  - injection Hlast as <- <- <-.
    split; [exact Hactive |]. split; [reflexivity |].
    split; [exact Hslept | exact Hend].
Qed.

End DeployWait.

(** A run of X8: tasks 7 and 8 are active, task 7 on [node7]. *)
Lemma deploy_task_active_by_listing_witness :
  exists active,
    deploy_task_active configured node7 (JInt 7)
      (answering [tasks [task 7 "node7" "2024-05-01 12:00:00";
                         task 8 "node8" "2024-05-01 12:00:01"]]) =
      (Ok active, quiet_world, [EvRequest ReqActiveTasks]) /\
    (active = true <-> exists id, In id [JInt 7] /\ py_eq id (JInt 7) = true).
Proof.
  refine (proj1 (proj2 (deploy_task_active_by_listing configured node7 (JInt 7)
                          (answering [tasks [task 7 "node7" "2024-05-01 12:00:00";
                                             task 8 "node8" "2024-05-01 12:00:01"]]))
                   [task 7 "node7" "2024-05-01 12:00:00"] quiet_world
                   [EvRequest ReqActiveTasks] _)
            [JInt 7] _);
    vm_compute; reflexivity.
Defined.

(** A run of X9: the server answers the listing with an empty body. *)
Lemma unreadable_listing_ends_wait_witness :
  wait_for_deploy_task configured node7 (JInt 7) (answering [status 200]) =
    (Ok tt, quiet_world,
     EvLog Info "Waiting for deploy to finish" ::
     [EvRequest ReqActiveTasks] ++ [EvLog Error "Failed to get deploy tasks!"]).
Proof.
  refine (proj2 (unreadable_listing_ends_wait configured node7 (JInt 7)
                   (answering [status 200]) quiet_world
                   {| status_code := 200; body := None |} [EvRequest ReqActiveTasks]
                   JSONDecodeError _ _));
    vm_compute; reflexivity.
Defined.

(** A run of X10: task 7 is active at the first poll and gone at the
    second. *)
Lemma wait_for_deploy_task_ends_witness :
  let rested := {| responses := []; powers := []; connects := []; runs := [];
                   outputs := []; clock := []; address := "10.0.0.7";
                   system := {| os_name := "CentOS"; os_version_of := "8.stream" |};
                   slept := 15 |} in
  let evs := [EvLog Info "Waiting for deploy to finish"; EvRequest ReqActiveTasks;
              EvSleep 15; EvRequest ReqActiveTasks] in
  exists w0 evs0 answer evs1 k,
    deploy_task_active configured node7 (JInt 7) w0 = (answer, rested, evs1) /\
    evs = evs0 ++ evs1 /\
    slept_in evs = firstn k (sw_sleeps (deploy_wait configured)) /\
    match answer with
    | Ok false => Ok tt = Ok tt
    | Ok true => Ok tt = Raise MaxWhileTries /\
                 slept_in evs = sw_sleeps (deploy_wait configured)
    | Raise e => Ok tt = Raise e
    end.
Proof.
  intros rested evs.
  apply (wait_for_deploy_task_ends configured node7 (JInt 7)
           (answering [tasks [task 7 "node7" "2024-05-01 12:00:00"]; tasks []])).
  vm_compute. reflexivity.
Defined.

(** ** Scheduling: the task type and the stale tasks *)

Section SchedulingSteps.

Context {W : Type} `{!Runtime, !Http W, !Clock W}.
Variable config : config_t.
Variable self : FOG.

(** The cancel calls of one [cancel_deploy_task]: none, when a setting is
    missing, or the one for its task. *)
Lemma cancel_deploy_task_cancels task_id (w w' : W) r evs :
  cancel_deploy_task config task_id w = (r, w', evs) ->
  cancels evs = [] \/ cancels evs = [EvRequest (ReqCancel task_id)].
Proof.
  intros Hrun. unfold cancel_deploy_task in Hrun.
  rewrite (bind_ok _ _ _ _ _ _ (eq_refl : log Debug _ w = (Ok tt, w, [_]))) in Hrun.
  destruct (bind _ _ w) as [[r1 w1] evs1] eqn:Hrest. injection Hrun as <- <- <-.
  apply bind_inv in Hrest.
  assert (Hreq : exists r0 w0 evs0 evs2,
             do_request config (ReqCancel task_id) true w = (r0, w0, evs0) /\
             evs1 = evs0 ++ evs2 /\ evs2 = []).
  { destruct Hrest as [(e & Hreq & _) | (resp & w0 & evs0 & evs2 & Hreq & Hlift & ->)].
    - exists (Raise e), w1, evs1, []. rewrite app_nil_r. auto.
    - injection Hlift as _ _ <-. eauto 8. }
  destruct Hreq as (r0 & w0 & evs0 & evs2 & Hreq & -> & ->). rewrite app_nil_r.
  destruct (do_request_events _ _ _ _ _ _ _ Hreq) as [-> | (logs & -> & Hlogs)];
    [left; reflexivity |].
  right. simpl. rewrite (background_cancels _ (logs_background _ Hlogs)). reflexivity.
Qed.

Lemma cancel_all_prefix tasks (w w' : W) r evs :
  cancel_all config tasks w = (r, w', evs) ->
  exists k ids,
    task_ids (firstn k tasks) = Ok ids /\
    cancels evs = map (fun id => EvRequest (ReqCancel id)) ids /\
    (r = Ok tt -> k = length tasks).
Proof.
  revert w evs. induction tasks as [| task rest IH]; intros w evs Hrun.
  - injection Hrun as _ _ <-. exists 0%nat, []. auto.
  - simpl in Hrun. apply bind_inv in Hrun.
    destruct Hrun as [(e & Hid & ->) | (tid & w0 & e0 & evs1 & Hid & Hrun & ->)].
    { injection Hid as _ _ <-. exists 0%nat, []. repeat split; auto. discriminate. }
    injection Hid as Hid <- <-. simpl.
    apply bind_inv in Hrun.
    destruct Hrun as [(e & Hcancel & ->) | (u & w1 & evs2 & evs3 & Hcancel & Hrun & ->)].
    + destruct (cancel_deploy_task_cancels _ _ _ _ _ Hcancel) as [-> | ->].
      * exists 0%nat, []. repeat split; auto. discriminate.
      * exists 1%nat, [tid]. unfold task_ids. simpl. rewrite Hid.
        repeat split; auto. discriminate.
    + destruct u. destruct (IH _ _ Hrun) as (k & ids & Hids & Hcancels & Hall).
      exists (S k), (tid :: ids). split; [| split].
      * unfold task_ids in *. simpl. rewrite Hid. simpl. rewrite Hids. reflexivity.
      * rewrite cancels_app, (cancel_deploy_task_once _ _ _ _ _ Hcancel), Hcancels.
        reflexivity.
      * intros Hok. simpl. rewrite (Hall Hok). reflexivity.
Qed.

(** X11: a request that schedules a task is sent only for the host
    [schedule_deploy_task] is given, and only at this point of the run: the
    tasks of the host were listed and canceled, the server then answered the
    request for the task types, and the request that follows carries the
    id, read as an integer, of the first task type of that answer whose name
    is [deploy] in any case.  When the answer names no such task type,
    [schedule_deploy_task] raises [IndexError] after the request for the
    task types: nothing is scheduled. *)
Theorem schedule_needs_deploy_type (host_id : Z) (w : W) :
  (forall r w' evs h d,
      schedule_deploy_task config self host_id w = (r, w', evs) ->
      In (EvRequest (ReqSchedule h d)) evs ->
      h = host_id /\
      exists tasks w1 evs1 w2 evs2 resp w3 evs3 first_type others id later,
        get_deploy_tasks config self w = (Ok tasks, w1, evs1) /\
        cancel_all config tasks w1 = (Ok tt, w2, evs2) /\
        do_request config ReqTaskType true w2 = (Ok resp, w3, evs3) /\
        deploy_types resp = Ok (first_type :: others) /\
        getitem first_type "id" = Ok id /\ int_of id d /\
        evs = EvLog Info "Scheduling deploy of %s %s" ::
              evs1 ++ evs2 ++ evs3 ++ EvRequest (ReqSchedule host_id d) :: later) /\
  (forall tasks w1 evs1 w2 evs2 resp w3 evs3,
      get_deploy_tasks config self w = (Ok tasks, w1, evs1) ->
      cancel_all config tasks w1 = (Ok tt, w2, evs2) ->
      do_request config ReqTaskType true w2 = (Ok resp, w3, evs3) ->
      deploy_types resp = Ok [] ->
      schedule_deploy_task config self host_id w =
        (Raise IndexError, w3,
         EvLog Info "Scheduling deploy of %s %s" :: evs1 ++ evs2 ++ evs3) /\
      forallb not_schedule (evs1 ++ evs2 ++ evs3) = true).
Proof.
  split.
  - intros r w' evs h d Hrun Hin.
    set (sched := EvRequest (ReqSchedule h d)) in *.
    unfold schedule_deploy_task in Hrun.
    apply (bind_until not_schedule sched) in Hrun;
      [| apply emits_log; reflexivity | reflexivity | exact Hin].
    destruct Hrun as (u0 & w0 & e0 & r0 & Hlog & Hrun & Hevs & Hin0).
    unfold log in Hlog. injection Hlog as _ <- <-.
    apply (bind_until not_schedule sched) in Hrun;
      [| apply get_deploy_tasks_emits; reflexivity | reflexivity | exact Hin0].
    destruct Hrun as (tasks & w1 & e1 & r1 & Hlist & Hrun & Hr0 & Hin1).
    apply (bind_until not_schedule sched) in Hrun;
      [| apply cancel_all_emits | reflexivity | exact Hin1].
    destruct Hrun as (u2 & w2 & e2 & r2 & Hcancel & Hrun & Hr1 & Hin2). destruct u2.
    apply (bind_until not_schedule sched) in Hrun;
      [| apply do_request_emits; reflexivity | reflexivity | exact Hin2].
    destruct Hrun as (resp & w3 & e3 & r3 & Htype & Hrun & Hr2 & Hin3).
    apply (bind_lift_until sched) in Hrun; [| exact Hin3].
    destruct Hrun as (obj & Hobj & Hrun).
    apply (bind_lift_until sched) in Hrun; [| exact Hin3].
    destruct Hrun as (all_types & Hall & Hrun).
    apply (bind_lift_until sched) in Hrun; [| exact Hin3].
    destruct Hrun as (items & Hitems & Hrun).
    apply (bind_lift_until sched) in Hrun; [| exact Hin3].
    destruct Hrun as (tasktypes & Htypes & Hrun).
    apply (bind_lift_until sched) in Hrun; [| exact Hin3].
    destruct Hrun as (first_type & Hfirst & Hrun).
    apply (bind_lift_until sched) in Hrun; [| exact Hin3].
    destruct Hrun as (tid & Htid & Hrun).
    apply (bind_lift_until sched) in Hrun; [| exact Hin3].
    destruct Hrun as (found_id & Hfound & Hrun).
    assert (Hsame : ReqSchedule h d = ReqSchedule host_id found_id).
    { apply bind_inv in Hrun.
      destruct Hrun as [(e & Hreq & _) | (resp2 & w4 & e4 & e5 & Hreq & Hrest & ->)].
      - exact (request_event _ _ _ _ _ _ _ _ Hreq Hin3).
      - apply in_app_or in Hin3. destruct Hin3 as [Hin3 | Hin3];
          [exact (request_event _ _ _ _ _ _ _ _ Hreq Hin3) |].
        exfalso. refine (background_not_schedule _ sched _ eq_refl Hin3).
        refine (emits_run background _ _ _ _ _ _ Hrest).
        apply emits_bind; [apply get_deploy_tasks_emits; reflexivity | intros host_tasks].
        apply select_recent_emits. reflexivity. }
    injection Hsame as -> ->. split; [reflexivity |].
    assert (Htail : exists later, r3 = EvRequest (ReqSchedule host_id found_id) :: later).
    { apply bind_inv in Hrun.
      destruct Hrun as [(e & Hreq & _) | (resp2 & w4 & e4 & e5 & Hreq & Hrest & ->)].
      - destruct (do_request_events _ _ _ _ _ _ _ Hreq) as [-> | (logs & -> & _)];
          [destruct Hin3 | eauto].
      - destruct (do_request_ok_events _ _ _ _ _ _ _ Hreq) as (logs & -> & _).
        simpl. eauto. }
    destruct Htail as (later & ->).
    destruct tasktypes as [| t others]; [discriminate |].
    injection Hfirst as ->.
    exists tasks, w1, e1, w2, e2, resp, w3, e3, first_type, others, tid, later.
    split; [exact Hlist |]. split; [exact Hcancel |]. split; [exact Htype |].
    split.
    { unfold deploy_types. rewrite Hobj. simpl. rewrite Hall. simpl. rewrite Hitems.
      simpl. exact Htypes. }
    split; [exact Htid |]. split; [apply py_int_reads; exact Hfound |].
    rewrite Hevs, Hr0, Hr1, Hr2. reflexivity.
  - intros tasks w1 evs1 w2 evs2 resp w3 evs3 Hlist Hcancel Htype Hnone. split.
    + unfold schedule_deploy_task.
      rewrite (bind_ok _ _ _ _ _ _ (eq_refl : log Info _ w = (Ok tt, w, [_]))).
      rewrite (bind_ok _ _ _ _ _ _ Hlist), (bind_ok _ _ _ _ _ _ Hcancel).
      rewrite (bind_ok _ _ _ _ _ _ Htype).
      unfold deploy_types in Hnone. unfold bind, lift.
      destruct (resp_json resp) as [obj |]; [| discriminate]. simpl in Hnone.
      destruct (getitem obj "tasktypes") as [all_types |]; [| discriminate].
      simpl in Hnone.
      destruct (iterate all_types) as [items |]; [| discriminate]. simpl in Hnone.
      rewrite Hnone. simpl. rewrite !app_nil_r. reflexivity.
    + rewrite !forallb_app.
      rewrite (emits_run not_schedule _ _ _ _ _
                 (get_deploy_tasks_emits config self not_schedule eq_refl (fun _ => eq_refl))
                 Hlist).
      rewrite (emits_run not_schedule _ _ _ _ _ (cancel_all_emits config tasks) Hcancel).
      rewrite (emits_run not_schedule _ _ _ _ _
                 (do_request_emits config not_schedule ReqTaskType true eq_refl
                    (fun _ => eq_refl)) Htype).
      reflexivity.
Qed.

(** X12: the stale tasks are canceled in the order of the listing, and the
    canceling stops at the first failure: the cancel calls of a run are those
    for the ids of the first tasks of the list, and for all of them when it
    returns.  When the canceling fails, [schedule_deploy_task] raises that
    failure at once: it asks for no task type and schedules nothing. *)
Theorem cancel_failure_stops_scheduling (host_id : Z) (w w1 : W) tasks evs1 :
  get_deploy_tasks config self w = (Ok tasks, w1, evs1) ->
  forall r w2 evs2,
    cancel_all config tasks w1 = (r, w2, evs2) ->
    (exists k ids,
        task_ids (firstn k tasks) = Ok ids /\
        cancels evs2 = map (fun id => EvRequest (ReqCancel id)) ids /\
        (r = Ok tt -> k = length tasks)) /\
    (forall e,
        r = Raise e ->
        schedule_deploy_task config self host_id w =
          (Raise e, w2, EvLog Info "Scheduling deploy of %s %s" :: evs1 ++ evs2) /\
        ~ In (EvRequest ReqTaskType) (evs1 ++ evs2) /\
        forallb not_schedule (evs1 ++ evs2) = true).
Proof.
  intros Hlist r w2 evs2 Hcancel. split; [exact (cancel_all_prefix _ _ _ _ _ Hcancel) |].
  intros e ->. split; [| split].
  - unfold schedule_deploy_task.
    rewrite (bind_ok _ _ _ _ _ _ (eq_refl : log Info _ w = (Ok tt, w, [_]))).
    rewrite (bind_ok _ _ _ _ _ _ Hlist), (bind_raise _ _ _ _ _ _ Hcancel). reflexivity.
  - intros Hin. apply in_app_or in Hin. destruct Hin as [Hin | Hin].
    + pose proof (emits_run (fun ev => match ev with
                                       | EvRequest ReqTaskType => false
                                       | _ => true
                                       end) _ _ _ _ _
                    (get_deploy_tasks_emits config self _ eq_refl (fun _ => eq_refl))
                    Hlist) as Hall.
      rewrite forallb_forall in Hall. specialize (Hall _ Hin). discriminate.
    + assert (Hquiet : emits (fun ev => match ev with
                                        | EvRequest ReqTaskType => false
                                        | _ => true
                                        end) (cancel_all config tasks)).
      { clear. induction tasks as [| task rest IH]; [apply emits_ret |].
        simpl. apply emits_bind; [apply emits_lift | intros id].
        apply emits_bind; [apply cancel_deploy_task_emits; reflexivity | intros _].
        exact IH. }
      pose proof (emits_run _ _ _ _ _ _ Hquiet Hcancel) as Hall.
      rewrite forallb_forall in Hall. specialize (Hall _ Hin). discriminate.
  - rewrite forallb_app.
    rewrite (emits_run not_schedule _ _ _ _ _
               (get_deploy_tasks_emits config self not_schedule eq_refl (fun _ => eq_refl))
               Hlist).
    rewrite (emits_run not_schedule _ _ _ _ _ (cancel_all_emits config tasks) Hcancel).
    reflexivity.
Qed.

End SchedulingSteps.

(** A run of X11: the server has no task type named [deploy]. *)
Lemma schedule_needs_deploy_type_witness :
  schedule_deploy_task configured node7 12 (answering capture_only) =
    (Raise IndexError, quiet_world,
     EvLog Info "Scheduling deploy of %s %s" ::
     [EvRequest ReqActiveTasks] ++ [] ++ [EvRequest ReqTaskType]) /\
  forallb not_schedule ([EvRequest ReqActiveTasks] ++ [] ++ [EvRequest ReqTaskType]) = true.
Proof.
  refine (proj2 (schedule_needs_deploy_type configured node7 12 (answering capture_only))
            [] (answering (tl capture_only)) _ (answering (tl capture_only)) _
            {| status_code := 200;
               body := Some (JDict [("tasktypes",
                                     JList [JDict [("id", JStr "2");
                                                   ("name", JStr "capture")]])]) |}
            quiet_world _ _ _ _ _);
    vm_compute; reflexivity.
Defined.

(** A run of X12: the cancel of task 5 is refused, and task 6 is left
    alone. *)
Lemma cancel_failure_stops_scheduling_witness :
  schedule_deploy_task configured node7 12 (answering refusing_cancel) =
    (Raise (HTTPError 500), quiet_world,
     EvLog Info "Scheduling deploy of %s %s" ::
     [EvRequest ReqActiveTasks] ++
     [EvLog Debug "Canceling deploy task with ID {task_id}";
      EvRequest (ReqCancel (JInt 5));
      EvLog Error "Got status {resp.status_code} from {url_suffix}: '{resp.text}'"]).
Proof.
  refine (proj1 (proj2 (cancel_failure_stops_scheduling configured node7 12
                          (answering refusing_cancel) (answering (tl refusing_cancel))
                          [task 5 "node7" "2024-05-01 11:58:20";
                           task 6 "node7" "2024-05-01 11:59:10"]
                          [EvRequest ReqActiveTasks] _
                          (Raise (HTTPError 500)) quiet_world _ _)
                   (HTTPError 500) eq_refl));
    vm_compute; reflexivity.
Defined.

(** ** The order of a deployment *)

(** Where the first call outside [P] is, the calls before it are. *)
Lemma first_outside (P : event -> bool) (evs1 evs2 pre post : list event) ev :
  forallb P evs1 = true -> P ev = false ->
  evs1 ++ evs2 = pre ++ ev :: post ->
  exists pre2, pre = evs1 ++ pre2 /\ evs2 = pre2 ++ ev :: post.
Proof.
  revert pre. induction evs1 as [| x evs1 IH]; intros pre Hall Hev Heq.
  - exists pre. auto.
  - simpl in Hall. apply andb_prop in Hall. destruct Hall as [Hx Hall].
    destruct pre as [| p pre]; simpl in Heq.
    + injection Heq as -> _. congruence.
    + injection Heq as <- Heq. destruct (IH pre Hall Hev Heq) as (pre2 & -> & ->).
      exists pre2. auto.
Qed.

Section CreateOrder.

Context {W : Type} `{!Runtime, !Http W, !Console W, !Remote W, !Clock W}.
Variable config : config_t.
Variable default_sleep : positive.
Variable self : FOG.

Lemma get_host_data_emits P :
  P (EvRequest (ReqHost (shortname self))) = true ->
  (forall msg, P (EvLog Error msg) = true) ->
  emits P (get_host_data config self).
Proof.
  intros Hreq Hlog. unfold get_host_data.
  apply emits_bind; [apply do_request_emits; assumption | intros resp].
  apply emits_bind; [apply emits_lift | intros obj].
  apply emits_bind; [apply emits_lift | intros count].
  apply emits_if; [apply emits_raise |].
  apply emits_bind; [apply emits_lift | intros many].
  apply emits_if; [apply emits_raise |].
  apply emits_bind; [apply emits_lift | intros hosts]. apply emits_lift.
Qed.

Lemma set_image_emits P host_id :
  (forall name, P (EvRequest (ReqImage name)) = true) ->
  P (EvRequest (ReqImageSearch (machine_type self))) = true ->
  (forall image_id, P (EvRequest (ReqSetImage host_id image_id)) = true) ->
  (forall lvl msg, P (EvLog lvl msg) = true) ->
  emits P (set_image config self host_id).
Proof.
  intros Hget Hsearch Hput Hlog. unfold set_image.
  apply emits_bind; [apply get_image_data_emits; auto | intros image].
  apply emits_bind; [apply emits_lift | intros id].
  apply emits_bind; [apply emits_lift | intros image_id].
  apply emits_bind; [apply emits_log; apply Hlog | intros _].
  apply emits_bind; [apply do_request_emits; auto | intros _]. apply emits_ret.
Qed.

Lemma cancel_all_quiet P tasks :
  (forall id, P (EvRequest (ReqCancel id)) = true) ->
  (forall lvl msg, P (EvLog lvl msg) = true) ->
  emits P (cancel_all config tasks).
Proof.
  intros Hcancel Hlog. induction tasks as [| task rest IH]; [apply emits_ret |].
  simpl. apply emits_bind; [apply emits_lift | intros id].
  apply emits_bind; [apply cancel_deploy_task_emits; auto | intros _].
  exact IH.
Qed.

Lemma schedule_deploy_task_emits P host_id :
  P (EvRequest ReqActiveTasks) = true ->
  (forall id, P (EvRequest (ReqCancel id)) = true) ->
  P (EvRequest ReqTaskType) = true ->
  (forall deploy_id, P (EvRequest (ReqSchedule host_id deploy_id)) = true) ->
  (forall t, P (EvNow t) = true) ->
  (forall lvl msg, P (EvLog lvl msg) = true) ->
  emits P (schedule_deploy_task config self host_id).
Proof.
  intros Hlist Hcancel Htype Hsched Hnow Hlog. unfold schedule_deploy_task.
  apply emits_bind; [apply emits_log; apply Hlog | intros _].
  apply emits_bind; [apply get_deploy_tasks_emits; auto | intros tasks].
  apply emits_bind; [apply cancel_all_quiet; auto | intros _].
  apply emits_bind; [apply do_request_emits; auto | intros resp].
  apply emits_bind; [apply emits_lift | intros obj].
  apply emits_bind; [apply emits_lift | intros all_types].
  apply emits_bind; [apply emits_lift | intros items].
  apply emits_bind; [apply emits_lift | intros tasktypes].
  apply emits_bind; [apply emits_lift | intros first_type].
  apply emits_bind; [apply emits_lift | intros id].
  apply emits_bind; [apply emits_lift | intros deploy_id].
  apply emits_bind; [apply do_request_emits; auto | intros _].
  apply emits_bind; [apply get_deploy_tasks_emits; auto | intros host_tasks].
  apply select_recent_emits. exact Hnow.
Qed.

Lemma create_until_scheduled_off_node :
  emits off_node (create_until_scheduled config self).
Proof.
  unfold create_until_scheduled.
  apply emits_bind.
  { intros w. rewrite enabled_quiet. reflexivity. }
  intros on. apply emits_if; [apply emits_raise |].
  apply emits_bind; [apply get_host_data_emits; reflexivity | intros host_data].
  apply emits_bind; [apply emits_lift | intros id].
  apply emits_bind; [apply emits_lift | intros host_id].
  apply emits_bind; [apply set_image_emits; reflexivity | intros _].
  apply schedule_deploy_task_emits; reflexivity.
Qed.

(** What follows the scheduling sets no image and schedules nothing. *)
Lemma after_scheduling_emits P task_id :
  (forall ev, host_of ev = None -> P ev = true) ->
  emits P (bind (try_except is_Exception
                   (power_cycle_and_wait config self task_id)
                   (fun e => bind (cancel_deploy_task config task_id) (fun _ => raise e)))
                (fun _ => after_deploy config default_sleep self)).
Proof.
  intros HP.
  apply emits_bind; [apply emits_try_except | intros _].
  - unfold power_cycle_and_wait.
    apply emits_bind; [apply emits_call; apply HP; reflexivity | intros _].
    apply emits_bind; [apply emits_call; apply HP; reflexivity | intros _].
    unfold wait_for_deploy_task.
    apply emits_bind; [apply emits_log; apply HP; reflexivity | intros _].
    apply poll_emits; [intros s; apply HP; reflexivity |].
    apply emits_bind; [| intros active; apply emits_ret].
    unfold deploy_task_active.
    apply emits_bind; [| intros host_tasks].
    { apply get_deploy_tasks_emits; [| intros msg]; apply HP; reflexivity. }
    apply emits_bind; [apply emits_lift | intros matches]. apply emits_ret.
  - intros e. apply emits_bind; [| intros _; apply emits_raise].
    apply cancel_deploy_task_emits; [| intros lvl msg]; apply HP; reflexivity.
  - unfold after_deploy.
    apply emits_bind; [| intros _].
    { unfold _wait_for_ready.
      apply emits_bind; [| intros _].
      { apply poll_emits; [intros s; apply HP; reflexivity |].
        apply connect_attempt_emits; [| intros msg]; apply HP; reflexivity. }
      apply emits_bind; [apply fog_get_emits | intros found].
      apply emits_bind; [| intros _; apply emits_log; apply HP; reflexivity].
      apply sentinel_step_emits. intros path.
      apply poll_emits; [intros s; apply HP; reflexivity |].
      apply sentinel_attempt_emits; [| intros msg]; apply HP; reflexivity. }
    apply emits_bind; [| intros _].
    { unfold _fix_hostname.
      apply emits_bind; [apply emits_call; apply HP; reflexivity | intros out].
      apply emits_bind; [apply emits_call; apply HP; reflexivity | intros out2].
      apply emits_bind.
      { apply emits_if; [| apply emits_ret].
        apply emits_bind; [apply emits_call; apply HP; reflexivity | intros _].
        apply emits_bind; [apply emits_call; apply HP; reflexivity | intros _].
        apply emits_bind; [intros w; reflexivity | intros new_ip].
        apply emits_call; apply HP; reflexivity. }
      intros _. apply emits_bind; [apply emits_call; apply HP; reflexivity | intros _].
      apply emits_call; apply HP; reflexivity. }
    apply emits_bind; [| intros _; apply emits_log; apply HP; reflexivity].
    unfold _verify_installed_os.
    apply emits_bind.
    { intros w. destruct (remote_os w). reflexivity. }
    intros found. apply emits_if; [apply emits_raise | apply emits_ret].
Qed.

(** A scheduling that returned has sent its request. *)
Lemma schedule_returned host_id (w w' : W) task_id evs :
  schedule_deploy_task config self host_id w = (Ok task_id, w', evs) ->
  exists deploy_id, In (EvRequest (ReqSchedule host_id deploy_id)) evs.
Proof.
  intros Hrun. unfold schedule_deploy_task in Hrun.
  bind_ok_inv Hrun u0 w0 e0 Hlog.
  bind_ok_inv Hrun stale w1 e1 Hlist.
  bind_ok_inv Hrun u2 w2 e2 Hcancel.
  bind_ok_inv Hrun resp w3 e3 Htype.
  bind_ok_inv Hrun obj w4 e4 Hobj.
  bind_ok_inv Hrun all_types w5 e5 Hall.
  bind_ok_inv Hrun items w6 e6 Hitems.
  bind_ok_inv Hrun tasktypes w7 e7 Htypes.
  bind_ok_inv Hrun first_type w8 e8 Hfirst.
  bind_ok_inv Hrun tid w9 e9 Htid.
  bind_ok_inv Hrun deploy_id w10 e10 Hint.
  bind_ok_inv Hrun resp2 w11 e11 Hreq.
  exists deploy_id. rewrite (verified_request _ _ _ _ _ _ Hreq).
  do 11 (apply in_or_app; right). apply in_or_app. left. left. reflexivity.
Qed.

(** A [set_image] that returned has sent its request. *)
Lemma set_image_returned host_id (w w' : W) evs :
  set_image config self host_id w = (Ok tt, w', evs) ->
  exists image_id, In (EvRequest (ReqSetImage host_id image_id)) evs.
Proof.
  intros Hrun. unfold set_image in Hrun.
  bind_ok_inv Hrun image w1 evs1 Hget.
  bind_ok_inv Hrun iid w2 evs2 Hid.
  bind_ok_inv Hrun image_id w3 evs3 Hint.
  bind_ok_inv Hrun u w4 evs4 Hlog.
  bind_ok_inv Hrun resp w5 evs5 Hreq.
  exists image_id. rewrite (verified_request _ _ _ _ _ _ Hreq).
  do 4 (apply in_or_app; right). apply in_or_app. left. left. reflexivity.
Qed.

Lemma create_until_scheduled_returned (w w1 : W) task_id evs1 :
  create_until_scheduled config self w = (Ok task_id, w1, evs1) ->
  exists host_id image_id deploy_id before between after,
    evs1 = before ++ EvRequest (ReqSetImage host_id image_id) :: between ++
           EvRequest (ReqSchedule host_id deploy_id) :: after.
Proof.
  intros Hrun. unfold create_until_scheduled in Hrun.
  rewrite (bind_ok _ _ _ _ _ _ (enabled_quiet config w)) in Hrun.
  destruct (unset config); [| discriminate]. cbn [negb app] in Hrun.
  destruct (bind _ _ w) as [[r0 w0] evs0] eqn:Hrest in Hrun.
  injection Hrun as -> -> ->.
  bind_ok_inv Hrest host w2 e2 Hhost.
  bind_ok_inv Hrest hid w3 e3 Hid.
  bind_ok_inv Hrest host_id w4 e4 Hint.
  bind_ok_inv Hrest u w5 e5 Hset. destruct u.
  destruct (set_image_returned _ _ _ _ Hset) as (image_id & Hput).
  destruct (schedule_returned _ _ _ _ _ Hrest) as (deploy_id & Hpost).
  apply in_split in Hput. destruct Hput as (s1 & s2 & ->).
  apply in_split in Hpost. destruct Hpost as (t1 & t2 & Heq).
  exists host_id, image_id, deploy_id, (e2 ++ e3 ++ e4 ++ s1), (s2 ++ t1), t2.
  rewrite Heq. rewrite <- ?app_assoc. simpl. rewrite <- ?app_assoc. reflexivity.
Qed.

(** X13: [create] reaches for the node or its console only after the
    server has accepted the image and the deploy task of one host: before
    any call that powers the node off or on, connects to it or runs a
    command on it, the request that sets the image and then the request
    that schedules the task have been sent.  The first such call is the
    power-off. *)
Theorem create_touches_node_after_scheduling (w w' : W) r evs pre ev post :
  create config default_sleep self w = (r, w', evs) ->
  evs = pre ++ ev :: post ->
  touches_node ev = true ->
  (exists host_id image_id deploy_id before between after,
      pre = before ++ EvRequest (ReqSetImage host_id image_id) :: between ++
            EvRequest (ReqSchedule host_id deploy_id) :: after) /\
  (forallb off_node pre = true -> ev = EvPowerOff).
Proof.
  intros Hrun Heq Hnode. rewrite create_phases in Hrun. apply bind_inv in Hrun.
  assert (Hev : off_node ev = false) by (unfold off_node; rewrite Hnode; reflexivity).
  destruct Hrun as [(e & Hsched & _) | (task_id & w1 & evs1 & evs2 & Hsched & Hrest & Hevs)].
  { exfalso.
    pose proof (emits_run _ _ _ _ _ _ create_until_scheduled_off_node Hsched) as Hall.
    rewrite forallb_forall in Hall.
    rewrite (Hall ev) in Hev; [discriminate |].
    rewrite Heq. apply in_or_app. right. left. reflexivity. }
  pose proof (emits_run _ _ _ _ _ _ create_until_scheduled_off_node Hsched) as Hall.
  rewrite Heq in Hevs. symmetry in Hevs.
  destruct (first_outside _ _ _ _ _ _ Hall Hev Hevs) as (pre2 & -> & Hevs2).
  destruct (create_until_scheduled_returned _ _ _ _ Hsched)
    as (host_id & image_id & deploy_id & before & between & after & ->).
  split.
  - exists host_id, image_id, deploy_id, before, between, (after ++ pre2).
    rewrite <- ?app_assoc. simpl. rewrite <- ?app_assoc. reflexivity.
  - intros Hpre. rewrite forallb_app in Hpre. apply andb_prop in Hpre.
    destruct Hpre as [_ Hpre2].
    assert (Hfirst : exists rest, evs2 = EvPowerOff :: rest).
    { revert Hrest. unfold bind, try_except, power_cycle_and_wait, bind, call.
      destruct (power_off w1) as [[[] | e] w2].
      - destruct (power_on w2) as [[[] | e] w3].
        + destruct (wait_for_deploy_task config self task_id w3) as [[[[] | e] w4] e4].
          * destruct (after_deploy config default_sleep self w4) as [[r5 w5] e5].
            intros [= _ _ <-]. simpl. eauto.
          * destruct (is_Exception e).
            -- destruct (cancel_deploy_task config task_id w4) as [[[[] | e'] w5] e5];
                 intros [= _ _ <-]; simpl; eauto.
            -- intros [= _ _ <-]. simpl. eauto.
        + destruct (is_Exception e).
          * destruct (cancel_deploy_task config task_id w3) as [[[[] | e'] w5] e5];
              intros [= _ _ <-]; simpl; eauto.
          * intros [= _ _ <-]. simpl. eauto.
      - destruct (is_Exception e).
        + destruct (cancel_deploy_task config task_id w2) as [[[[] | e'] w5] e5];
            intros [= _ _ <-]; simpl; eauto.
        + intros [= _ _ <-]. simpl. eauto. }
    destruct Hfirst as (rest & Hfirst). rewrite Hfirst in Hevs2.
    destruct pre2 as [| p pre2]; simpl in Hevs2.
    + injection Hevs2 as <- _. reflexivity.
    + injection Hevs2 as <- _. simpl in Hpre2. discriminate.
Qed.

(** X14: whatever image [create] sets and whatever task it schedules is for
    the host that the host search returned, with the id of that record read
    as an integer. *)
Theorem create_deploys_found_host (w w' : W) r evs ev h :
  create config default_sleep self w = (r, w', evs) ->
  In ev evs ->
  host_of ev = Some h ->
  exists host w1 evs1 id,
    get_host_data config self w = (Ok host, w1, evs1) /\
    getitem host "id" = Ok id /\ int_of id h.
Proof.
  intros Hrun Hin Hhost.
  assert (Hnone : forall l, forallb for_no_host l = true -> ~ In ev l).
  { intros l Hall Hl. rewrite forallb_forall in Hall. specialize (Hall _ Hl).
    unfold for_no_host in Hall. rewrite Hhost in Hall. discriminate. }
  unfold create in Hrun.
  rewrite (bind_ok _ _ _ _ _ _ (enabled_quiet config w)) in Hrun.
  destruct (unset config).
  2: { injection Hrun as _ _ <-. destruct Hin. }
  cbn [negb app] in Hrun.
  destruct (bind _ _ w) as [[r0 w0] evs0] eqn:Hrest in Hrun.
  injection Hrun as -> -> ->.
  apply bind_inv in Hrest.
  destruct Hrest as [(e & Hget & _) | (host & w1 & evs1 & evs2 & Hget & Hrest & ->)].
  { destruct (Hnone _ (emits_run _ _ _ _ _ _
                         (get_host_data_emits for_no_host eq_refl (fun _ => eq_refl))
                         Hget) Hin). }
  apply in_app_or in Hin. destruct Hin as [Hin | Hin].
  { destruct (Hnone _ (emits_run _ _ _ _ _ _
                         (get_host_data_emits for_no_host eq_refl (fun _ => eq_refl))
                         Hget) Hin). }
  apply bind_inv in Hrest.
  destruct Hrest as [(e & Hid & _) | (hid & w2 & e2 & evs3 & Hid & Hrest & ->)].
  { injection Hid as _ _ <-. destruct Hin. }
  injection Hid as Hid <- <-. simpl in Hin.
  apply bind_inv in Hrest.
  destruct Hrest as [(e & Hint & _) | (host_id & w3 & e3 & evs4 & Hint & Hrest & ->)].
  { injection Hint as _ _ <-. destruct Hin. }
  injection Hint as Hint <- <-. simpl in Hin.
  assert (Hfor : emits (for_host host_id)
                   (bind (set_image config self host_id) (fun _ =>
                    bind (schedule_deploy_task config self host_id) (fun task_id =>
                    bind (try_except is_Exception
                            (power_cycle_and_wait config self task_id)
                            (fun e => bind (cancel_deploy_task config task_id)
                                        (fun _ => raise e)))
                         (fun _ => after_deploy config default_sleep self))))).
  { assert (Hself : forall i, (i =? i) = true) by (intros i; apply Z.eqb_refl).
    apply emits_bind; [| intros _].
    { apply set_image_emits; try reflexivity. intros image_id. apply Hself. }
    apply emits_bind; [| intros task_id].
    { apply schedule_deploy_task_emits; try reflexivity. intros d. apply Hself. }
    apply after_scheduling_emits. intros ev0 Hev0. unfold for_host. rewrite Hev0.
    reflexivity. }
  pose proof (emits_run _ _ _ _ _ _ Hfor Hrest) as Hall.
  rewrite forallb_forall in Hall. specialize (Hall _ Hin).
  unfold for_host in Hall. rewrite Hhost in Hall. apply Z.eqb_eq in Hall. subst h.
  exists host, w1, evs1, hid.
  split; [exact Hget |]. split; [exact Hid | apply py_int_reads; exact Hint].
Qed.

End CreateOrder.

(** A run of X13: the power-off fails after image 42 was set and the task
    scheduled for host 12. *)
Lemma create_touches_node_after_scheduling_witness :
  let pre := [EvRequest (ReqHost "node7");
              EvRequest (ReqImage "smithi_centos_8.stream");
              EvLog Debug "Requesting image {image_name} (ID {image_id})";
              EvRequest (ReqSetImage 12 42);
              EvLog Info "Scheduling deploy of %s %s";
              EvRequest ReqActiveTasks; EvRequest ReqTaskType;
              EvRequest (ReqSchedule 12 3); EvRequest ReqActiveTasks;
              EvNow 1714564803000000] in
  (exists host_id image_id deploy_id before between after,
      pre = before ++ EvRequest (ReqSetImage host_id image_id) :: between ++
            EvRequest (ReqSchedule host_id deploy_id) :: after) /\
  (forallb off_node pre = true -> EvPowerOff = EvPowerOff).
Proof.
  intros pre.
  refine (create_touches_node_after_scheduling configured 6 node7
            (deploying [Raise OSError] [status 200]) quiet_world (Raise OSError)
            _ pre EvPowerOff
            [EvLog Debug "Canceling deploy task with ID {task_id}";
             EvRequest (ReqCancel (JInt 7))] _ eq_refl eq_refl);
    vm_compute; reflexivity.
Defined.

(** A run of X14: the host search returned the record with id 12. *)
Lemma create_deploys_found_host_witness :
  exists host w1 evs1 id,
    get_host_data configured node7 (deploying [Raise OSError] [status 200]) =
      (Ok host, w1, evs1) /\
    getitem host "id" = Ok id /\ int_of id 12.
Proof.
  refine (create_deploys_found_host configured 6 node7
            (deploying [Raise OSError] [status 200]) quiet_world (Raise OSError)
            _ (EvRequest (ReqSchedule 12 3)) 12 _ _ eq_refl).
  - vm_compute. reflexivity.
  - vm_compute. tauto.
Defined.

(** ** Readiness of the node *)

Lemma ssh_retried_caught (e : exc) : ssh_retried e = true <-> ssh_caught e.
Proof.
  unfold ssh_caught. split.
  - destruct e; simpl; try discriminate; intros _; eauto 10.
  - intros [-> | [-> | [-> | [(status & ->) | [-> | [-> | ->]]]]]]; reflexivity.
Qed.

Lemma sentinel_retried_caught (e : exc) : sentinel_retried e = true <-> sentinel_caught e.
Proof.
  unfold sentinel_caught. split.
  - destruct e; simpl; try discriminate; intros _; auto.
  - intros [-> | ->]; reflexivity.
Qed.

Section Ready.

Context {W : Type} `{!Remote W, !Clock W}.
Variable config : config_t.
Variable default_sleep : positive.

(** How an attempt to connect ends, by the answer of the node. *)
Lemma connect_attempt_run (w0 w1 : W) r0 evs1 :
  connect_attempt w0 = (r0, w1, evs1) ->
  match r0 with
  | Ok true => connect w0 = (Ok tt, w1) /\ evs1 = [EvConnect]
  | Ok false => exists e, connect w0 = (Raise e, w1) /\ ssh_caught e
  | Raise e => connect w0 = (Raise e, w1) /\ ~ ssh_caught e /\ evs1 = [EvConnect]
  end.
Proof.
  unfold connect_attempt, try_except, bind, call, log, ret.
  destruct (connect w0) as [[[] | e] w2]; simpl.
  - intros [= <- <- <-]. auto.
  - destruct (ssh_retried e) eqn:Hretried; intros [= <- <- <-].
    + exists e. split; [reflexivity |]. apply ssh_retried_caught. exact Hretried.
    + split; [reflexivity |]. split; [| reflexivity].
      intros Hcaught. apply ssh_retried_caught in Hcaught. congruence.
Qed.

Lemma sentinel_attempt_run path (w0 w1 : W) r0 evs1 :
  sentinel_attempt path w0 = (r0, w1, evs1) ->
  match r0 with
  | Ok true =>
      run (CmdWaitSentinel path) true (Some 600) w0 = (Ok tt, w1) /\
      evs1 = [EvRun (CmdWaitSentinel path) true]
  | Ok false =>
      exists e, run (CmdWaitSentinel path) true (Some 600) w0 = (Raise e, w1) /\
                sentinel_caught e
  | Raise e =>
      run (CmdWaitSentinel path) true (Some 600) w0 = (Raise e, w1) /\
      ~ sentinel_caught e /\ evs1 = [EvRun (CmdWaitSentinel path) true]
  end.
Proof.
  unfold sentinel_attempt, try_except, bind, call, log, ret.
  destruct (run (CmdWaitSentinel path) true (Some 600) w0) as [[[] | e] w2]; simpl.
  - intros [= <- <- <-]. auto.
  - destruct (sentinel_retried e) eqn:Hretried; intros [= <- <- <-].
    + exists e. split; [reflexivity |]. apply sentinel_retried_caught. exact Hretried.
    + split; [reflexivity |]. split; [| reflexivity].
      intros Hcaught. apply sentinel_retried_caught in Hcaught. congruence.
Qed.

(** X15: a run of [_wait_for_ready] that returns has ended its first loop
    with a connection that succeeded; the configuration has a [fog] section;
    when it names a sentinel file, the wait for it started where the
    connection left the node and ended with a run of the sentinel command
    that succeeded, and otherwise nothing was done in between; and the run
    ends with the message that the node is ready.  A run that raises has not
    logged that the node is ready, and it raises [MaxWhileTries]; or the
    exception of the connection it made last, of a class the first loop does
    not catch; or [AttributeError], after the connection succeeded, because
    the configuration has no [fog] section; or the exception of the sentinel
    command it ran last, of a class the second loop does not catch. *)
Theorem wait_for_ready_ends (w w' : W) r evs :
  _wait_for_ready config default_sleep w = (r, w', evs) ->
  match r with
  | Ok _ =>
      exists w0 w1 before waited,
        connect w0 = (Ok tt, w1) /\
        fog_section config <> None /\
        match sentinel_file config with
        | Some path =>
            wait_for_sentinel default_sleep path w1 = (Ok tt, w', waited) /\
            exists w2 retried,
              run (CmdWaitSentinel path) true (Some 600) w2 = (Ok tt, w') /\
              waited = retried ++ [EvRun (CmdWaitSentinel path) true]
        | None => w1 = w' /\ waited = []
        end /\
        evs = before ++ EvConnect :: waited ++ [EvLog Info "Node is ready"]
  | Raise e =>
      forallb not_ready evs = true /\
      (e = MaxWhileTries \/
       (exists w0 before,
           connect w0 = (Raise e, w') /\ ~ ssh_caught e /\
           evs = before ++ [EvConnect]) \/
       (e = AttributeError /\ fog_section config = None /\
        exists w0 before,
          connect w0 = (Ok tt, w') /\ evs = before ++ [EvConnect]) \/
       (exists path w0 before,
           sentinel_file config = Some path /\
           run (CmdWaitSentinel path) true (Some 600) w0 = (Raise e, w') /\
           ~ sentinel_caught e /\
           evs = before ++ [EvRun (CmdWaitSentinel path) true]))
  end.
Proof.
  intros Hrun. rewrite wait_for_ready_phases in Hrun.
  assert (Hssh_quiet : emits not_ready (poll (sw_sleeps (ssh_wait config))
                                          (connect_attempt (W := W)))).
  { apply poll_emits; [reflexivity |]. apply connect_attempt_emits; reflexivity. }
  assert (Hsentinel_quiet : forall path,
             emits not_ready (wait_for_sentinel (W := W) default_sleep path)).
  { intros path. apply poll_emits; [reflexivity |].
    apply sentinel_attempt_emits; reflexivity. }
  apply bind_inv in Hrun.
  destruct Hrun as [(e & Hssh & ->) | (u & w1 & evs1 & evs2 & Hssh & Hrest & ->)].
  { split; [exact (emits_run _ _ _ _ _ _ Hssh_quiet Hssh) |].
    apply poll_last in Hssh; [| apply connect_attempt_emits; reflexivity].
    destruct Hssh as (w0 & evs0 & r0 & evs3 & k & Hlast & -> & _ & Hend).
    apply connect_attempt_run in Hlast.
    destruct r0 as [[|] | e0].
    - discriminate.
    - destruct Hend as [[= ->] _]. left. reflexivity.
    - injection Hend as ->. right. left. destruct Hlast as (Hconnect & Hclass & ->).
      exists w0, evs0. auto. }
  pose proof (emits_run _ _ _ _ _ _ Hssh_quiet Hssh) as Hquiet1.
  apply poll_last in Hssh; [| apply connect_attempt_emits; reflexivity].
  destruct Hssh as (w0 & evs0 & r0 & evs3 & k & Hlast & -> & _ & Hend).
  apply connect_attempt_run in Hlast.
  destruct r0 as [[|] | e0]; [| destruct Hend; discriminate | discriminate].
  destruct Hlast as (Hconnect & ->). clear Hend.
  destruct (fog_section config) as [section |] eqn:Hsection.
  2: { injection Hrest as <- <- <-. rewrite app_nil_r.
       split; [exact Hquiet1 |]. right. right. left.
       split; [reflexivity |]. split; [reflexivity |]. exists w0, evs0. auto. }
  apply bind_inv in Hrest.
  destruct Hrest as [(e & Hsent & ->) | (u2 & w2 & evs4 & evs5 & Hsent & Hlog & ->)].
  - destruct (sentinel_file config) as [path |] eqn:Hfile; [| discriminate].
    split.
    + rewrite forallb_app, Hquiet1.
      exact (emits_run _ _ _ _ _ _ (Hsentinel_quiet path) Hsent).
    + unfold wait_for_sentinel in Hsent.
      apply poll_last in Hsent; [| apply sentinel_attempt_emits; reflexivity].
      destruct Hsent as (w3 & evs6 & r3 & evs7 & k3 & Hlast & -> & _ & Hend).
      apply sentinel_attempt_run in Hlast.
      destruct r3 as [[|] | e3].
      * discriminate.
      * destruct Hend as [[= ->] _]. left. reflexivity.
      * injection Hend as ->. right. right. right.
        destruct Hlast as (Hran & Hclass & ->).
        exists path, w3, ((evs0 ++ [EvConnect]) ++ evs6).
        split; [reflexivity |]. split; [exact Hran |]. split; [exact Hclass |].
        rewrite <- !app_assoc. reflexivity.
  - injection Hlog as <- <- <-. destruct u2.
    exists w0, w1, evs0, evs4.
    split; [exact Hconnect |]. split; [discriminate |]. split.
    + destruct (sentinel_file config) as [path |] eqn:Hfile.
      * split; [exact Hsent |]. unfold wait_for_sentinel in Hsent.
        apply poll_last in Hsent; [| apply sentinel_attempt_emits; reflexivity].
        destruct Hsent as (w3 & evs6 & r3 & evs7 & k3 & Hlast & -> & _ & Hend).
        apply sentinel_attempt_run in Hlast.
        destruct r3 as [[|] | e3]; [| destruct Hend; discriminate | discriminate].
        destruct Hlast as (Hran & ->). exists w3, evs6. auto.
      * injection Hsent as <- <-. auto.
    + rewrite <- !app_assoc. reflexivity.
Qed.

End Ready.

(** A run of X15: the third connection succeeds, after two failures of
    classes that are caught. *)
Lemma wait_for_ready_ends_witness :
  let rested := {| responses := []; powers := []; connects := []; runs := [];
                   outputs := []; clock := []; address := "10.0.0.7";
                   system := {| os_name := "CentOS"; os_version_of := "8.stream" |};
                   slept := 12 |} in
  exists w0 w1 before waited,
    connect w0 = (Ok tt, w1) /\
    fog_section configured <> None /\
    match sentinel_file configured with
    | Some path =>
        wait_for_sentinel 6 path w1 = (Ok tt, rested, waited) /\
        exists w2 retried,
          run (CmdWaitSentinel path) true (Some 600) w2 = (Ok tt, rested) /\
          waited = retried ++ [EvRun (CmdWaitSentinel path) true]
    | None => w1 = rested /\ waited = []
    end /\
    [EvConnect; EvLog Warning "%s"; EvSleep 6; EvConnect; EvLog Warning "%s"; EvSleep 6;
     EvConnect; EvLog Info "Node is ready"] =
    before ++ EvConnect :: waited ++ [EvLog Info "Node is ready"].
Proof.
  intros rested.
  refine (wait_for_ready_ends configured 6 flaky_ssh rested (Ok tt) _ _).
  vm_compute. reflexivity.
Defined.

(** ** The commands of the hostname fix *)

Section HostnameCommands.

Context {W : Type} `{!Remote W}.
Variable self : FOG.

Ltac trace :=
  repeat split; intros; simpl in *;
  repeat match goal with
         | H : _ \/ _ |- _ => destruct H
         | H : False |- _ => destruct H
         | H : EvRun _ _ = EvRun _ _ |- _ => injection H as ? ?; subst
         | H : _ = EvRun _ _ |- _ => try discriminate H
         | H : CmdSed _ _ _ = CmdSed _ _ _ |- _ => injection H as ? ? ?; subst
         | H : CmdSetHostname _ = CmdSetHostname _ |- _ => injection H as ?; subst
         end; try discriminate; try congruence; auto.

(** X16: in every run of [_fix_hostname], a command whose failure is not
    tolerated is run only when [grep] printed a line of [/etc/hosts] for the
    host name the node reported; [/etc/hosts] is edited only by such
    commands, so it is left alone when [grep] printed nothing; the host
    name is only ever set to the short name of the target; and
    [/etc/hostname] is edited only to put the short name in, by a command
    whose failure is tolerated.  A run that returns ends with that edit of
    [/etc/hostname] and the setting of the host name, in this order. *)
Theorem fix_hostname_commands (w w' : W) r evs :
  _fix_hostname self w = (r, w', evs) ->
  (forall c, In (EvRun c true) evs ->
     exists out1 w1 out2 w2,
       sh CmdHostname true w = (Ok out1, w1) /\
       sh (CmdGrepHosts (strip out1)) false w1 = (Ok out2, w2) /\
       strip out2 <> EmptyString) /\
  (forall old new cs, In (EvRun (CmdSed old new EtcHosts) cs) evs -> cs = true) /\
  (forall name cs, In (EvRun (CmdSetHostname name) cs) evs -> name = shortname self) /\
  (forall old new cs, In (EvRun (CmdSed old new EtcHostname) cs) evs ->
     new = shortname self /\ cs = false) /\
  (r = Ok tt ->
   exists before old,
     evs = before ++ [EvRun (CmdSed old (shortname self) EtcHostname) false;
                      EvRun (CmdSetHostname (shortname self)) false]).
Proof.
  unfold _fix_hostname, bind, call, ret.
  destruct (sh CmdHostname true w) as [[out1 | e] w1] eqn:H1.
  2: { intros [= <- <- <-]. trace. }
  destruct (sh (CmdGrepHosts (strip out1)) false w1) as [[out2 | e] w2] eqn:H2.
  2: { intros [= <- <- <-]. trace. }
  destruct (String.eqb_spec (strip out2) "") as [Hblank | Hfound]; cbn [negb];
    repeat match goal with
           | |- context [run ?c ?cs ?t ?w0] => destruct (run c cs t w0) as [[[] | ?] ?]
           end;
    intros [= <- <- <-]; trace;
    try (exists out1, w1, out2, w2; auto);
    try (eexists [_; _], _; reflexivity);
    try (eexists [_; _; _; _; _], _; reflexivity).
Qed.

End HostnameCommands.

(** A run of X16: [grep] printed the line of the machine the image was
    taken from. *)
Lemma fix_hostname_commands_witness :
  let evs := [EvSh CmdHostname true; EvSh (CmdGrepHosts "fog") false;
              EvRun (CmdSetHostname "node7") true;
              EvRun (CmdSed "fog" "node7" EtcHosts) true;
              EvRun (CmdSed "10.0.0.1" "10.0.0.7" EtcHosts) true;
              EvRun (CmdSed "fog" "node7" EtcHostname) false;
              EvRun (CmdSetHostname "node7") false] in
  (forall c, In (EvRun c true) evs ->
     exists out1 w1 out2 w2,
       sh CmdHostname true imaged = (Ok out1, w1) /\
       sh (CmdGrepHosts (strip out1)) false w1 = (Ok out2, w2) /\
       strip out2 <> EmptyString) /\
  (forall old new cs, In (EvRun (CmdSed old new EtcHosts) cs) evs -> cs = true) /\
  (forall name cs, In (EvRun (CmdSetHostname name) cs) evs -> name = shortname node7) /\
  (forall old new cs, In (EvRun (CmdSed old new EtcHostname) cs) evs ->
     new = shortname node7 /\ cs = false) /\
  (Ok tt = Ok tt ->
   exists before old,
     evs = before ++ [EvRun (CmdSed old (shortname node7) EtcHostname) false;
                      EvRun (CmdSetHostname (shortname node7)) false]).
Proof.
  intros evs.
  apply (fix_hostname_commands node7 imaged quiet_world (Ok tt) evs).
  vm_compute. reflexivity.
Defined.

(** ** A deployment that completes *)

Section Completion.

Context {W : Type} `{!Runtime, !Http W, !Console W, !Remote W, !Clock W}.
Variable config : config_t.
Variable default_sleep : positive.
Variable self : FOG.

Lemma wait_for_deploy_task_not_power task_id :
  emits not_power (wait_for_deploy_task config self task_id).
Proof.
  unfold wait_for_deploy_task.
  apply emits_bind; [apply emits_log; reflexivity | intros _].
  apply poll_emits; [reflexivity |].
  apply emits_bind; [| intros active; apply emits_ret].
  unfold deploy_task_active.
  apply emits_bind; [apply get_deploy_tasks_emits; reflexivity | intros host_tasks].
  apply emits_bind; [apply emits_lift | intros matches]. apply emits_ret.
Qed.

Lemma wait_for_ready_not_power :
  emits not_power (_wait_for_ready (W := W) config default_sleep).
Proof.
  unfold _wait_for_ready.
  apply emits_bind; [| intros _].
  { apply poll_emits; [reflexivity |]. apply connect_attempt_emits; reflexivity. }
  apply emits_bind; [apply fog_get_emits | intros found].
  apply emits_bind; [| intros _; apply emits_log; reflexivity].
  apply sentinel_step_emits. intros path.
  apply poll_emits; [reflexivity |]. apply sentinel_attempt_emits; reflexivity.
Qed.

Lemma fix_hostname_not_power : emits not_power (_fix_hostname (W := W) self).
Proof.
  unfold _fix_hostname.
  apply emits_bind; [apply emits_call; reflexivity | intros out].
  apply emits_bind; [apply emits_call; reflexivity | intros out2].
  apply emits_bind.
  { apply emits_if; [| apply emits_ret].
    apply emits_bind; [apply emits_call; reflexivity | intros _].
    apply emits_bind; [apply emits_call; reflexivity | intros _].
    apply emits_bind; [intros w; reflexivity | intros new_ip].
    apply emits_call; reflexivity. }
  intros _. apply emits_bind; [apply emits_call; reflexivity | intros _].
  apply emits_call; reflexivity.
Qed.

Lemma verify_installed_os_not_power :
  emits not_power (_verify_installed_os (W := W) self).
Proof.
  unfold _verify_installed_os.
  apply emits_bind.
  { intros w. destruct (remote_os w). reflexivity. }
  intros found. apply emits_if; [apply emits_raise | apply emits_ret].
Qed.

(** A wait for the node that returned has connected to it. *)
Lemma wait_for_ready_connected (w w' : W) evs :
  _wait_for_ready config default_sleep w = (Ok tt, w', evs) -> In EvConnect evs.
Proof.
  intros Hrun. unfold _wait_for_ready in Hrun.
  bind_ok_inv Hrun u w1 evs1 Hssh.
  apply in_or_app. left.
  apply poll_last in Hssh; [| apply connect_attempt_emits; reflexivity].
  destruct Hssh as (w0 & evs0 & r0 & evs3 & k & Hlast & -> & _ & Hend).
  apply in_or_app. right.
  destruct r0 as [[|] | e0]; [| destruct Hend; discriminate | discriminate].
  revert Hlast. unfold connect_attempt, try_except, bind, call, log, ret.
  destruct (connect w0) as [[[] | e] w2]; simpl.
  - intros [= _ <-]. left. reflexivity.
  - destruct (ssh_retried e); discriminate.
Qed.

(** X17: a [create] that returns has powered the node off and then on,
    once each and with nothing in between; before that it made no call to
    the node or its console; after that it connected to the node; and the
    last thing it did was to log that the deploy is complete. *)
Theorem create_returns (w w' : W) evs :
  create config default_sleep self w = (Ok tt, w', evs) ->
  exists pre post,
    evs = pre ++ EvPowerOff :: EvPowerOn :: post ++ [EvLog Info "Deploy complete!"] /\
    forallb off_node pre = true /\
    forallb not_power post = true /\
    In EvConnect post.
Proof.
  intros Hrun. rewrite create_phases in Hrun.
  bind_ok_inv Hrun task_id w1 evs1 Hsched.
  bind_ok_inv Hrun u w2 evs2 Hcycle.
  assert (Hpower : exists waited,
             evs2 = EvPowerOff :: EvPowerOn :: waited /\
             forallb not_power waited = true).
  { revert Hcycle. unfold try_except, power_cycle_and_wait, bind, call.
    destruct (power_off w1) as [[[] | e] w3].
    - destruct (power_on w3) as [[[] | e] w4].
      + destruct (wait_for_deploy_task config self task_id w4) as [[[[] | e] w5] e5] eqn:Hwait.
        * intros [= _ <- <-]. exists e5. split; [reflexivity |].
          exact (emits_run _ _ _ _ _ _ (wait_for_deploy_task_not_power task_id) Hwait).
        * destruct (is_Exception e); [| discriminate].
          destruct (cancel_deploy_task config task_id w5) as [[[[] | e'] w6] e6];
            discriminate.
      + destruct (is_Exception e); [| discriminate].
        destruct (cancel_deploy_task config task_id w4) as [[[[] | e'] w6] e6];
          discriminate.
    - destruct (is_Exception e); [| discriminate].
      destruct (cancel_deploy_task config task_id w3) as [[[[] | e'] w6] e6];
        discriminate. }
  destruct Hpower as (waited & -> & Hwaited).
  unfold after_deploy in Hrun.
  bind_ok_inv Hrun u3 w3 evs3 Hready.
  bind_ok_inv Hrun u4 w4 evs4 Hfix.
  bind_ok_inv Hrun u5 w5 evs5 Hverify.
  injection Hrun as _ <-. destruct u3.
  exists evs1, (waited ++ evs3 ++ evs4 ++ evs5).
  split; [| split; [| split]].
  - simpl. rewrite <- ?app_assoc. reflexivity.
  - exact (emits_run _ _ _ _ _ _ (create_until_scheduled_off_node config self) Hsched).
  - rewrite !forallb_app, Hwaited.
    rewrite (emits_run _ _ _ _ _ _ wait_for_ready_not_power Hready).
    rewrite (emits_run _ _ _ _ _ _ fix_hostname_not_power Hfix).
    rewrite (emits_run _ _ _ _ _ _ verify_installed_os_not_power Hverify).
    reflexivity.
  - apply in_or_app. right. apply in_or_app. left.
    exact (wait_for_ready_connected _ _ _ Hready).
Qed.

End Completion.

(** A run of X17: the deploy of task 7 has finished at the first poll, and
    the node answers at once. *)
Lemma create_returns_witness :
  exists pre post,
    [EvRequest (ReqHost "node7");
     EvRequest (ReqImage "smithi_centos_8.stream");
     EvLog Debug "Requesting image {image_name} (ID {image_id})";
     EvRequest (ReqSetImage 12 42);
     EvLog Info "Scheduling deploy of %s %s";
     EvRequest ReqActiveTasks; EvRequest ReqTaskType;
     EvRequest (ReqSchedule 12 3); EvRequest ReqActiveTasks;
     EvNow 1714564803000000; EvPowerOff; EvPowerOn;
     EvLog Info "Waiting for deploy to finish";
     EvRequest ReqActiveTasks; EvConnect; EvLog Info "Node is ready";
     EvSh CmdHostname true; EvSh (CmdGrepHosts "") false;
     EvRun (CmdSed "" "node7" EtcHostname) false;
     EvRun (CmdSetHostname "node7") false; EvLog Info "Deploy complete!"] =
    pre ++ EvPowerOff :: EvPowerOn :: post ++ [EvLog Info "Deploy complete!"] /\
    forallb off_node pre = true /\
    forallb not_power post = true /\
    In EvConnect post.
Proof.
  apply (create_returns configured 6 node7 (deploying [] [tasks []]) quiet_world).
  vm_compute. reflexivity.
Defined.
